(** * Yazbaka: the synchronisation decision engine of [yazbaka.py]

    A shallow embedding of the methods of class [Yazbaka] that decide
    whether to snapshot and what to transfer, followed by the properties
    proved about them.

    Conventions of the embedding.
    - A Python [str] is a [string]; indices and integers are [Z].
    - A raised exception is a value of [exn]; a method that can raise
      returns a [result].
    - [subprocess.run] is a query to an external store, [store]; methods
      that issue commands live in the monad [M], which threads the list of
      commands issued so far.
    - What the program prints (the progress lines, and the echo of a
      command under [verbose]) has no part in any decision and is left out. *)

From Stdlib Require Import ZArith Ascii String Lia Bool.
From stdpp Require Import base relations list strings sorting.
From Equations Require Import Equations.

Local Open Scope Z_scope.

(** ** Exceptions and results *)

Inductive exn : Type :=
  | ZFSError (msg : string)
  | NoMatchingSnapshots (msg : string)
  | PermissionError (msg : string)
  | ValueError
  | IndexError
  | AttributeError
  | OverflowError
  | TypeError.

Inductive result (A : Type) : Type :=
  | Ok (a : A)
  | Raise (e : exn).
Arguments Ok {A} a.
Arguments Raise {A} e.

(** Sequencing: the first exception raised ends the computation.  The
    notation [x ← r; k] is stdpp's, for any [MBind]. *)
Global Instance result_ret : MRet result := @Ok.
Global Instance result_bind : MBind result := λ A B k r,
  match r with
  | Ok a => k a
  | Raise e => Raise e
  end.

(** [o] or raise [e]: the shape of [f(...).group(0)] and of [l[i]]. *)
Definition or_raise {A} (e : exn) (o : option A) : result A :=
  match o with
  | Some a => Ok a
  | None => Raise e
  end.

(** ** Python string primitives *)

Module Py.

Definition tab : ascii := Ascii.ascii_of_nat 9.
Definition LF : ascii := Ascii.ascii_of_nat 10.
Definition CR : ascii := Ascii.ascii_of_nat 13.

Definition code (c : ascii) : Z := Z.of_nat (Ascii.nat_of_ascii c).

Definition is_digit (c : ascii) : bool := (48 <=? code c) && (code c <=? 57).

(** [s.startswith(p)] *)
Fixpoint startswith (s p : string) : bool :=
  match p, s with
  | EmptyString, _ => true
  | String _ _, EmptyString => false
  | String a p', String b s' => Ascii.eqb a b && startswith s' p'
  end.

(** [s.find(sub)], counting from index [i] of the whole string. *)
Fixpoint find_from (i : Z) (s sub : string) : Z :=
  if startswith s sub then i
  else match s with
       | EmptyString => -1
       | String _ s' => find_from (i + 1) s' sub
       end.

(** [s.find(sub)]: the lowest index of [sub] in [s], or [-1]. *)
Definition find (s sub : string) : Z := find_from 0 s sub.

(** [sub in s] *)
Definition contains (s sub : string) : bool := negb (find s sub =? -1).

(** [s.split(sep)] for a one-character separator. *)
Fixpoint split (sep : ascii) (s : string) : list string :=
  match s with
  | EmptyString => [EmptyString]
  | String c s' =>
      if Ascii.eqb c sep then EmptyString :: split sep s'
      else match split sep s' with
           | h :: t => String c h :: t
           | [] => [String c EmptyString]
           end
  end.

(** [bytes.splitlines()]: lines end at LF, CR or CR LF; the terminators
    are dropped and a final unterminated line is kept when non-empty.
    [cur] is the line read so far. *)
Fixpoint splitlines_from (cur s : string) : list string :=
  match s with
  | EmptyString => if String.eqb cur EmptyString then [] else [cur]
  | String c s' =>
      if Ascii.eqb c LF then cur :: splitlines_from EmptyString s'
      else if Ascii.eqb c CR then
        cur :: splitlines_from EmptyString
                 (match s' with
                  | String c' s'' => if Ascii.eqb c' LF then s'' else s'
                  | EmptyString => s'
                  end)
      else splitlines_from (cur +:+ String c EmptyString) s'
  end.

Definition splitlines (s : string) : list string :=
  splitlines_from EmptyString s.

(** The longest prefix of [s] whose characters satisfy [cls], and the rest. *)
Fixpoint span (cls : ascii -> bool) (s : string) : string * string :=
  match s with
  | EmptyString => (EmptyString, EmptyString)
  | String c s' =>
      if cls c then let '(run, rest) := span cls s' in (String c run, rest)
      else (EmptyString, s)
  end.

(** [s[n:]] and [s[:n]] for [n >= 0]. *)
Fixpoint drop (n : nat) (s : string) : string :=
  match n, s with
  | O, _ => s
  | S n', String _ s' => drop n' s'
  | S _, EmptyString => EmptyString
  end.

Fixpoint take (n : nat) (s : string) : string :=
  match n, s with
  | S n', String c s' => String c (take n' s')
  | _, _ => EmptyString
  end.

(** [s[:-2]] and [s[-2:]] *)
Definition but_last2 (s : string) : string := take (String.length s - 2) s.
Definition last2 (s : string) : string := drop (String.length s - 2) s.

(** [s.replace(c, "")] for a one-character [c]. *)
Fixpoint remove_char (c : ascii) (s : string) : string :=
  match s with
  | EmptyString => EmptyString
  | String a s' =>
      if Ascii.eqb a c then remove_char c s' else String a (remove_char c s')
  end.

(** *** [int(s)]

    Surrounding whitespace is stripped, one sign is allowed, and the
    digits may be grouped by single underscores.  A string of more than
    [max_str_digits] digits is refused, as the interpreter does by
    default. *)

(** The blanks [int] strips: the characters 9 to 13 and 32 and, in a
    string that is not all ASCII, the blanks 133 and 160.  The characters
    28 to 31, blanks for [str.isspace], are not among them. *)
Definition is_space (c : ascii) : bool :=
  let n := code c in
  ((9 <=? n) && (n <=? 13)) || (n =? 32) || (n =? 133) || (n =? 160).

Fixpoint lstrip (s : string) : string :=
  match s with
  | String c s' => if is_space c then lstrip s' else s
  | EmptyString => EmptyString
  end.

(** [digits acc prev s]: the value of a digit group [s] continuing [acc];
    [prev] tells that the previous character was a digit.  What may follow
    the digits is trailing whitespace only. *)
Fixpoint digits (acc : Z) (prev : bool) (s : string) : option Z :=
  match s with
  | EmptyString => if prev then Some acc else None
  | String c s' =>
      if is_digit c then digits (10 * acc + (code c - 48)) true s'
      else if Ascii.eqb c "_"%char then
        if prev then
          match s' with
          | String d _ => if is_digit d then digits acc false s' else None
          | EmptyString => None
          end
        else None
      else if prev && is_space c && String.eqb (lstrip s') EmptyString
      then Some acc
      else None
  end.

(** [sys.get_int_max_str_digits()], by default. *)
Definition max_str_digits : Z := 4300.

(** The digits of [s], leading zeros included; underscores, sign and
    blanks do not count. *)
Fixpoint digit_count (s : string) : Z :=
  match s with
  | EmptyString => 0
  | String c s' => (if is_digit c then 1 else 0) + digit_count s'
  end.

Definition int (s : string) : result Z :=
  if max_str_digits <? digit_count s then Raise ValueError
  else
    or_raise ValueError
      match lstrip s with
      | String "+"%char s' => digits 0 false s'
      | String "-"%char s' => Z.opp <$> digits 0 false s'
      | s' => digits 0 false s'
      end.

(** *** The regular expressions of the program

    Each pattern of the source is a character (or nothing) followed by a
    starred character class and [$].  The star is greedy and the class
    never contains LF, so the star takes the whole run of class
    characters, and [$] then holds at the end of the string or just
    before a final LF. *)

Definition at_end (rest : string) : bool :=
  String.eqb rest EmptyString || String.eqb rest (String LF EmptyString).

(** [cls*$] matched at the start of [s]: the text matched. *)
Definition star_dollar (cls : ascii -> bool) (s : string) : option string :=
  let '(run, rest) := span cls s in
  if at_end rest then Some run else None.

(** [re.search] of [first cls*$]: the leftmost position that matches. *)
Fixpoint search (first cls : ascii -> bool) (s : string) : option string :=
  match s with
  | EmptyString => None
  | String c s' =>
      if first c then
        match star_dollar cls s' with
        | Some run => Some (String c run)
        | None => search first cls s'
        end
      else search first cls s'
  end.

(** [.] *)
Definition dot (c : ascii) : bool := negb (Ascii.eqb c LF).
Definition is_at (c : ascii) : bool := Ascii.eqb c "@"%char.

(** [re.search(r"@.*$", s)]: [group(0)] of the match. *)
Definition search_at (s : string) : option string := search is_at dot s.

(** [re.search(r"(?<=@).*$", s)]: the position searched for follows an
    ["@"], so position 0 is never a match. *)
Fixpoint search_behind_at (s : string) : option string :=
  match s with
  | EmptyString => None
  | String c s' =>
      if is_at c then
        match star_dollar dot s' with
        | Some run => Some run
        | None => search_behind_at s'
        end
      else search_behind_at s'
  end.

(** [re.match(r"^[^\t]*", s).group(0)]: always matches. *)
Definition match_not_tab (s : string) : string :=
  fst (span (fun c => negb (Ascii.eqb c tab)) s).

(** [re.match(r"^[0-9]*", s).group(0)]: always matches. *)
Definition match_digits (s : string) : string := fst (span is_digit s).

(** [a < b] on strings. *)
Definition lt (a b : string) : bool := String.ltb a b.

(** [s in l] for a list of strings [l]. *)
Definition in_list (s : string) (l : list string) : bool :=
  existsb (String.eqb s) l.

End Py.

(** ** [datetime.timedelta] and [datetime.datetime] *)

Module Time.

(** A [timedelta] is stored normalised: [0 <= seconds < 86400],
    [0 <= microseconds < 1000000] and [|days| <= 999999999]. *)
Record timedelta : Type := Timedelta {
  days : Z;
  seconds : Z;
  microseconds : Z
}.

Definition us_per_second : Z := 1000000.
Definition us_per_day : Z := 86400 * us_per_second.

(** The normalised triple of a number of microseconds, or [OverflowError]. *)
Definition of_microseconds (total : Z) : result timedelta :=
  let d := total / us_per_day in
  let r := total mod us_per_day in
  if 999999999 <? Z.abs d then Raise OverflowError
  else Ok (Timedelta d (r / us_per_second) (r mod us_per_second)).

(** [timedelta(days, seconds, microseconds, milliseconds, minutes, hours,
    weeks)] on integers. *)
Definition timedelta_new
    (days seconds microseconds milliseconds minutes hours weeks : Z)
    : result timedelta :=
  of_microseconds
    (((days + 7 * weeks) * 86400 + seconds + 60 * minutes + 3600 * hours)
       * us_per_second
     + microseconds + 1000 * milliseconds).

(** [bool(td)] *)
Definition truthy (td : timedelta) : bool :=
  negb ((days td =? 0) && (seconds td =? 0) && (microseconds td =? 0)).

(** [a > b]: the triples are compared component by component. *)
Definition gt (a b : timedelta) : bool :=
  if days a =? days b then
    if seconds a =? seconds b then microseconds b <? microseconds a
    else seconds b <? seconds a
  else days b <? days a.

(** A naive [datetime], as [datetime.now()] returns it. *)
Record datetime : Type := Datetime {
  year : Z;
  month : Z;
  day : Z;
  hour : Z;
  minute : Z;
  second : Z;
  microsecond : Z
}.

Definition is_leap (y : Z) : bool :=
  (y mod 4 =? 0) && (negb (y mod 100 =? 0) || (y mod 400 =? 0)).

Definition days_in_month (y m : Z) : Z :=
  if m =? 2 then (if is_leap y then 29 else 28)
  else if (m =? 4) || (m =? 6) || (m =? 9) || (m =? 11) then 30
  else 31.

Definition days_before_year (y : Z) : Z :=
  let y := y - 1 in y * 365 + y / 4 - y / 100 + y / 400.

Definition days_before_month (y m : Z) : Z :=
  nth (Z.to_nat m) [0; 0; 31; 59; 90; 120; 151; 181; 212; 243; 273; 304; 334] 0
  + (if (2 <? m) && is_leap y then 1 else 0).

(** [dt.toordinal()] *)
Definition toordinal (dt : datetime) : Z :=
  days_before_year (year dt) + days_before_month (year dt) (month dt) + day dt.

(** The range checks of the [datetime] constructor. *)
Definition valid (dt : datetime) : bool :=
  (1 <=? year dt) && (year dt <=? 9999) &&
  (1 <=? month dt) && (month dt <=? 12) &&
  (1 <=? day dt) && (day dt <=? days_in_month (year dt) (month dt)) &&
  (0 <=? hour dt) && (hour dt <=? 23) &&
  (0 <=? minute dt) && (minute dt <=? 59) &&
  (0 <=? second dt) && (second dt <=? 59) &&
  (0 <=? microsecond dt) && (microsecond dt <=? 999999).

(** [a - b] on naive datetimes. *)
Definition sub (a b : datetime) : result timedelta :=
  timedelta_new
    (toordinal a - toordinal b)
    ((second a + 60 * minute a + 3600 * hour a)
     - (second b + 60 * minute b + 3600 * hour b))
    (microsecond a - microsecond b)
    0 0 0 0.

Definition digit_char (d : Z) : ascii := Ascii.ascii_of_nat (48 + Z.to_nat d).

(** ["%02d" % n] for [0 <= n <= 99] and ["%04d" % n] for [0 <= n <= 9999],
    the ranges the fields of a [datetime] lie in. *)
Definition fmt02 (n : Z) : string :=
  String (digit_char (n / 10)) (String (digit_char (n mod 10)) EmptyString).

Definition fmt04 (n : Z) : string :=
  String (digit_char (n / 1000))
    (String (digit_char (n / 100 mod 10)) (fmt02 (n mod 100))).

(** [dt.isoformat(timespec='minutes', sep=sep)] *)
Definition isoformat_minutes (sep : ascii) (dt : datetime) : string :=
  fmt04 (year dt) +:+ "-" +:+ fmt02 (month dt) +:+ "-" +:+ fmt02 (day dt)
    +:+ String sep (fmt02 (hour dt) +:+ ":" +:+ fmt02 (minute dt)).

Definition number (ds : list ascii) : option Z :=
  if forallb Py.is_digit ds
  then Some (fold_left (fun acc c => 10 * acc + (Py.code c - 48)) ds 0)
  else None.

(** [datetime.fromisoformat(s)].  Two cases are the same in every version
    of the interpreter that has the function, and are written out.  A string that does not begin
    with four digits, the year, is refused with [ValueError].  The spelling
    [YYYY-MM-DD?HH:MM], where [?] is any one character, the only spelling
    the program writes, is read as that minute, or refused with
    [ValueError] when a field is out of range.

    On every other string the answer depends on the version (3.11 reads
    ISO 8601 spellings that 3.10 refuses) and is the parameter [other]:
    the datetime read or the exception raised.  A spelling with a UTC
    offset gives an aware datetime; the one use the program makes of the
    value, the subtraction from the naive [now], raises [TypeError] on it,
    and [other] answers such a spelling with that exception. *)
Definition fromisoformat (other : string -> result datetime) (s : string)
    : result datetime :=
  match list_ascii_of_string s with
  | y1 :: y2 :: y3 :: y4 :: fields =>
      match number [y1; y2; y3; y4] with
      | Some y =>
          match fields with
          | [d1; m1; m2; d2; a1; a2; _; h1; h2; c; n1; n2] =>
              if Ascii.eqb d1 "-" && Ascii.eqb d2 "-" && Ascii.eqb c ":" then
                match number [m1; m2], number [a1; a2],
                      number [h1; h2], number [n1; n2] with
                | Some m, Some d, Some h, Some n =>
                    let dt := Datetime y m d h n 0 0 in
                    if valid dt then Ok dt else Raise ValueError
                | _, _, _, _ => other s
                end
              else other s
          | _ => other s
          end
      | None => Raise ValueError
      end
  | _ => Raise ValueError
  end.

End Time.

(** ** The external store and the command monad *)

(** What [subprocess.run] is given: an argument vector, or a shell line. *)
Inductive command : Type :=
  | Argv (argv : list string)
  | Shell (line : string).

(** What [subprocess.run(..., capture_output=True)] returns; the two
    streams are taken as already decoded. *)
Record completed : Type := Completed {
  returncode : Z;
  stdout : string;
  stderr : string
}.

(** The store answers every command.  Each method is taken on its own; it
    changes the store with its last command at most, so while it runs the
    answers are a function of the command. *)
Definition store : Type := command -> completed.

(** A method that issues commands: it reads the store, appends to the list
    of commands issued so far, and returns or raises. *)
Definition M (A : Type) : Type := store -> list command -> result A * list command.

Global Instance M_ret : MRet M := λ A a, λ _ tr, (Ok a, tr).
Global Instance M_bind : MBind M := λ A B k m, λ st tr,
  match m st tr with
  | (Ok a, tr') => k a st tr'
  | (Raise e, tr') => (Raise e, tr')
  end.

Definition raise {A} (e : exn) : M A := λ _ tr, (Raise e, tr).
Definition lift {A} (r : result A) : M A := λ _ tr, (r, tr).
Definition run (c : command) : M completed := λ st tr, (Ok (st c), tr ++ [c]).

(** [try: m except: h], with a bare [except]. *)
Definition try_except {A} (m h : M A) : M A := λ st tr,
  match m st tr with
  | (Ok a, tr') => (Ok a, tr')
  | (Raise _, tr') => h st tr'
  end.

(** Running a method from an empty list of issued commands. *)
Definition exec {A} (m : M A) (st : store) : result A * list command := m st [].

(** ** The methods of class [Yazbaka] *)

Module Yazbaka.
Import Time.

(** The validated arguments ([argparse.Namespace] after [validate_args]):
    the flags stored by [store_const] are booleans, [omit] is [None] or a
    [timedelta]. *)
Record args : Type := Args {
  source : string;
  destination : string;
  label : string;
  send : string;
  recv : string;
  incremental : bool;
  full_incremental : bool;
  snap_only : bool;
  transfer_only : bool;
  no_omit_unchanged : bool;
  no_cleanup : bool;
  omit : option timedelta
}.

(** The fields of [self] set by [__init__]. *)
Record self : Type := Self {
  self_args : args;
  now : datetime;
  timestamp : string;
  snapshot_name : string
}.

(** [__init__], for validated arguments; [now] is [datetime.now()]. *)
Definition init (a : args) (now : datetime) : self :=
  let timestamp := Py.remove_char ":" (isoformat_minutes "_" now) in
  Self a now timestamp (label a +:+ "_" +:+ timestamp).

(** *** [has_changed] *)

(** How one turn of a loop body ends. *)
Inductive flow (S R : Type) : Type :=
  | Next (s : S)
  | Return (r : R).
Arguments Next {S R} s.
Arguments Return {S R} r.

(** [int(elements[2])] *)
Definition written (elements : list string) : result Z :=
  e ← or_raise IndexError (elements !! 2%nat); Py.int e.

(** The body of the loop of [has_changed] on one decoded line, [zero]
    being the carry flag. *)
Definition has_changed_body (a : args) (zero : bool) (line : string)
    : result (flow bool bool) :=
  let true_recursive := Py.contains (send a) "R" in
  let nested_dataset_slash := source a +:+ "/" in
  let elements := Py.split Py.tab line in
  if negb (Py.find line nested_dataset_slash =? -1) && negb true_recursive
  then Ok (Next zero)
  else if Py.find line "@" =? -1 then
    w ← written elements;
    if negb (w =? 0) then Ok (Return true) else Ok (Next true)
  else if negb (Py.find line ("@" +:+ label a) =? -1) then Ok (Next true)
  else
    w ← written elements;
    if negb (w =? 0) then Ok (Next false) else Ok (Next zero).

(** The loop over the lines, and the [return not zero] after it. *)
Fixpoint has_changed_loop (a : args) (zero : bool) (lines : list string)
    : result bool :=
  match lines with
  | [] => Ok (negb zero)
  | line :: lines' =>
      f ← has_changed_body a zero line;
      match f with
      | Next zero' => has_changed_loop a zero' lines'
      | Return r => Ok r
      end
  end.

(** [has_changed] on the lines of the store's answer. *)
Definition has_changed_lines (a : args) (lines : list string) : result bool :=
  has_changed_loop a true lines.

Definition has_changed (s : self) : M bool :=
  let a := self_args s in
  res ← run (Argv ["zfs"; "get"; "-Hpr"; "written"; source a]);
  if negb (returncode res =? 0) then raise (ZFSError (stderr res))
  else lift (has_changed_lines a (Py.splitlines (stdout res))).

(** *** [get_pairs] and [_get_timestamp] *)

(** [re.search(r"@.*$", name).group(0)[1:]] *)
Definition suffix (name : string) : result string :=
  m ← or_raise AttributeError (Py.search_at name); Ok (Py.drop 1 m).

(** The class [[0-9\-_T]]. *)
Definition stamp_char (c : ascii) : bool :=
  Py.is_digit c || Ascii.eqb c "-" || Ascii.eqb c "_" || Ascii.eqb c "T".

(** [re.search(r"[0-9][0-9\-_T]*$", string)], [None] when nothing matches. *)
Definition _get_timestamp (s : string) : option string :=
  Py.search Py.is_digit stamp_char s.

(** The variables of the loop of [get_pairs]. *)
Record pairing : Type := Pairing {
  i : nat;
  j : nat;
  pairs : list string
}.

(** One turn of [while i < len(src) and j < len(dest)]: the test, then
    the body. *)
Definition get_pairs_body (src dest : list string) (st : pairing)
    : result (flow pairing (list string)) :=
  match src !! i st, dest !! j st with
  | Some s, Some d =>
      cur_src ← suffix s;
      cur_dest ← suffix d;
      if String.eqb cur_src cur_dest then
        Ok (Next (Pairing (S (i st)) (S (j st)) (pairs st ++ [cur_src])))
      else
        match _get_timestamp cur_src, _get_timestamp cur_dest with
        | None, _ => Ok (Next (Pairing (S (i st)) (j st) (pairs st)))
        | Some _, None => Ok (Next (Pairing (i st) (S (j st)) (pairs st)))
        | Some src_stamp, Some dest_stamp =>
            if Py.lt src_stamp dest_stamp
            then Ok (Next (Pairing (S (i st)) (j st) (pairs st)))
            else Ok (Next (Pairing (i st) (S (j st)) (pairs st)))
        end
  | _, _ => Ok (Return (pairs st))
  end.

(** A value together with the fact that it is the value of [a]. *)
Definition inspect {A} (a : A) : {b | a = b} := exist _ a eq_refl.

(** What is left of the two lists. *)
Definition remaining (src dest : list string) (st : pairing) : nat :=
  (length src - i st) + (length dest - j st).

Equations? get_pairs_loop (src dest : list string) (st : pairing)
    : result (list string) by wf (remaining src dest st) lt :=
  get_pairs_loop src dest st with inspect (get_pairs_body src dest st) := {
    | exist _ (Raise e) _ := Raise e;
    | exist _ (Ok (Return r)) _ := Ok r;
    | exist _ (Ok (Next st')) H := get_pairs_loop src dest st' }.
Proof.
  unfold get_pairs_body in H. unfold remaining.
  destruct (src !! i st) as [s|] eqn:Hs; [|discriminate].
  destruct (dest !! j st) as [d|] eqn:Hd; [|discriminate].
  apply lookup_lt_Some in Hs, Hd.
  destruct (suffix s); [|discriminate].
  destruct (suffix d); [|discriminate].
  cbn in H.
  repeat match type of H with
         | context [if ?b then _ else _] => destruct b
         | context [match ?o with Some _ => _ | None => _ end] => destruct o
         end;
    injection H as <-; cbn; lia.
Qed.

Definition get_pairs (src dest : list string) : result (list string) :=
  get_pairs_loop src dest (Pairing 0 0 []).

(** *** [list_yaz_snapshots] *)

(** The loop over the decoded lines of [zfs list]. *)
Fixpoint yaz_snapshots (a : args) (dataset : string) (lines : list string)
    : list string :=
  match lines with
  | [] => []
  | line :: lines' =>
      if negb (Py.find line (dataset +:+ "@" +:+ label a) =? -1)
      then Py.match_not_tab line :: yaz_snapshots a dataset lines'
      else yaz_snapshots a dataset lines'
  end.

Definition list_yaz_snapshots (s : self) (dataset : string) : M (list string) :=
  res ← run (Argv ["zfs"; "list"; "-H"; "-t"; "snapshot"; dataset]);
  if negb (returncode res =? 0) then raise (ZFSError (stderr res))
  else mret (yaz_snapshots (self_args s) dataset (Py.splitlines (stdout res))).

(** *** [new_backup], [incremental_backup] and [transfer] *)

Definition recv_command (a : args) : string :=
  "zfs recv " +:+ recv a +:+ " " +:+ destination a.

Definition new_backup (s : self) : M unit :=
  let a := self_args s in
  snapshot_name ←
    try_except
      (snaps ← list_yaz_snapshots s (source a);
       last_snap ← lift (or_raise IndexError (last snaps));
       lift (or_raise AttributeError (Py.search_behind_at last_snap)))
      (raise (NoMatchingSnapshots "There are no snapshots tha can be sent"));
  let send_ := "zfs send " +:+ send a +:+ " " +:+ source a +:+ "@" +:+ snapshot_name in
  res ← run (Shell (send_ +:+ " | " +:+ recv_command a));
  if negb (returncode res =? 0) then raise (ZFSError (stderr res))
  else mret tt.

Definition incremental_backup (s : self) : M unit :=
  let a := self_args s in
  src ← list_yaz_snapshots s (source a);
  dest ← list_yaz_snapshots s (destination a);
  pairs ← lift (get_pairs src dest);
  if (length pairs =? 0)%nat then
    raise (NoMatchingSnapshots
             "There are no matching snapshots between source and destination")
  else
    last_pair ← lift (or_raise IndexError (last pairs));
    let src_start := source a +:+ "@" +:+ last_pair in
    src_end ← lift (or_raise IndexError (last src));
    if String.eqb src_start src_end then
      raise (NoMatchingSnapshots "There are no snapshots tha can be sent")
    else
      let iflag := if full_incremental a then " -I " else " -i " in
      let send_ := "zfs send " +:+ send a +:+ iflag +:+ src_start +:+ " " +:+ src_end in
      res ← run (Shell (send_ +:+ " | " +:+ recv_command a));
      if negb (returncode res =? 0) then raise (ZFSError (stderr res))
      else mret tt.

Definition transfer (s : self) : M unit :=
  if incremental (self_args s) || full_incremental (self_args s)
  then incremental_backup s
  else new_backup s.

(** *** [snapshot] and [conditional_snapshot] *)

Definition snapshot_command (s : self) : command :=
  let a := self_args s in
  if Py.contains (send a) "R"
  then Argv ["zfs"; "snapshot"; "-r"; source a +:+ "@" +:+ snapshot_name s]
  else Argv ["zfs"; "snapshot"; source a +:+ "@" +:+ snapshot_name s].

Definition snapshot (s : self) : M bool :=
  res ← run (snapshot_command s);
  if negb (returncode res =? 0) then
    (* [if text.find("permission denied"):] an index is true when not 0 *)
    if negb (Py.find (stderr res) "permission denied" =? 0)
    then raise (PermissionError (stderr res))
    else raise (ZFSError (stderr res))
  else mret true.

(** The class [[0-9\-_]]. *)
Definition stamp_char_ (c : ascii) : bool :=
  Py.is_digit c || Ascii.eqb c "-" || Ascii.eqb c "_".

(** The time of the snapshot named [last_snap]: the trailing stamp, a
    colon put back before its last two characters, read as a datetime. *)
Definition last_snap_time (other : string -> result datetime)
    (last_snap : string) : result datetime :=
  timestamp ← or_raise AttributeError (Py.search Py.is_digit stamp_char_ last_snap);
  let timestamp := Py.but_last2 timestamp +:+ ":" +:+ Py.last2 timestamp in
  fromisoformat other timestamp.

(** [if self.args.omit:] *)
Definition omit_configured (a : args) : option timedelta :=
  match omit a with
  | Some td => if truthy td then Some td else None
  | None => None
  end.

(** The [if self.args.omit:] block: [true] when it returns [False] from
    the method ("too recent"), [false] when control falls out of it. *)
Definition too_recent (other : string -> result datetime) (s : self) : M bool :=
  match omit_configured (self_args s) with
  | Some omit_ =>
      snaps ← list_yaz_snapshots s (source (self_args s));
      match last snaps with
      | Some last_snap =>
          t ← lift (last_snap_time other last_snap);
          elapsed ← lift (sub (now s) t);
          mret (gt omit_ elapsed)
      | None => mret false
      end
  | None => mret false
  end.

Definition conditional_snapshot (other : string -> result datetime) (s : self)
    : M bool :=
  let a := self_args s in
  if transfer_only a then mret false
  else
    changed ← has_changed s;
    if negb changed && negb (no_omit_unchanged a) then mret false
    else
      skip ← too_recent other s;
      if skip : bool then mret false else snapshot s.

(** *** [_get_timedelta] *)

Definition _get_timedelta (time_str : string) : result timedelta :=
  (* [re.match(r"^[0-9]*", time_str)] matches every string *)
  let num_str := Py.match_digits time_str in
  num ← Py.int num_str;
  let spec_str := Py.drop (String.length num_str) time_str in
  if Py.in_list spec_str ["m"; "minute"; "minutes"] then
    timedelta_new 0 0 0 0 num 0 0
  else if Py.in_list spec_str ["h"; "hour"; "hours"] then
    timedelta_new 0 0 0 0 0 num 0
  else if Py.in_list spec_str ["d"; "day"; "days"] then
    timedelta_new num 0 0 0 0 0 0
  else if Py.in_list spec_str ["w"; "week"; "weeks"] then
    timedelta_new 0 0 0 0 0 0 num
  else if Py.in_list spec_str ["mon"; "month"; "months"] then
    timedelta_new (num * 31) 0 0 0 0 0 0
  else if Py.in_list spec_str ["y"; "year"; "years"] then
    timedelta_new (num * 365) 0 0 0 0 0 0
  else Raise ValueError.

(** *** [list_all_snapshots] *)

(** The loop over the decoded lines of [zfs list]: with [dataset is None]
    every line gives a name. *)
Fixpoint all_snapshots (dataset : option string) (lines : list string)
    : list string :=
  match lines with
  | [] => []
  | line :: lines' =>
      match dataset with
      | None => Py.match_not_tab line :: all_snapshots dataset lines'
      | Some d =>
          if negb (Py.find line (d +:+ "@") =? -1)
          then Py.match_not_tab line :: all_snapshots dataset lines'
          else all_snapshots dataset lines'
      end
  end.

(** [if dataset: cmd.append(dataset)]: a dataset that is [None] or empty is
    not appended.  The return code is not looked at. *)
Definition list_all_snapshots (dataset : option string) : M (list string) :=
  let cmd :=
    ["zfs"; "list"; "-H"; "-t"; "snapshot"]
      ++ match dataset with
         | Some (String c d) => [String c d]
         | _ => []
         end in
  res ← run (Argv cmd);
  mret (all_snapshots dataset (Py.splitlines (stdout res))).

(** *** [validate_args] and [_exit_throw] *)

(** The arguments as [parse_args] returns them: [destination] is absent
    under [--snap-only], [omit] is [None] or the text given. *)
Record namespace : Type := Namespace {
  ns_source : string;
  ns_destination : option string;
  ns_label : string;
  ns_send : string;
  ns_recv : string;
  ns_incremental : bool;
  ns_full_incremental : bool;
  ns_snap_only : bool;
  ns_transfer_only : bool;
  ns_no_omit_unchanged : bool;
  ns_no_cleanup : bool;
  ns_omit : option string
}.

(** The arguments after [validate_args]. *)
Record validated : Type := Validated {
  v_source : string;
  v_destination : option string;
  v_label : string;
  v_send : string;
  v_recv : string;
  v_incremental : bool;
  v_full_incremental : bool;
  v_snap_only : bool;
  v_transfer_only : bool;
  v_no_omit_unchanged : bool;
  v_no_cleanup : bool;
  v_omit : option timedelta
}.

(** How [validate_args] ends: it returns, it prints a message and exits
    with status 1, it raises [ValueError] with a message, or an exception
    of [_get_timedelta] goes through. *)
Inductive outcome (A : Type) : Type :=
  | Valid (a : A)
  | Exit (printed : string)
  | Invalid (msg : string)
  | Raised (e : exn).
Arguments Valid {A} a.
Arguments Exit {A} printed.
Arguments Invalid {A} msg.
Arguments Raised {A} e.

Global Instance outcome_ret : MRet outcome := @Valid.
Global Instance outcome_bind : MBind outcome := λ A B k o,
  match o with
  | Valid a => k a
  | Exit m => Exit m
  | Invalid m => Invalid m
  | Raised e => Raised e
  end.

Definition _exit_throw {A} (exit1 : bool) (exit_msg exception_msg : string)
    : outcome A :=
  if exit1 then Exit exit_msg else Invalid exception_msg.

(** [if bad: fail] *)
Definition when (bad : bool) (fail : outcome unit) : outcome unit :=
  if bad then fail else Valid tt.

(** [for flag in flags: if flag not in allowed: ...]: the first flag the
    test stops at. *)
Fixpoint first_not_in (allowed flags : string) : option ascii :=
  match flags with
  | EmptyString => None
  | String flag flags' =>
      if negb (Py.contains allowed (String flag EmptyString)) then Some flag
      else first_not_in allowed flags'
  end.

Definition not_slash (c : ascii) : bool := negb (Ascii.eqb c "/").

(** [re.match(r"[^/]+/[^/]+.*", s)] matches: the first run of characters
    other than ["/"] is not empty and is followed by ["/"] and by one more
    character other than ["/"]. *)
Definition dataset_shaped (s : string) : bool :=
  match Py.span not_slash s with
  | (String _ _, String _ (String c _)) => not_slash c
  | _ => false
  end.

(** [s[0] == "/"] *)
Definition starts_with_slash (s : string) : outcome bool :=
  match s with
  | String c _ => Valid (Ascii.eqb c "/")
  | EmptyString => Raised IndexError
  end.

Definition validate_args (exit_on_error : bool) (ns : namespace)
    : outcome validated :=
  _ ← when (ns_full_incremental ns && ns_incremental ns)
        (_exit_throw exit_on_error
           "Conflicting arguments: full_incremental and incremental, use -h for help"
           "Conflicting arguments: full_incremental and incremental");
  let send := Py.remove_char "'" (ns_send ns) in
  _ ← match first_not_in "DLPRbcehnpsvw" send with
      | Some flag =>
          _exit_throw exit_on_error
            ("Invalid send flag: " +:+ String flag
               "! Type -h for options or consult the zfs-send man page.")
            ("Invalid send flag: " +:+ String flag EmptyString)
      | None => Valid tt
      end;
  let send := if String.eqb send EmptyString then send else "-" +:+ send in
  let recv := Py.remove_char "'" (ns_recv ns) in
  _ ← match first_not_in "FhMnsuv" recv with
      | Some flag =>
          _exit_throw exit_on_error
            ("Invalid receive flag: " +:+ String flag
               "! Type -h for options or consult the zfs-recv man page.")
            ("Invalid receive flag: " +:+ String flag EmptyString)
      | None => Valid tt
      end;
  let recv := if String.eqb recv EmptyString then recv else "-" +:+ recv in
  let source := Py.remove_char "'" (ns_source ns) in
  _ ← when (negb (dataset_shaped source))
        (_exit_throw exit_on_error
           ("Source: " +:+ source +:+ " does  not appear valid")
           ("Source: " +:+ source +:+ " does  not appear valid"));
  let destination' := Py.remove_char "'" <$> ns_destination ns in
  _ ← match destination' with
      | Some destination =>
          when (negb (dataset_shaped destination))
            (_exit_throw exit_on_error
               ("Destination: " +:+ destination +:+ " does  not appear valid")
               ("Destination: " +:+ destination +:+ " does  not appear valid"))
      | None => Valid tt
      end;
  let destination := default "-" destination' in
  source_slash ← starts_with_slash source;
  destination_slash ← (if source_slash : bool then Valid true
                       else starts_with_slash destination);
  _ ← when destination_slash
        (_exit_throw exit_on_error
           "Source and destination cannot start with '/'"
           "Source and destination cannot start with '/'");
  omit ← match ns_omit ns with
         | Some (String c o) =>
             match _get_timedelta (Py.remove_char "'" (String c o)) with
             | Ok td => Valid (Some td)
             | Raise e => Raised e
             end
         | _ => Valid None
         end;
  Valid (Validated source destination' (Py.remove_char "'" (ns_label ns)) send recv
           (ns_incremental ns) (ns_full_incremental ns) (ns_snap_only ns)
           (ns_transfer_only ns) (ns_no_omit_unchanged ns) (ns_no_cleanup ns) omit).

(** *** [cleanup] and [do_all] *)

(** [cleanup] is [pass]. *)
Definition cleanup (s : self) : M unit := mret tt.

(** The store as a whole run sees it: its answers after the commands issued
    so far.  The queries of a method leave the store as it is, so each
    method runs against the store found at its start. *)
Definition world : Type := list command → store.

Definition do_all (other : string -> result datetime) (s : self) (w : world)
    : result unit * list command :=
  match conditional_snapshot other s (w []) [] with
  | (Raise e, tr) => (Raise e, tr)
  | (Ok _, tr) =>
      if snap_only (self_args s) then (Ok tt, tr)
      else
        match transfer s (w tr) tr with
        | (Raise e, tr') => (Raise e, tr')
        | (Ok _, tr') =>
            if negb (no_cleanup (self_args s)) then cleanup s (w tr') tr'
            else (Ok tt, tr')
        end
  end.

End Yazbaka.

(** * Properties *)

Import Yazbaka.

(** ** Vocabulary of the statements *)

(** [sub] occurs in [line]: the test [line.find(sub) != -1]. *)
Definition occurs (sub line : string) : Prop := Py.find line sub ≠ -1.

(** The first test of the loop of [has_changed]: the line belongs to a
    descendant dataset and recursion was not asked for. *)
Definition descendant_skipped (a : args) (line : string) : bool :=
  negb (Py.find line (source a +:+ "/") =? -1) && negb (Py.contains (send a) "R").

(** [scan a zero lines zero']: the loop of [has_changed] goes through all of
    [lines] without returning or raising, and takes the carry flag from
    [zero] to [zero']. *)
Inductive scan (a : args) : bool → list string → bool → Prop :=
  | scan_nil zero : scan a zero [] zero
  | scan_cons zero zero' zero'' line lines :
      has_changed_body a zero line = Ok (Next zero') →
      scan a zero' lines zero'' →
      scan a zero (line :: lines) zero''.

(** A line of [zfs get -Hp written]: name, property, value, source. *)
Definition written_row (name value : string) : string :=
  name +:+ String Py.tab ("written" +:+ String Py.tab (value +:+ String Py.tab "-")).

(** Arguments used in the examples: plain, and with [-s R]. *)
Definition sample_args : args :=
  Args "pool/ds" "backup/ds" "yazbak" "" "" false false false false false false None.

Definition sample_args_R : args :=
  Args "pool/ds" "backup/ds" "yazbak" "-R" "" false false false false false false None.

(** What [_get_timedelta] reads as the unit: the text after the leading
    digits. *)
Definition unit_text (time_str : string) : string :=
  Py.drop (String.length (Py.match_digits time_str)) time_str.

(** The unit spellings [_get_timedelta] knows. *)
Definition recognized_units : list string :=
  ["m"; "minute"; "minutes"] ++ ["h"; "hour"; "hours"] ++ ["d"; "day"; "days"]
  ++ ["w"; "week"; "weeks"] ++ ["mon"; "month"; "months"] ++ ["y"; "year"; "years"].

(** [s] has as many characters as [shape] has tests, each passing its test. *)
Fixpoint has_shape (shape : list (ascii → bool)) (s : string) : bool :=
  match shape, s with
  | [], EmptyString => true
  | p :: shape', String c s' => p c && has_shape shape' s'
  | _, _ => false
  end.

Definition is_char (x c : ascii) : bool := Ascii.eqb c x.

(** [YYYY-MM-DD_HHMM], the stamp [__init__] computes. *)
Definition written_stamp_shape : list (ascii → bool) :=
  let d := Py.is_digit in
  [d; d; d; d; is_char "-"; d; d; is_char "-"; d; d; is_char "_"; d; d; d; d].

(** [YYYY-MM-DDTHH-MM], the stamp the specification describes. *)
Definition specified_stamp_shape : list (ascii → bool) :=
  let d := Py.is_digit in
  [d; d; d; d; is_char "-"; d; d; is_char "-"; d; d; is_char "T"; d; d;
   is_char "-"; d; d].

(** The stamp of the specification for the time [now]. *)
Definition specified_stamp (now : Time.datetime) : string :=
  Time.fmt04 (Time.year now) +:+ "-" +:+ Time.fmt02 (Time.month now) +:+ "-"
    +:+ Time.fmt02 (Time.day now) +:+ "T" +:+ Time.fmt02 (Time.hour now)
    +:+ "-" +:+ Time.fmt02 (Time.minute now).

(** The name [snapshot] passes to [zfs snapshot]: the last argument. *)
Definition snapshot_argument (s : self) : option string :=
  match snapshot_command s with
  | Argv argv => last argv
  | Shell _ => None
  end.

Definition sample_now : Time.datetime := Time.Datetime 2024 1 2 3 4 5 678.

Definition sample_self : self := init sample_args sample_now.

(** A store that answers every command with [c]. *)
Definition answering (c : completed) : store := λ _, c.

(** The query [list_yaz_snapshots] issues for [dataset]. *)
Definition list_command (dataset : string) : command :=
  Argv ["zfs"; "list"; "-H"; "-t"; "snapshot"; dataset].

(** The query [has_changed] issues. *)
Definition get_written_command (a : args) : command :=
  Argv ["zfs"; "get"; "-Hpr"; "written"; source a].

(** [name] has the after-["@"] suffix [x]: the extraction of [get_pairs]
    succeeds on it. *)
Definition has_suffix (name x : string) : Prop := suffix name = Ok x.

(** The outcome of one turn of the loop of [get_pairs], case by case. *)
Inductive body_spec (src dest : list string) (st : pairing)
    : result (flow pairing (list string)) → Prop :=
  | body_exit :
      src !! i st = None ∨ dest !! j st = None →
      body_spec src dest st (Ok (Return (pairs st)))
  | body_raise s d :
      src !! i st = Some s → dest !! j st = Some d →
      (∀ x y, ¬ (suffix s = Ok x ∧ suffix d = Ok y)) →
      body_spec src dest st (Raise AttributeError)
  | body_match s d x :
      src !! i st = Some s → dest !! j st = Some d →
      suffix s = Ok x → suffix d = Ok x →
      body_spec src dest st
        (Ok (Next (Pairing (S (i st)) (S (j st)) (pairs st ++ [x]))))
  | body_skip_src s d x y :
      src !! i st = Some s → dest !! j st = Some d →
      suffix s = Ok x → suffix d = Ok y → x ≠ y →
      body_spec src dest st (Ok (Next (Pairing (S (i st)) (j st) (pairs st))))
  | body_skip_dest s d x y :
      src !! i st = Some s → dest !! j st = Some d →
      suffix s = Ok x → suffix d = Ok y → x ≠ y →
      body_spec src dest st (Ok (Next (Pairing (i st) (S (j st)) (pairs st)))).

(** The loop of [get_pairs] passes from [st] to [st']. *)
Definition step (src dest : list string) (st st' : pairing) : Prop :=
  get_pairs_body src dest st = Ok (Next st').

(** [name] is examined by [get_pairs src dest]: it is [src[i]] or [dest[j]]
    at a turn of the loop the run reaches with both indices in range. *)
Definition examined (src dest : list string) (name : string) : Prop :=
  ∃ st s d,
    rtc (step src dest) (Pairing 0 0 []) st
    ∧ src !! i st = Some s ∧ dest !! j st = Some d
    ∧ (name = s ∨ name = d).

Definition line_feed : string := String Py.LF EmptyString.

(** [x] is stamped before [y]: both carry a timestamp and the one of [x] is
    the smaller string. *)
Definition stamp_before (x y : string) : Prop :=
  ∃ a b, _get_timestamp x = Some a ∧ _get_timestamp y = Some b ∧ Py.lt a b = true.

(** Snapshot names used in the examples: three on the source, three on the
    destination, two of them common. *)
Definition sample_src : list string :=
  ["pool/ds@yazbak_2024-01-01_1000"; "pool/ds@yazbak_2024-01-02_1000";
   "pool/ds@yazbak_2024-01-03_1000"].

Definition sample_dest : list string :=
  ["backup/ds@yazbak_2024-01-02_1000"; "backup/ds@yazbak_2024-01-03_1000";
   "backup/ds@yazbak_2024-01-04_1000"].

Definition sample_src_suffixes : list string :=
  ["yazbak_2024-01-01_1000"; "yazbak_2024-01-02_1000"; "yazbak_2024-01-03_1000"].

Definition sample_dest_suffixes : list string :=
  ["yazbak_2024-01-02_1000"; "yazbak_2024-01-03_1000"; "yazbak_2024-01-04_1000"].

(** The snapshots [list_yaz_snapshots] reads from the store's answer when
    the query succeeds. *)
Definition listed (a : args) (st : store) (dataset : string) : list string :=
  yaz_snapshots a dataset (Py.splitlines (stdout (st (list_command dataset)))).

(** The transfer [incremental_backup] issues for the delta from [src_start]
    to [src_end]. *)
Definition delta_command (a : args) (src_start src_end : string) : command :=
  Shell (("zfs send " +:+ send a +:+ (if full_incremental a then " -I " else " -i ")
            +:+ src_start +:+ " " +:+ src_end)
           +:+ " | " +:+ recv_command a).

(** A line of [zfs list -H -t snapshot], and the lines of an answer. *)
Definition listing_row (name : string) : string :=
  name +:+ String Py.tab ("0" +:+ String Py.tab ("-" +:+ String Py.tab ("96K"
    +:+ String Py.tab "-"))).

Fixpoint unlines (rows : list string) : string :=
  match rows with
  | [] => EmptyString
  | row :: rows' => row +:+ String Py.LF (unlines rows')
  end.

(** A store holding the snapshots [src] of ["pool/ds"] and [dest] of
    ["backup/ds"], whose [zfs get] answers [written] and whose other
    commands succeed silently. *)
Definition sample_store (written : list string) (src dest : list string) : store :=
  λ c,
    match c with
    | Argv ["zfs"; "get"; "-Hpr"; "written"; _] => Completed 0 (unlines written) ""
    | Argv ["zfs"; "list"; "-H"; "-t"; "snapshot"; dataset] =>
        if String.eqb dataset "pool/ds"
        then Completed 0 (unlines (listing_row <$> src)) ""
        else Completed 0 (unlines (listing_row <$> dest)) ""
    | _ => Completed 0 "" ""
    end.

Definition sample_args_i : args :=
  Args "pool/ds" "backup/ds" "yazbak" "" "" true false false false false false None.

(** Source snapshots A, B, C, and the destinations A, B and A, B, C. *)
Definition snapshots_ABC (dataset : string) : list string :=
  [dataset +:+ "@yazbak_2024-01-01_1000"; dataset +:+ "@yazbak_2024-01-02_1000";
   dataset +:+ "@yazbak_2024-01-03_1000"].

Definition snapshots_AB (dataset : string) : list string :=
  [dataset +:+ "@yazbak_2024-01-01_1000"; dataset +:+ "@yazbak_2024-01-02_1000"].

(** Arguments with an omit window of one hour, as [_get_timedelta "1h"]
    returns it. *)
Definition one_hour : Time.timedelta := Time.Timedelta 0 3600 0.

Definition sample_args_omit : args :=
  Args "pool/ds" "backup/ds" "yazbak" "" "" false false false false false false
    (Some one_hour).

(** The store of a dataset that was written to, with one labelled snapshot
    stamped [stamp]. *)
Definition written_store (stamp : string) : store :=
  sample_store [written_row "pool/ds" "4096"] ["pool/ds@yazbak_" +:+ stamp] [].

(** The length of a duration, in microseconds. *)
Definition total_microseconds (td : Time.timedelta) : Z :=
  (Time.days td * 86400 + Time.seconds td) * 1000000 + Time.microseconds td.

(** The ranges [timedelta] keeps seconds and microseconds in. *)
Definition normalised (td : Time.timedelta) : Prop :=
  0 <= Time.seconds td < 86400 ∧ 0 <= Time.microseconds td < 1000000.

(** The transfer [new_backup] issues for the snapshot [name] of the source. *)
Definition full_command (a : args) (name : string) : command :=
  Shell (("zfs send " +:+ send a +:+ " " +:+ source a +:+ "@" +:+ name)
           +:+ " | " +:+ recv_command a).

(** [t] cut to the minute. *)
Definition to_the_minute (t : Time.datetime) : Time.datetime :=
  Time.Datetime (Time.year t) (Time.month t) (Time.day t) (Time.hour t)
    (Time.minute t) 0 0.

(** A character class of a stamp pattern holds the digits, ["-"] and ["_"]. *)
Definition stamp_class (cls : ascii → bool) : Prop :=
  (∀ c, Py.is_digit c = true → cls c = true) ∧ cls "-"%char = true ∧ cls "_"%char = true.

(** [label] ends with a character that no stamp pattern takes: not a digit,
    ["-"], ["_"] or ["T"]. *)
Definition ends_outside_stamp (label : string) : Prop :=
  ∃ l c, label = l +:+ String c EmptyString ∧ stamp_char c = false.

(** The minute of [t] as the number [YYYYMMDDHHMM]: on valid times it
    grows with the time. *)
Definition calendar_minute (t : Time.datetime) : Z :=
  (((Time.year t * 100 + Time.month t) * 100 + Time.day t) * 100
     + Time.hour t) * 100 + Time.minute t.

(** The length in minutes [_get_timedelta] gives a unit spelling. *)
Definition unit_minutes (u : string) : option Z :=
  if Py.in_list u ["m"; "minute"; "minutes"] then Some 1
  else if Py.in_list u ["h"; "hour"; "hours"] then Some 60
  else if Py.in_list u ["d"; "day"; "days"] then Some (24 * 60)
  else if Py.in_list u ["w"; "week"; "weeks"] then Some (7 * 24 * 60)
  else if Py.in_list u ["mon"; "month"; "months"] then Some (31 * 24 * 60)
  else if Py.in_list u ["y"; "year"; "years"] then Some (365 * 24 * 60)
  else None.

Definition us_per_minute : Z := 60 * Time.us_per_second.

(** The longest duration a [timedelta] holds, in days. *)
Definition max_days : Z := 999999999.

(** The send flags [validate_args] lets through, and the receive flags. *)
Definition send_flags : string := "DLPRbcehnpsvw".
Definition recv_flags : string := "FhMnsuv".

(** [flags] is empty, or ["-"] followed by characters of [allowed] only. *)
Definition flag_word (allowed flags : string) : Prop :=
  flags = EmptyString
  ∨ ∃ c w, flags = String "-" (String c w)
      ∧ first_not_in allowed (String c w) = None.

Definition quote : string := "'".

(** The message of the last test of [validate_args]. *)
Definition slash_message : string :=
  "Source and destination cannot start with '/'".

(** The two modes of [validate_args] end the same way: with the same
    arguments, with the same exception of [_get_timedelta], or one with an
    exit and the other with a [ValueError]. *)
Definition same_verdict (exiting raising : outcome validated) : Prop :=
  match exiting, raising with
  | Valid v, Valid v' => v = v'
  | Exit _, Invalid _ => True
  | Raised e, Raised e' => e = e'
  | _, _ => False
  end.

(** A send piped into a receive, the only command run through the shell. *)
Definition is_pipeline (c : command) : bool :=
  match c with
  | Shell _ => true
  | Argv _ => false
  end.

(** A [zfs list] query. *)
Definition is_listing (c : command) : bool :=
  match c with
  | Argv ("zfs" :: "list" :: _) => true
  | _ => false
  end.

(** How a transfer ends after the commands [tr]: it raises after listings
    only, or it issues one pipeline after its listings, and returns exactly
    when the pipeline's return code is 0. *)
Inductive transfer_end (st : store) (tr : list command)
    : result unit * list command → Prop :=
  | transfer_refused e qs :
      Forall (λ c, is_listing c = true) qs →
      transfer_end st tr (Raise e, tr ++ qs)
  | transfer_sent qs sh :
      Forall (λ c, is_listing c = true) qs →
      transfer_end st tr
        (if returncode (st (Shell sh)) =? 0 then Ok tt
         else Raise (ZFSError (stderr (st (Shell sh)))),
         tr ++ qs ++ [Shell sh]).

(** Arguments with a label that ends with a digit, and an omit window of
    one hour. *)
Definition sample_args_digit_label : args :=
  Args "pool/ds" "backup/ds" "yazbak2" "" "" false false false false false false
    (Some one_hour).

(** The interpreter of the examples: it refuses every spelling that
    [fromisoformat] leaves to it. *)
Definition strict_iso (s : string) : result Time.datetime := Raise ValueError.

(** ** Facts on the string primitives *)

Lemma find_from_first i s c p :
  0 <= i → Py.find_from i s (String c p) ≠ -1 →
  Py.find_from i s (String c EmptyString) ≠ -1.
Proof.
  revert i. induction s as [|b s IH]; intros i Hi; cbn.
  - congruence.
  - destruct (Ascii.eqb c b); cbn.
    + intros _. destruct s; cbn; lia.
    + intros H. apply IH in H; [|lia]. exact H.
Qed.

Lemma occurs_at_label l line : occurs ("@" +:+ l) line → occurs "@" line.
Proof. unfold occurs, Py.find. cbn. apply find_from_first. lia. Qed.

(** ** ChangeDetector: [has_changed] *)

Section ChangeDetector.
Variable a : args.

Lemma body_skipped zero line :
  descendant_skipped a line = true →
  has_changed_body a zero line = Ok (Next zero).
Proof. unfold descendant_skipped, has_changed_body. intros ->. reflexivity. Qed.

Lemma body_same_label zero line :
  descendant_skipped a line = false →
  occurs "@" line → occurs ("@" +:+ label a) line →
  has_changed_body a zero line = Ok (Next true).
Proof.
  unfold descendant_skipped, occurs, has_changed_body. intros -> H1 H2.
  apply Z.eqb_neq in H1, H2. rewrite H1, H2. reflexivity.
Qed.

Lemma body_other_label zero line w :
  descendant_skipped a line = false →
  occurs "@" line → ¬ occurs ("@" +:+ label a) line →
  written (Py.split Py.tab line) = Ok w →
  has_changed_body a zero line = Ok (Next (if w =? 0 then zero else false)).
Proof.
  unfold descendant_skipped, occurs, has_changed_body. intros -> H1 H2 Hw.
  apply Z.eqb_neq in H1. rewrite H1.
  destruct (Py.find line ("@" +:+ label a) =? -1) eqn:E.
  - cbn. rewrite Hw. cbn. destruct (w =? 0); reflexivity.
  - apply Z.eqb_neq in E. contradiction.
Qed.

Lemma body_live zero line w :
  descendant_skipped a line = false →
  ¬ occurs "@" line →
  written (Py.split Py.tab line) = Ok w →
  has_changed_body a zero line
  = Ok (if w =? 0 then Next true else Return true).
Proof.
  unfold descendant_skipped, occurs, has_changed_body. intros -> H1 Hw.
  destruct (Py.find line "@" =? -1) eqn:E.
  - cbn. rewrite Hw. cbn. destruct (w =? 0); reflexivity.
  - apply Z.eqb_neq in E. contradiction.
Qed.

Lemma loop_scan zero lines zero' :
  scan a zero lines zero' → has_changed_loop a zero lines = Ok (negb zero').
Proof.
  induction 1 as [|zero zero' zero'' line lines Hbody _ IH]; cbn.
  - reflexivity.
  - rewrite Hbody. cbn. exact IH.
Qed.

Lemma loop_scan_app zero pre zero' rest :
  scan a zero pre zero' →
  has_changed_loop a zero (pre ++ rest) = has_changed_loop a zero' rest.
Proof.
  induction 1 as [|zero zero' zero'' line lines Hbody _ IH]; cbn.
  - reflexivity.
  - rewrite Hbody. cbn. exact IH.
Qed.

Lemma loop_same_label lines :
  Forall (occurs ("@" +:+ label a)) lines →
  has_changed_loop a true lines = Ok false.
Proof.
  induction 1 as [|line lines Hline _ IH]; cbn; [reflexivity|].
  destruct (descendant_skipped a line) eqn:Hskip.
  - rewrite body_skipped by assumption. cbn. exact IH.
  - rewrite body_same_label by eauto using occurs_at_label. cbn. exact IH.
Qed.

End ChangeDetector.

(** C1.  In [has_changed], for a record the descendant filter lets through:
    a snapshot boundary carrying the configured label resets the carry flag
    [zero] to true; a snapshot boundary with another label and a nonzero
    byte count sets [zero] to false and the loop goes on; when all records
    are processed without an early return the verdict is "changed" exactly
    when [zero] ended false; and a stream of same-label boundaries only
    yields "unchanged". *)
Theorem has_changed_boundary_rules (a : args) :
  (∀ zero line,
     descendant_skipped a line = false →
     occurs "@" line → occurs ("@" +:+ label a) line →
     has_changed_body a zero line = Ok (Next true))
  ∧ (∀ zero line w,
       descendant_skipped a line = false →
       occurs "@" line → ¬ occurs ("@" +:+ label a) line →
       written (Py.split Py.tab line) = Ok w → w ≠ 0 →
       has_changed_body a zero line = Ok (Next false))
  ∧ (∀ lines zero,
       scan a true lines zero →
       has_changed_lines a lines = Ok (negb zero))
  ∧ (∀ lines,
       Forall (occurs ("@" +:+ label a)) lines →
       has_changed_lines a lines = Ok false).
Proof.
  repeat split.
  - apply body_same_label.
  - intros zero line w Hskip Hat Hlabel Hw Hnz.
    rewrite (body_other_label a zero line w) by assumption.
    apply Z.eqb_neq in Hnz. rewrite Hnz. reflexivity.
  - intros lines zero. apply loop_scan.
  - apply loop_same_label.
Qed.

Lemma has_changed_boundary_rules_witness :
  has_changed_body sample_args false
    (written_row "pool/ds@yazbak_2024-01-01_1000" "512") = Ok (Next true)
  ∧ has_changed_body sample_args true
      (written_row "pool/ds@manual" "512") = Ok (Next false)
  ∧ has_changed_lines sample_args
      [written_row "pool/ds" "0"; written_row "pool/ds@manual" "512"]
    = Ok (negb false)
  ∧ has_changed_lines sample_args
      [written_row "pool/ds@yazbak_2024-01-01_1000" "512";
       written_row "pool/ds@yazbak_2024-01-02_1000" "0"]
    = Ok false.
Proof.
  destruct (has_changed_boundary_rules sample_args) as (H1 & H2 & H3 & H4).
  split; [|split; [|split]].
  - apply H1; vm_compute; congruence.
  - apply (H2 true _ 512); vm_compute; congruence.
  - apply H3. eapply scan_cons; [vm_compute; reflexivity|].
    eapply scan_cons; [vm_compute; reflexivity|]. apply scan_nil.
  - apply H4. repeat constructor; vm_compute; congruence.
Defined.

(** X24.  The live records of [has_changed], as the code has them.  A
    record without ["@"] that the descendant test does not skip and whose
    byte count is not 0 makes [has_changed] return "changed" at once,
    whatever records follow.  With a byte count of 0 it sets the carry flag
    [zero] to true, whatever it was, and the loop goes on. *)
Theorem has_changed_live_record_rules (a : args) :
  (∀ zero line w,
     descendant_skipped a line = false → ¬ occurs "@" line →
     written (Py.split Py.tab line) = Ok w → w ≠ 0 →
     has_changed_body a zero line = Ok (Return true))
  ∧ (∀ pre zero line rest w,
       scan a true pre zero →
       descendant_skipped a line = false → ¬ occurs "@" line →
       written (Py.split Py.tab line) = Ok w → w ≠ 0 →
       has_changed_lines a (pre ++ line :: rest) = Ok true)
  ∧ (∀ zero line,
       descendant_skipped a line = false → ¬ occurs "@" line →
       written (Py.split Py.tab line) = Ok 0 →
       has_changed_body a zero line = Ok (Next true)).
Proof.
  assert (Hlive : ∀ zero line w,
     descendant_skipped a line = false → ¬ occurs "@" line →
     written (Py.split Py.tab line) = Ok w → w ≠ 0 →
     has_changed_body a zero line = Ok (Return true)).
  { intros zero line w Hskip Hat Hw Hnz.
    rewrite (body_live a zero line w) by assumption.
    apply Z.eqb_neq in Hnz. rewrite Hnz. reflexivity. }
  split; [exact Hlive|split].
  - intros pre zero line rest w Hpre Hskip Hat Hw Hnz.
    unfold has_changed_lines. rewrite (loop_scan_app a true pre zero) by assumption.
    cbn. rewrite (Hlive zero line w) by assumption. reflexivity.
  - intros zero line Hskip Hat Hw.
    rewrite (body_live a zero line 0) by assumption. reflexivity.
Qed.

Lemma has_changed_live_record_rules_witness :
  has_changed_body sample_args true (written_row "pool/ds" "4096") = Ok (Return true)
  ∧ has_changed_lines sample_args_R
      ([written_row "pool/ds" "0"; written_row "pool/ds@manual" "0"]
         ++ written_row "pool/ds/child" "4096"
         :: [written_row "pool/ds/child@yazbak_2024-01-01_1000" "0"])
    = Ok true
  ∧ has_changed_body sample_args false (written_row "pool/ds" "0") = Ok (Next true).
Proof.
  destruct (has_changed_live_record_rules sample_args) as (H1 & _ & H3).
  destruct (has_changed_live_record_rules sample_args_R) as (_ & H2 & _).
  split; [|split].
  - apply (H1 true _ 4096); vm_compute; congruence.
  - apply (H2 _ true _ _ 4096); try (vm_compute; congruence).
    eapply scan_cons; [vm_compute; reflexivity|].
    eapply scan_cons; [vm_compute; reflexivity|]. apply scan_nil.
  - apply H3; vm_compute; congruence.
Defined.

(** C2.  The records, with ["R"] among the send flags, of a dataset with
    nothing written, a snapshot of another label with 4096 bytes written
    and a child dataset with nothing written.  The record of the child is
    a live record with a zero byte count; the loop does not leave the carry
    flag as it was, it sets it to true (line 64).  So the 4096 bytes are
    forgotten and [has_changed] answers "unchanged", where without the
    record of the child it answers "changed". *)
Theorem has_changed_at_zero_live_record :
  descendant_skipped sample_args_R (written_row "pool/ds/child" "0") = false
  ∧ ¬ occurs "@" (written_row "pool/ds/child" "0")
  ∧ written (Py.split Py.tab (written_row "pool/ds/child" "0")) = Ok 0
  ∧ has_changed_body sample_args_R false (written_row "pool/ds/child" "0")
    = Ok (Next true)
  ∧ exec (has_changed (init sample_args_R sample_now))
      (sample_store
         [written_row "pool/ds" "0"; written_row "pool/ds@manual" "4096"] [] [])
    = (Ok true, [get_written_command sample_args_R])
  ∧ exec (has_changed (init sample_args_R sample_now))
      (sample_store
         [written_row "pool/ds" "0"; written_row "pool/ds@manual" "4096";
          written_row "pool/ds/child" "0"] [] [])
    = (Ok false, [get_written_command sample_args_R]).
Proof.
  split; [vm_compute; reflexivity|].
  split; [vm_compute; congruence|].
  repeat split; vm_compute; reflexivity.
Qed.

(** ** TimeSpecParser: [_get_timedelta] *)

Lemma in_list_true s l : Py.in_list s l = true ↔ s ∈ l.
Proof.
  unfold Py.in_list. rewrite existsb_exists, list_elem_of_In. split.
  - intros (x & Hx & ->%String.eqb_eq). exact Hx.
  - intros Hs. exists s. split; [exact Hs|apply String.eqb_refl].
Qed.

Lemma in_list_false s l : s ∉ l → Py.in_list s l = false.
Proof.
  intros Hs. destruct (Py.in_list s l) eqn:E; [|reflexivity].
  apply in_list_true in E. contradiction.
Qed.

Lemma int_raises s e : Py.int s = Raise e → e = ValueError.
Proof.
  unfold Py.int, or_raise.
  destruct (Py.max_str_digits <? Py.digit_count s); [congruence|].
  destruct (match Py.lstrip s with EmptyString => _ | String _ _ => _ end);
    congruence.
Qed.

Lemma timedelta_new_days d :
  0 <= d <= 999999999 →
  Time.timedelta_new d 0 0 0 0 0 0 = Ok (Time.Timedelta d 0 0).
Proof.
  intros Hd. unfold Time.timedelta_new, Time.of_microseconds.
  replace (((d + 7 * 0) * 86400 + 0 + 60 * 0 + 3600 * 0) * Time.us_per_second
           + 0 + 1000 * 0)
    with (d * Time.us_per_day) by (unfold Time.us_per_day; ring).
  rewrite Z.div_mul, Z.mod_mul by (unfold Time.us_per_day, Time.us_per_second; lia).
  destruct (999999999 <? Z.abs d) eqn:E; [apply Z.ltb_lt in E; lia|].
  reflexivity.
Qed.

Lemma get_timedelta_months s n :
  Py.int (Py.match_digits s) = Ok n → 0 <= n → n * 31 <= 999999999 →
  unit_text s ∈ ["mon"; "month"; "months"] →
  _get_timedelta s = Ok (Time.Timedelta (n * 31) 0 0).
Proof.
  intros Hn Hn0 Hmax Hu. unfold _get_timedelta. rewrite Hn. cbn.
  fold (unit_text s).
  rewrite <- (timedelta_new_days (n * 31)) by lia.
  repeat (apply elem_of_cons in Hu as [-> | Hu]; [reflexivity|]).
  inversion Hu.
Qed.

Lemma get_timedelta_years s n :
  Py.int (Py.match_digits s) = Ok n → 0 <= n → n * 365 <= 999999999 →
  unit_text s ∈ ["y"; "year"; "years"] →
  _get_timedelta s = Ok (Time.Timedelta (n * 365) 0 0).
Proof.
  intros Hn Hn0 Hmax Hu. unfold _get_timedelta. rewrite Hn. cbn.
  fold (unit_text s).
  rewrite <- (timedelta_new_days (n * 365)) by lia.
  repeat (apply elem_of_cons in Hu as [-> | Hu]; [reflexivity|]).
  inversion Hu.
Qed.

Lemma get_timedelta_no_number s :
  Py.match_digits s = EmptyString → _get_timedelta s = Raise ValueError.
Proof. intros H. unfold _get_timedelta. rewrite H. reflexivity. Qed.

Lemma get_timedelta_unknown_unit s :
  unit_text s ∉ recognized_units → _get_timedelta s = Raise ValueError.
Proof.
  unfold recognized_units. rewrite !not_elem_of_app.
  intros (Hm & Hh & Hd & Hw & Hmon & Hy).
  unfold _get_timedelta.
  destruct (Py.int (Py.match_digits s)) as [n|e] eqn:E.
  - cbn [mbind result_bind]. fold (unit_text s).
    rewrite !in_list_false by assumption. reflexivity.
  - apply int_raises in E as ->. reflexivity.
Qed.

(** C9.  [_get_timedelta] reads ["3h"] as three hours, ["5days"] as five
    days and ["2mon"] as 62 days; a month is 31 days and a year 365 days
    for every count; and it raises [ValueError] (the specification's
    InvalidTimeSpec) whenever the leading digits are absent, as in ["x"] and
    ["h"], or the text after the digits is not a unit it knows. *)
Theorem get_timedelta_contract :
  _get_timedelta "3h" = Ok (Time.Timedelta 0 (3 * 3600) 0)
  ∧ _get_timedelta "5days" = Ok (Time.Timedelta 5 0 0)
  ∧ _get_timedelta "2mon" = Ok (Time.Timedelta 62 0 0)
  ∧ (∀ s n,
       Py.int (Py.match_digits s) = Ok n → 0 <= n → n * 31 <= 999999999 →
       unit_text s ∈ ["mon"; "month"; "months"] →
       _get_timedelta s = Ok (Time.Timedelta (n * 31) 0 0))
  ∧ (∀ s n,
       Py.int (Py.match_digits s) = Ok n → 0 <= n → n * 365 <= 999999999 →
       unit_text s ∈ ["y"; "year"; "years"] →
       _get_timedelta s = Ok (Time.Timedelta (n * 365) 0 0))
  ∧ _get_timedelta "x" = Raise ValueError
  ∧ _get_timedelta "h" = Raise ValueError
  ∧ (∀ s, Py.match_digits s = EmptyString → _get_timedelta s = Raise ValueError)
  ∧ (∀ s, unit_text s ∉ recognized_units → _get_timedelta s = Raise ValueError).
Proof.
  split; [reflexivity|]. split; [reflexivity|]. split; [reflexivity|].
  split; [exact get_timedelta_months|]. split; [exact get_timedelta_years|].
  split; [reflexivity|]. split; [reflexivity|].
  split; [exact get_timedelta_no_number|exact get_timedelta_unknown_unit].
Qed.

Lemma get_timedelta_contract_witness :
  _get_timedelta "12months" = Ok (Time.Timedelta (12 * 31) 0 0)
  ∧ _get_timedelta "2years" = Ok (Time.Timedelta (2 * 365) 0 0)
  ∧ _get_timedelta "hours" = Raise ValueError
  ∧ _get_timedelta "3h2m" = Raise ValueError.
Proof.
  destruct get_timedelta_contract as (_ & _ & _ & Hmon & Hy & _ & _ & Hnum & Hunit).
  split; [|split; [|split]].
  - apply Hmon; [reflexivity|lia|lia|].
    vm_compute. apply list_elem_of_further, list_elem_of_further, list_elem_of_here.
  - apply Hy; [reflexivity|lia|lia|].
    vm_compute. apply list_elem_of_further, list_elem_of_further, list_elem_of_here.
  - apply Hnum. reflexivity.
  - apply Hunit. vm_compute. intros H.
    repeat (apply elem_of_cons in H as [H|H]; [discriminate H|]).
    inversion H.
Defined.

(** ** Snapshot names *)

Ltac div_lia := Z.div_mod_to_equations; lia.

Lemma digit_char_cases d :
  0 <= d <= 9 →
  Py.is_digit (Time.digit_char d) = true
  ∧ Ascii.eqb (Time.digit_char d) ":" = false.
Proof.
  intros Hd.
  assert (d = 0 ∨ d = 1 ∨ d = 2 ∨ d = 3 ∨ d = 4 ∨ d = 5 ∨ d = 6 ∨ d = 7
          ∨ d = 8 ∨ d = 9) as H by lia.
  repeat (destruct H as [-> | H]; [split; reflexivity|]).
  subst d. split; reflexivity.
Qed.

Lemma valid_bounds dt :
  Time.valid dt = true →
  1 <= Time.year dt <= 9999 ∧ 1 <= Time.month dt <= 12 ∧ 1 <= Time.day dt <= 31
  ∧ 0 <= Time.hour dt <= 23 ∧ 0 <= Time.minute dt <= 59.
Proof.
  unfold Time.valid. rewrite !andb_true_iff, !Z.leb_le.
  intros H. decompose [and] H. clear H.
  assert (Time.days_in_month (Time.year dt) (Time.month dt) <= 31).
  { unfold Time.days_in_month.
    repeat match goal with |- context [if ?b then _ else _] => destruct b end; lia. }
  lia.
Qed.

Lemma timestamp_written a now :
  Time.valid now = true →
  timestamp (init a now)
  = Time.fmt04 (Time.year now) +:+ "-" +:+ Time.fmt02 (Time.month now) +:+ "-"
      +:+ Time.fmt02 (Time.day now) +:+ "_" +:+ Time.fmt02 (Time.hour now)
      +:+ Time.fmt02 (Time.minute now)
  ∧ has_shape written_stamp_shape (timestamp (init a now)) = true.
Proof.
  intros Hv. apply valid_bounds in Hv as (Hy & Hm & Hd & Hh & Hn).
  destruct now as [y m d h n sec us]. cbn in Hy, Hm, Hd, Hh, Hn.
  destruct (digit_char_cases (y / 1000)) as [Y1 Y1']; [div_lia|].
  destruct (digit_char_cases (y / 100 mod 10)) as [Y2 Y2']; [div_lia|].
  destruct (digit_char_cases (y mod 100 / 10)) as [Y3 Y3']; [div_lia|].
  destruct (digit_char_cases (y mod 100 mod 10)) as [Y4 Y4']; [div_lia|].
  destruct (digit_char_cases (m / 10)) as [M1 M1']; [div_lia|].
  destruct (digit_char_cases (m mod 10)) as [M2 M2']; [div_lia|].
  destruct (digit_char_cases (d / 10)) as [D1 D1']; [div_lia|].
  destruct (digit_char_cases (d mod 10)) as [D2 D2']; [div_lia|].
  destruct (digit_char_cases (h / 10)) as [H1 H1']; [div_lia|].
  destruct (digit_char_cases (h mod 10)) as [H2 H2']; [div_lia|].
  destruct (digit_char_cases (n / 10)) as [N1 N1']; [div_lia|].
  destruct (digit_char_cases (n mod 10)) as [N2 N2']; [div_lia|].
  unfold init, timestamp, Time.isoformat_minutes, Time.fmt04, Time.fmt02,
    written_stamp_shape, is_char.
  cbv [Time.year Time.month Time.day Time.hour Time.minute String.append].
  cbn [Py.remove_char has_shape].
  rewrite Y1', Y2', Y3', Y4', M1', M2', D1', D2', H1', H2', N1', N2'.
  cbn [Py.remove_char has_shape Ascii.eqb Bool.eqb].
  rewrite Y1, Y2, Y3, Y4, M1, M2, D1, D2, H1, H2, N1, N2.
  split; reflexivity.
Qed.

Lemma shape_excludes shape x :
  Forall (λ p : ascii → bool, p x = false) shape →
  ∀ s i, has_shape shape s = true → Py.find_from i s (String x EmptyString) = -1.
Proof.
  induction 1 as [|p shape Hp _ IH]; intros [|c s] i Hs; cbn in *;
    try discriminate; [reflexivity|].
  apply andb_true_iff in Hs as [Hc Hs].
  destruct (Ascii.eqb x c) eqn:E.
  - apply Ascii.eqb_eq in E as ->. congruence.
  - cbn. apply IH, Hs.
Qed.

(** C8, as the code has it.  The name passed to [zfs snapshot] is
    [<dataset>@<label>_<YYYY-MM-DD_HHMM>]: date and time are separated by
    ["_"], hours and minutes are written together, the precision is the
    minute, and the stamp holds neither a colon nor a ["T"]. *)
Theorem snapshot_name_format (a : args) (now : Time.datetime) :
  Time.valid now = true →
  snapshot_argument (init a now)
  = Some (source a +:+ "@" +:+ label a +:+ "_" +:+ timestamp (init a now))
  ∧ timestamp (init a now)
    = Time.fmt04 (Time.year now) +:+ "-" +:+ Time.fmt02 (Time.month now) +:+ "-"
        +:+ Time.fmt02 (Time.day now) +:+ "_" +:+ Time.fmt02 (Time.hour now)
        +:+ Time.fmt02 (Time.minute now)
  ∧ has_shape written_stamp_shape (timestamp (init a now)) = true
  ∧ ¬ occurs ":" (timestamp (init a now))
  ∧ ¬ occurs "T" (timestamp (init a now)).
Proof.
  intros Hv. destruct (timestamp_written a now Hv) as [Hstamp Hshape].
  split; [|split; [exact Hstamp|split; [exact Hshape|]]].
  - unfold snapshot_argument, snapshot_command. cbn [self_args init snapshot_name timestamp].
    destruct (Py.contains (send a) "R"); reflexivity.
  - unfold occurs, Py.find.
    split; intros H; apply H; apply (shape_excludes written_stamp_shape);
      try exact Hshape; repeat constructor.
Qed.

Lemma snapshot_name_format_witness :
  snapshot_argument sample_self = Some "pool/ds@yazbak_2024-01-02_0304"
  ∧ timestamp sample_self = "2024-01-02_0304".
Proof.
  destruct (snapshot_name_format sample_args sample_now) as (H1 & H2 & _).
  - reflexivity.
  - split; [exact H1|exact H2].
Defined.

(** C8 as the specification words it fails: for the time 2024-01-02 03:04
    the tool names the snapshot [..._2024-01-02_0304], not
    [..._2024-01-02T03-04]. *)
Lemma snapshot_name_format_counterexample :
  Time.valid sample_now = true
  ∧ snapshot_argument sample_self = Some "pool/ds@yazbak_2024-01-02_0304"
  ∧ specified_stamp sample_now = "2024-01-02T03-04"
  ∧ snapshot_argument sample_self
    ≠ Some (source sample_args +:+ "@" +:+ label sample_args +:+ "_"
              +:+ specified_stamp sample_now)
  ∧ has_shape specified_stamp_shape (timestamp sample_self) = false
  ∧ ¬ (∀ (a : args) (now : Time.datetime),
         Time.valid now = true →
         snapshot_argument (init a now)
         = Some (source a +:+ "@" +:+ label a +:+ "_" +:+ specified_stamp now)).
Proof.
  assert (Hname : snapshot_argument sample_self = Some "pool/ds@yazbak_2024-01-02_0304")
    by (vm_compute; reflexivity).
  assert (Hspec : specified_stamp sample_now = "2024-01-02T03-04")
    by (vm_compute; reflexivity).
  split; [vm_compute; reflexivity|]. split; [exact Hname|]. split; [exact Hspec|].
  split; [rewrite Hname, Hspec; vm_compute; congruence|].
  split; [vm_compute; reflexivity|].
  intros H. pose proof (H sample_args sample_now eq_refl) as E.
  fold sample_self in E. rewrite Hname, Hspec in E. vm_compute in E. discriminate E.
Qed.

(** ** Failures of the store's commands *)

Lemma snapshot_failure s st :
  returncode (st (snapshot_command s)) ≠ 0 →
  exec (snapshot s) st
  = (Raise (if Py.find (stderr (st (snapshot_command s))) "permission denied" =? 0
            then ZFSError (stderr (st (snapshot_command s)))
            else PermissionError (stderr (st (snapshot_command s)))),
     [snapshot_command s]).
Proof.
  intros H%Z.eqb_neq. unfold exec, snapshot, mbind, M_bind, run. cbn.
  rewrite H. cbn.
  destruct (Py.find _ _ =? 0); reflexivity.
Qed.

(** C6, the code at two failing commands.  A failure whose text does not
    mention the marker is raised as [PermissionError], and one whose text
    begins with the marker is raised as the plain [ZFSError]: the test is on
    the index [find] returns, which is true when it is not 0. *)
Theorem snapshot_permission_test_at_failing_inputs :
  let busy := "cannot create snapshot 'pool/ds@yazbak_2024-01-02_0304': dataset is busy" in
  let denied := "permission denied: cannot create snapshots" in
  (¬ occurs "permission denied" busy
   ∧ exec (snapshot sample_self) (answering (Completed 1 "" busy))
     = (Raise (PermissionError busy), [snapshot_command sample_self]))
  ∧ (occurs "permission denied" denied
     ∧ exec (snapshot sample_self) (answering (Completed 1 "" denied))
       = (Raise (ZFSError denied), [snapshot_command sample_self])).
Proof. repeat split; vm_compute; congruence. Qed.

Lemma new_backup_listing_failure s st :
  returncode (st (list_command (source (self_args s)))) ≠ 0 →
  exec (new_backup s) st
  = (Raise (NoMatchingSnapshots "There are no snapshots tha can be sent"),
     [list_command (source (self_args s))]).
Proof.
  intros H%Z.eqb_neq.
  unfold exec, new_backup, try_except, list_yaz_snapshots, mbind, M_bind, run.
  fold (list_command (source (self_args s))). cbn. rewrite H. reflexivity.
Qed.

Lemma incremental_backup_listing_failure s st :
  returncode (st (list_command (source (self_args s)))) ≠ 0 →
  exec (incremental_backup s) st
  = (Raise (ZFSError (stderr (st (list_command (source (self_args s)))))),
     [list_command (source (self_args s))]).
Proof.
  intros H%Z.eqb_neq.
  unfold exec, incremental_backup, list_yaz_snapshots, mbind, M_bind, run.
  fold (list_command (source (self_args s))). cbn. rewrite H. reflexivity.
Qed.

(** C7, the code at a failing query.  When [zfs list] fails, [new_backup]
    raises [NoMatchingSnapshots] and the store's message is lost, while
    [incremental_backup] lets the [ZFSError] of the same query through. *)
Theorem new_backup_at_failing_listing :
  let message := "cannot open 'pool/ds': dataset does not exist" in
  let st := answering (Completed 1 "" message) in
  exec (list_yaz_snapshots sample_self "pool/ds") st
  = (Raise (ZFSError message), [list_command "pool/ds"])
  ∧ exec (new_backup sample_self) st
    = (Raise (NoMatchingSnapshots "There are no snapshots tha can be sent"),
       [list_command "pool/ds"])
  ∧ exec (incremental_backup sample_self) st
    = (Raise (ZFSError message), [list_command "pool/ds"]).
Proof. repeat split. Qed.

(** ** SnapshotPairFinder: [get_pairs] *)

Lemma suffix_raises n e : suffix n = Raise e → e = AttributeError.
Proof.
  unfold suffix. destruct (Py.search_at n); cbn; congruence.
Qed.

Lemma body_specP src dest st : body_spec src dest st (get_pairs_body src dest st).
Proof.
  unfold get_pairs_body.
  destruct (src !! i st) as [s|] eqn:Hs; [|apply body_exit; auto].
  destruct (dest !! j st) as [d|] eqn:Hd; [|apply body_exit; auto].
  destruct (suffix s) as [x|e] eqn:Hx; cbn.
  - destruct (suffix d) as [y|e] eqn:Hy; cbn.
    + destruct (String.eqb x y) eqn:E.
      * apply String.eqb_eq in E as <-. eapply body_match; eauto.
      * apply String.eqb_neq in E.
        destruct (_get_timestamp x), (_get_timestamp y);
          try destruct (Py.lt _ _);
          first [ eapply body_skip_src; by eauto | eapply body_skip_dest; by eauto ].
    + apply suffix_raises in Hy as Hy'. subst e.
      eapply body_raise; eauto. intros ? ? [_ ?]. congruence.
  - apply suffix_raises in Hx as Hx'. subst e.
    eapply body_raise; eauto. intros ? ? [? _]. congruence.
Qed.

Lemma get_pairs_loop_unfold src dest st :
  get_pairs_loop src dest st
  = match get_pairs_body src dest st with
    | Raise e => Raise e
    | Ok (Return r) => Ok r
    | Ok (Next st') => get_pairs_loop src dest st'
    end.
Proof.
  funelim (get_pairs_loop src dest st);
    match goal with E : get_pairs_body _ _ _ = _ |- _ => rewrite E end;
    reflexivity.
Qed.

(** Induction along the turns of the loop. *)
Lemma get_pairs_loop_turns src dest (P : pairing → result (list string) → Prop) :
  (∀ st st', step src dest st st' →
     P st' (get_pairs_loop src dest st') → P st (get_pairs_loop src dest st')) →
  (∀ st r, get_pairs_body src dest st = Ok (Return r) → P st (Ok r)) →
  (∀ st e, get_pairs_body src dest st = Raise e → P st (Raise e)) →
  ∀ st, P st (get_pairs_loop src dest st).
Proof.
  intros Hnext Hreturn Hraise st.
  funelim (get_pairs_loop src dest st).
  - apply Hnext; [exact H|]. apply H0; assumption.
  - apply Hreturn. assumption.
  - apply Hraise. assumption.
Qed.

Lemma has_suffix_lookup names sufs k n :
  Forall2 has_suffix names sufs → names !! k = Some n →
  ∃ x, sufs !! k = Some x ∧ suffix n = Ok x.
Proof. intros H Hn. exact (Forall2_lookup_l _ _ _ _ _ H Hn). Qed.

Lemma loop_sublists src dest ssuf dsuf st :
  Forall2 has_suffix src ssuf → Forall2 has_suffix dest dsuf →
  ∃ r, get_pairs_loop src dest st = Ok (pairs st ++ r)
       ∧ r `sublist_of` drop (i st) ssuf
       ∧ r `sublist_of` drop (j st) dsuf.
Proof.
  intros Hsrc Hdest.
  apply (get_pairs_loop_turns src dest (λ st res,
    ∃ r, res = Ok (pairs st ++ r)
         ∧ r `sublist_of` drop (i st) ssuf ∧ r `sublist_of` drop (j st) dsuf));
    clear st.
  - (* another turn *)
    intros st st' H (r & -> & Hr1 & Hr2).
    pose proof (body_specP src dest st) as Hb. rewrite H in Hb.
    inversion Hb as [| |s d x Hs Hd Hx Hy|s d x y Hs Hd Hx Hy Hne|s d x y Hs Hd Hx Hy Hne];
      subst; cbn in *.
    + destruct (has_suffix_lookup _ _ _ _ Hsrc Hs) as (x' & Hx' & E1).
      destruct (has_suffix_lookup _ _ _ _ Hdest Hd) as (y' & Hy' & E2).
      assert (x' = x) as -> by congruence. assert (y' = x) as -> by congruence.
      exists (x :: r). rewrite <- app_assoc. split; [reflexivity|].
      rewrite (drop_S _ _ _ Hx'), (drop_S _ _ _ Hy').
      split; by apply sublist_skip.
    + destruct (has_suffix_lookup _ _ _ _ Hsrc Hs) as (x' & Hx' & _).
      exists r. split; [reflexivity|]. split; [|assumption].
      rewrite (drop_S _ _ _ Hx'). by apply sublist_cons.
    + destruct (has_suffix_lookup _ _ _ _ Hdest Hd) as (y' & Hy' & _).
      exists r. split; [reflexivity|]. split; [assumption|].
      rewrite (drop_S _ _ _ Hy'). by apply sublist_cons.
  - (* the loop ends *)
    intros st r e.
    pose proof (body_specP src dest st) as Hb. rewrite e in Hb.
    inversion Hb; subst.
    exists []. rewrite app_nil_r. auto using sublist_nil_l.
  - (* an extraction fails: excluded *)
    intros st e e1.
    pose proof (body_specP src dest st) as Hb. rewrite e1 in Hb.
    inversion Hb as [|s d Hs Hd Hno| | |]; subst.
    destruct (has_suffix_lookup _ _ _ _ Hsrc Hs) as (x' & _ & E1).
    destruct (has_suffix_lookup _ _ _ _ Hdest Hd) as (y' & _ & E2).
    exfalso. eapply Hno; eauto.
Qed.

Lemma loop_same names sufs st :
  Forall2 has_suffix names sufs → i st = j st →
  get_pairs_loop names names st = Ok (pairs st ++ drop (i st) sufs).
Proof.
  intros Hn. revert st.
  apply (get_pairs_loop_turns names names (λ st res,
    i st = j st → res = Ok (pairs st ++ drop (i st) sufs))).
  - intros st st' H IH Hij.
    pose proof (body_specP names names st) as Hb. rewrite H in Hb.
    inversion Hb as [| |s d x Hs Hd Hx Hy|s d x y Hs Hd Hx Hy Hne|s d x y Hs Hd Hx Hy Hne];
      subst; cbn in *.
    + destruct (has_suffix_lookup _ _ _ _ Hn Hs) as (x' & Hx' & E1).
      assert (x' = x) as -> by congruence.
      rewrite IH by congruence.
      rewrite (drop_S _ _ _ Hx'), <- app_assoc. reflexivity.
    + rewrite Hij in Hs. congruence.
    + rewrite Hij in Hs. congruence.
  - intros st r e Hij.
    pose proof (body_specP names names st) as Hb. rewrite e in Hb.
    inversion Hb as [Hnone| | | |]; subst.
    assert (names !! i st = None) as Hi by (destruct Hnone; congruence).
    apply lookup_ge_None in Hi. apply Forall2_length in Hn.
    rewrite drop_ge by lia. by rewrite app_nil_r.
  - intros st e e1 _.
    pose proof (body_specP names names st) as Hb. rewrite e1 in Hb.
    inversion Hb as [|s d Hs Hd Hno| | |]; subst.
    destruct (has_suffix_lookup _ _ _ _ Hn Hs) as (x' & _ & E1).
    destruct (has_suffix_lookup _ _ _ _ Hn Hd) as (y' & _ & E2).
    exfalso. eapply Hno; eauto.
Qed.

Lemma get_pairs_empty l : get_pairs [] l = Ok [] ∧ get_pairs l [] = Ok [].
Proof.
  unfold get_pairs. rewrite !get_pairs_loop_unfold. unfold get_pairs_body. cbn.
  split; [reflexivity|]. destruct l; reflexivity.
Qed.

Lemma sublist_list_intersection (l k1 k2 : list string) :
  l `sublist_of` k1 → l `sublist_of` k2 → l `sublist_of` list_intersection k1 k2.
Proof.
  intros H1 H2.
  assert (Forall (λ x, x ∈ k2) l) as Hin.
  { apply Forall_forall. intros x Hx. eapply elem_of_sublist; eauto. }
  clear H2. induction H1 as [|x l k1 _ IH|x l k1 _ IH]; cbn.
  - constructor.
  - apply Forall_cons in Hin as [Hx Hin].
    destruct (decide_rel _ x k2); [|contradiction]. apply sublist_skip, IH, Hin.
  - destruct (decide_rel _ x k2); [apply sublist_cons|]; apply IH, Hin.
Qed.

Lemma StronglySorted_sublist (R : relation string) l k :
  l `sublist_of` k → StronglySorted R k → StronglySorted R l.
Proof.
  induction 1 as [|x l k Hlk IH|x l k Hlk IH]; intros Hk.
  - constructor.
  - apply StronglySorted_inv in Hk as [Hk Hx]. constructor; [auto|].
    apply Forall_forall. intros y Hy. rewrite Forall_forall in Hx.
    apply Hx. eapply elem_of_sublist; eauto.
  - apply StronglySorted_inv in Hk as [Hk _]. auto.
Qed.

(** C3.  For two sequences of snapshot names (each name has its after-["@"]
    suffix): [get_pairs] returns a subsequence of the common suffixes, in
    the order of both sequences, so that it ascends in whatever order the
    source suffixes ascend; two identical sequences give all the suffixes;
    and an empty sequence on either side gives the empty list. *)
Theorem get_pairs_common_subsequence :
  (∀ src dest ssuf dsuf,
     Forall2 has_suffix src ssuf → Forall2 has_suffix dest dsuf →
     ∃ pairs,
       get_pairs src dest = Ok pairs
       ∧ pairs `sublist_of` list_intersection ssuf dsuf
       ∧ pairs `sublist_of` ssuf
       ∧ pairs `sublist_of` dsuf
       ∧ (∀ R : relation string, StronglySorted R ssuf → StronglySorted R pairs))
  ∧ (∀ names sufs,
       Forall2 has_suffix names sufs → get_pairs names names = Ok sufs)
  ∧ (∀ names, get_pairs [] names = Ok [] ∧ get_pairs names [] = Ok []).
Proof.
  split; [|split].
  - intros src dest ssuf dsuf Hsrc Hdest.
    destruct (loop_sublists src dest ssuf dsuf (Pairing 0 0 []) Hsrc Hdest)
      as (r & Hr & H1 & H2).
    cbn in Hr, H1, H2. exists r.
    split; [exact Hr|]. split; [by apply sublist_list_intersection|].
    split; [exact H1|]. split; [exact H2|].
    intros R. by apply StronglySorted_sublist.
  - intros names sufs Hn. exact (loop_same names sufs (Pairing 0 0 []) Hn eq_refl).
  - apply get_pairs_empty.
Qed.

Lemma get_pairs_common_subsequence_witness :
  (∃ pairs,
     get_pairs sample_src sample_dest = Ok pairs
     ∧ pairs `sublist_of` list_intersection sample_src_suffixes sample_dest_suffixes
     ∧ StronglySorted stamp_before pairs)
  ∧ get_pairs sample_src sample_src = Ok sample_src_suffixes.
Proof.
  destruct get_pairs_common_subsequence as (H1 & H2 & _).
  split.
  - destruct (H1 sample_src sample_dest sample_src_suffixes sample_dest_suffixes)
      as (pairs & Hp & Hi & _ & _ & Hsorted);
      [repeat constructor; reflexivity..|].
    exists pairs. split; [exact Hp|]. split; [exact Hi|].
    apply Hsorted.
    repeat constructor; eexists _, _; repeat split; vm_compute; reflexivity.
  - apply H2. repeat constructor; reflexivity.
Defined.

(** *** When the extraction of the suffix succeeds *)

Lemma find_from_absent_shift i k s sub :
  0 <= i → 0 <= k → Py.find_from i s sub = -1 → Py.find_from k s sub = -1.
Proof.
  revert i k. induction s as [|c s IH]; intros i k Hi Hk; cbn [Py.find_from].
  - destruct (Py.startswith EmptyString sub); [lia|reflexivity].
  - destruct (Py.startswith (String c s) sub); [lia|].
    apply IH; lia.
Qed.

Lemma occurs_char_cons x c s :
  occurs (String x EmptyString) (String c s)
  ↔ c = x ∨ occurs (String x EmptyString) s.
Proof.
  unfold occurs, Py.find. cbn.
  destruct (Ascii.eqb x c) eqn:E.
  - apply Ascii.eqb_eq in E as ->.
    replace (Py.startswith s EmptyString) with true by (destruct s; reflexivity).
    cbn. split; [auto|lia].
  - apply Ascii.eqb_neq in E. cbn. split.
    + intros H. right. intros H0. apply H.
      eapply find_from_absent_shift; [| |exact H0]; lia.
    + intros [->|H]; [congruence|]. intros H0. apply H.
      eapply find_from_absent_shift; [| |exact H0]; lia.
Qed.

Lemma occurs_char_nil x : ¬ occurs (String x EmptyString) EmptyString.
Proof. unfold occurs. cbn. intros H. by apply H. Qed.

Lemma span_dot_whole s :
  ¬ occurs line_feed s → Py.span Py.dot s = (s, EmptyString).
Proof.
  unfold line_feed. induction s as [|c s IH]; intros H; cbn; [reflexivity|].
  rewrite occurs_char_cons in H.
  unfold Py.dot at 1. destruct (Ascii.eqb c Py.LF) eqn:E.
  - apply Ascii.eqb_eq in E. tauto.
  - cbn. rewrite IH by tauto. reflexivity.
Qed.

Lemma suffix_marked n :
  occurs "@" n → ¬ occurs line_feed n → ∃ x, suffix n = Ok x.
Proof.
  unfold suffix, Py.search_at.
  induction n as [|c n IH]; intros Hat Hlf.
  - by apply occurs_char_nil in Hat.
  - unfold line_feed in Hlf. rewrite occurs_char_cons in Hat, Hlf. cbn.
    unfold Py.is_at at 1. destruct (Ascii.eqb c "@") eqn:E.
    + unfold Py.star_dollar. rewrite span_dot_whole by (unfold line_feed; tauto).
      cbn. eauto.
    + apply Ascii.eqb_neq in E. apply IH; unfold line_feed; tauto.
Qed.

Lemma suffix_unmarked n : ¬ occurs "@" n → suffix n = Raise AttributeError.
Proof.
  unfold suffix, Py.search_at.
  induction n as [|c n IH]; intros Hat; [reflexivity|].
  rewrite occurs_char_cons in Hat. cbn.
  unfold Py.is_at at 1. destruct (Ascii.eqb c "@") eqn:E.
  - apply Ascii.eqb_eq in E. tauto.
  - apply IH. tauto.
Qed.

Lemma append_cons c s t : String c s +:+ t = String c (s +:+ t).
Proof. reflexivity. Qed.

Lemma occurs_char_app x s t :
  occurs (String x EmptyString) (s +:+ t)
  ↔ occurs (String x EmptyString) s ∨ occurs (String x EmptyString) t.
Proof.
  induction s as [|c s IH].
  - change (EmptyString +:+ t) with t. split; [auto|].
    intros [H|H]; [by apply occurs_char_nil in H|exact H].
  - rewrite append_cons, !occurs_char_cons, IH. tauto.
Qed.

Lemma splitlines_from_no_line_feed n :
  ∀ s cur,
    (String.length s <= n)%nat →
    ¬ occurs line_feed cur →
    Forall (λ line, ¬ occurs line_feed line) (Py.splitlines_from cur s).
Proof.
  unfold line_feed.
  induction n as [|n IH]; intros [|c s] cur Hlen Hcur; cbn in Hlen; try lia.
  - cbn. destruct (String.eqb cur EmptyString); repeat constructor; exact Hcur.
  - cbn. destruct (String.eqb cur EmptyString); repeat constructor; exact Hcur.
  - cbn [Py.splitlines_from].
    destruct (Ascii.eqb c Py.LF) eqn:Elf.
    + constructor; [exact Hcur|]. apply IH; [lia|apply occurs_char_nil].
    + destruct (Ascii.eqb c Py.CR).
      * constructor; [exact Hcur|].
        apply IH; [|apply occurs_char_nil].
        destruct s as [|c' s]; [cbn; lia|].
        destruct (Ascii.eqb c' Py.LF); cbn in *; lia.
      * apply IH; [lia|].
        rewrite occurs_char_app, occurs_char_cons.
        apply Ascii.eqb_neq in Elf.
        intros [H|[H|H]]; [tauto|congruence|by apply occurs_char_nil in H].
Qed.

Lemma span_fst_excludes cls x s :
  ¬ occurs (String x EmptyString) s →
  ¬ occurs (String x EmptyString) (Py.span cls s).1.
Proof.
  induction s as [|c s IH]; intros H; cbn; [exact H|].
  rewrite occurs_char_cons in H.
  destruct (cls c); [|apply occurs_char_nil].
  destruct (Py.span cls s) as [run rest]. cbn in *.
  rewrite occurs_char_cons. tauto.
Qed.

Lemma listed_no_line_feed a st dataset name :
  name ∈ listed a st dataset → ¬ occurs line_feed name.
Proof.
  unfold listed, Py.splitlines.
  pose proof (splitlines_from_no_line_feed _ (stdout (st (list_command dataset)))
                EmptyString (Nat.le_refl _) (occurs_char_nil _)) as Hlines.
  induction Hlines as [|line lines Hline _ IH]; cbn.
  - intros H. by apply not_elem_of_nil in H.
  - destruct (negb _); [|exact IH].
    rewrite elem_of_cons. intros [-> | H]; [|by apply IH].
    by apply span_fst_excludes.
Qed.

(** *** Totality of the loop *)

Lemma loop_total src dest st :
  (∀ st' s d,
     rtc (step src dest) st st' →
     src !! i st' = Some s → dest !! j st' = Some d →
     ∃ x y, suffix s = Ok x ∧ suffix d = Ok y) →
  ∃ r, get_pairs_loop src dest st = Ok r.
Proof.
  revert st.
  apply (get_pairs_loop_turns src dest (λ st res,
    (∀ st' s d,
       rtc (step src dest) st st' →
       src !! i st' = Some s → dest !! j st' = Some d →
       ∃ x y, suffix s = Ok x ∧ suffix d = Ok y) →
    ∃ r, res = Ok r)).
  - intros st st' Hstep IH Hall. apply IH.
    intros st'' s d Hrtc. apply Hall. by eapply rtc_l.
  - intros st r _ _. eauto.
  - intros st e He Hall.
    pose proof (body_specP src dest st) as Hb. rewrite He in Hb.
    inversion Hb as [|s d Hs Hd Hno| | |]; subst.
    destruct (Hall st s d) as (x & y & Hx & Hy); [reflexivity|assumption..|].
    exfalso. eapply Hno; eauto.
Qed.

Lemma loop_raises src dest st st' s d :
  rtc (step src dest) st st' →
  src !! i st' = Some s → dest !! j st' = Some d →
  (∀ x y, ¬ (suffix s = Ok x ∧ suffix d = Ok y)) →
  get_pairs_loop src dest st = Raise AttributeError.
Proof.
  intros Hrtc Hs Hd Hno.
  induction Hrtc as [st|st st1 st' Hstep _ IH].
  - rewrite get_pairs_loop_unfold.
    destruct (body_specP src dest st)
      as [[Hn|Hn]|s' d' Hs' Hd' _|s' d' x Hs' Hd' Hx Hy
          |s' d' x y Hs' Hd' Hx Hy _|s' d' x y Hs' Hd' Hx Hy _];
      try congruence; try reflexivity;
      exfalso;
      first [ solve [apply (Hno x x); split; congruence]
            | solve [apply (Hno x y); split; congruence] ].
  - rewrite get_pairs_loop_unfold. unfold step in Hstep. rewrite Hstep. auto.
Qed.

(** C10, as the code has it.  The extraction of the suffix succeeds on a
    name that contains ["@"] and no line feed, and raises on a name without
    ["@"].  So [get_pairs] returns normally when every element it examines
    contains ["@"] and no line feed, and raises [AttributeError], instead
    of skipping the element, as soon as it examines one without ["@"].
    The names [list_yaz_snapshots] reads never contain a line feed. *)
Theorem get_pairs_total_on_marked_names (src dest : list string) :
  (∀ n, occurs "@" n → ¬ occurs line_feed n → ∃ x, suffix n = Ok x)
  ∧ (∀ n, ¬ occurs "@" n → suffix n = Raise AttributeError)
  ∧ ((∀ n, examined src dest n → occurs "@" n ∧ ¬ occurs line_feed n) →
     ∃ pairs, get_pairs src dest = Ok pairs)
  ∧ ((∃ n, examined src dest n ∧ ¬ occurs "@" n) →
     get_pairs src dest = Raise AttributeError)
  ∧ (∀ a st dataset n, n ∈ listed a st dataset → ¬ occurs line_feed n).
Proof.
  split; [exact suffix_marked|]. split; [exact suffix_unmarked|].
  split; [|split; [|exact listed_no_line_feed]].
  - intros Hall. apply loop_total. intros st s d Hrtc Hs Hd.
    destruct (Hall s) as [Hs1 Hs2]; [exists st, s, d; auto|].
    destruct (Hall d) as [Hd1 Hd2]; [exists st, s, d; auto|].
    destruct (suffix_marked s Hs1 Hs2) as [x Hx].
    destruct (suffix_marked d Hd1 Hd2) as [y Hy].
    eauto.
  - intros (n & (st & s & d & Hrtc & Hs & Hd & Hn) & Hat).
    apply (loop_raises src dest _ st s d Hrtc Hs Hd).
    intros x y [Hx Hy].
    destruct Hn as [-> | ->]; apply suffix_unmarked in Hat; congruence.
Qed.

Lemma get_pairs_total_on_marked_names_witness :
  (∃ x, suffix "pool/ds@yazbak_2024-01-01_1000" = Ok x)
  ∧ suffix "stray" = Raise AttributeError
  ∧ (∃ pairs,
       get_pairs ["pool/ds@yazbak_2024-01-01_1000"]
         ["backup/ds@yazbak_2024-01-01_1000"; "stray"] = Ok pairs)
  ∧ get_pairs ["pool/ds@yazbak_2024-01-01_1000"] ["stray"] = Raise AttributeError
  ∧ ¬ occurs line_feed "pool/ds@yazbak_2024-01-01_1000".
Proof.
  split; [|split; [|split; [|split]]].
  - apply (get_pairs_total_on_marked_names [] []); vm_compute; congruence.
  - apply (get_pairs_total_on_marked_names [] []); vm_compute; congruence.
  - apply get_pairs_total_on_marked_names.
    intros n (st & s & d & Hrtc & Hs & Hd & Hn).
    inversion Hrtc as [|? st1 ? Hstep Hrtc1]; subst.
    + cbn in Hs, Hd. injection Hs as <-. injection Hd as <-.
      destruct Hn as [-> | ->]; vm_compute; split; congruence.
    + unfold step in Hstep. vm_compute in Hstep. injection Hstep as <-.
      inversion Hrtc1 as [|? st2 ? Hstep2 _]; subst.
      * cbn in Hs. discriminate Hs.
      * unfold step in Hstep2. vm_compute in Hstep2. discriminate Hstep2.
  - apply get_pairs_total_on_marked_names.
    exists "stray". split; [|vm_compute; congruence].
    exists (Pairing 0 0 []), "pool/ds@yazbak_2024-01-01_1000", "stray".
    split; [apply rtc_refl|]. repeat split; auto.
  - apply (get_pairs_total_on_marked_names [] [])
      with (a := sample_args) (st := sample_store [] sample_src [])
           (dataset := "pool/ds").
    vm_compute. apply list_elem_of_here.
Defined.

(** C10 as the specification words it fails: with a line feed after the
    ["@"] and before the last character, a name contains ["@"] and still
    makes the extraction, and so [get_pairs], raise. *)
Lemma get_pairs_marked_names_counterexample :
  let name := "pool/ds@yazbak" +:+ line_feed +:+ "_2024-01-01_1000" in
  Forall (occurs "@") [name]
  ∧ suffix name = Raise AttributeError
  ∧ get_pairs [name] [name] = Raise AttributeError
  ∧ ¬ (∀ src dest : list string,
         (∀ n, examined src dest n → occurs "@" n) →
         ∃ pairs, get_pairs src dest = Ok pairs).
Proof.
  intros name.
  assert (Hat : occurs "@" name) by (vm_compute; congruence).
  assert (Hraise : get_pairs [name] [name] = Raise AttributeError)
    by (vm_compute; reflexivity).
  split; [repeat constructor; exact Hat|].
  split; [vm_compute; reflexivity|]. split; [exact Hraise|].
  intros H. destruct (H [name] [name]) as [pairs Hp].
  - intros n (st & s & d & _ & Hs & Hd & Hn).
    apply list_elem_of_lookup_2, list_elem_of_singleton in Hs, Hd.
    destruct Hn; congruence.
  - congruence.
Qed.

(** ** Transfer: [incremental_backup] *)

Lemma last_Some_length (l : list string) x :
  last l = Some x → (length l =? 0)%nat = false.
Proof. destruct l; [discriminate|reflexivity]. Qed.

Lemma last_None_nil (l : list string) : last l = None → l = [].
Proof.
  destruct l as [|x l]; [reflexivity|]. intros H. exfalso. revert x H.
  induction l as [|y l IH]; intros x H; [discriminate|]. exact (IH y H).
Qed.

Section IncrementalBackup.
Variables (s : self) (st : store).
Local Abbreviation a := (self_args s).
Local Abbreviation queries := [list_command (source a); list_command (destination a)].

(** What [incremental_backup] does once both listings have succeeded and
    [get_pairs] has returned [pairs]. *)
Lemma incremental_backup_run pairs :
  returncode (st (list_command (source a))) = 0 →
  returncode (st (list_command (destination a))) = 0 →
  get_pairs (listed a st (source a)) (listed a st (destination a)) = Ok pairs →
  exec (incremental_backup s) st
  = match last pairs, last (listed a st (source a)) with
    | None, _ =>
        (Raise (NoMatchingSnapshots
                  "There are no matching snapshots between source and destination"),
         queries)
    | Some p, None => (Raise IndexError, queries)
    | Some p, Some e =>
        let delta := delta_command a (source a +:+ "@" +:+ p) e in
        if String.eqb (source a +:+ "@" +:+ p) e then
          (Raise (NoMatchingSnapshots "There are no snapshots tha can be sent"),
           queries)
        else
          (if returncode (st delta) =? 0 then Ok tt
           else Raise (ZFSError (stderr (st delta))),
           queries ++ [delta])
    end.
Proof.
  intros H1 H2 Hp.
  unfold exec, incremental_backup, list_yaz_snapshots, mbind, M_bind, run, lift,
    raise, mret, M_ret.
  fold (list_command (source a)). fold (list_command (destination a)).
  rewrite H1. cbn [Z.eqb negb app].
  rewrite H2. cbn [Z.eqb negb app].
  fold (listed a st (source a)). fold (listed a st (destination a)).
  rewrite Hp.
  destruct (last pairs) as [p|] eqn:Hlast.
  - rewrite (last_Some_length _ _ Hlast). cbn [or_raise].
    destruct (last (listed a st (source a))) as [e|]; cbn [or_raise]; [|reflexivity].
    cbn zeta.
    destruct (String.eqb (source a +:+ "@" +:+ p) e); [reflexivity|].
    fold (delta_command a (source a +:+ "@" +:+ p) e).
    cbn [app]. destruct (returncode _ =? 0); reflexivity.
  - apply last_None_nil in Hlast as ->. reflexivity.
Qed.

End IncrementalBackup.

(** C4.  For an incremental or full-incremental transfer whose two listings
    succeed: when [get_pairs] returns no pair the transfer raises
    [NoMatchingSnapshots]; when the last pair names the last source
    snapshot it raises [NoMatchingSnapshots]; otherwise the one transfer
    issued is the delta from the last pair to the last source snapshot.
    With source snapshots A, B, C the destination A, B gives the delta from
    B to C, and the destination A, B, C gives [NoMatchingSnapshots]. *)
Theorem incremental_transfer_outcome :
  (∀ (s : self) (st : store),
     let a := self_args s in
     let src := listed a st (source a) in
     let dest := listed a st (destination a) in
     let queries := [list_command (source a); list_command (destination a)] in
     incremental a || full_incremental a = true →
     returncode (st (list_command (source a))) = 0 →
     returncode (st (list_command (destination a))) = 0 →
     (get_pairs src dest = Ok [] →
      exec (transfer s) st
      = (Raise (NoMatchingSnapshots
                  "There are no matching snapshots between source and destination"),
         queries))
     ∧ (∀ pairs p e,
          get_pairs src dest = Ok pairs → last pairs = Some p → last src = Some e →
          source a +:+ "@" +:+ p = e →
          exec (transfer s) st
          = (Raise (NoMatchingSnapshots "There are no snapshots tha can be sent"),
             queries))
     ∧ (∀ pairs p e,
          get_pairs src dest = Ok pairs → last pairs = Some p → last src = Some e →
          source a +:+ "@" +:+ p ≠ e →
          let delta := delta_command a (source a +:+ "@" +:+ p) e in
          exec (transfer s) st
          = (if returncode (st delta) =? 0 then Ok tt
             else Raise (ZFSError (stderr (st delta))),
             queries ++ [delta])))
  ∧ exec (transfer (init sample_args_i sample_now))
      (sample_store [] (snapshots_ABC "pool/ds") (snapshots_AB "backup/ds"))
    = (Ok tt,
       [list_command "pool/ds"; list_command "backup/ds";
        Shell "zfs send  -i pool/ds@yazbak_2024-01-02_1000 pool/ds@yazbak_2024-01-03_1000 | zfs recv  backup/ds"])
  ∧ exec (transfer (init sample_args_i sample_now))
      (sample_store [] (snapshots_ABC "pool/ds") (snapshots_ABC "backup/ds"))
    = (Raise (NoMatchingSnapshots "There are no snapshots tha can be sent"),
       [list_command "pool/ds"; list_command "backup/ds"]).
Proof.
  split; [|split; vm_compute; reflexivity].
  intros s st a src dest queries Hmode H1 H2.
  unfold transfer. fold a. rewrite Hmode.
  split; [|split].
  - intros Hp. rewrite (incremental_backup_run s st [] H1 H2 Hp). reflexivity.
  - intros pairs p e Hp Hlast He Heq.
    rewrite (incremental_backup_run s st pairs H1 H2 Hp). fold a src.
    rewrite Hlast, He. cbn zeta. apply String.eqb_eq in Heq. rewrite Heq. reflexivity.
  - intros pairs p e Hp Hlast He Hne.
    rewrite (incremental_backup_run s st pairs H1 H2 Hp). fold a src.
    rewrite Hlast, He. cbn zeta. apply String.eqb_neq in Hne. rewrite Hne. reflexivity.
Qed.

Lemma incremental_transfer_outcome_witness :
  exec (transfer (init sample_args_i sample_now))
    (sample_store [] (snapshots_ABC "pool/ds") [])
  = (Raise (NoMatchingSnapshots
              "There are no matching snapshots between source and destination"),
     [list_command "pool/ds"; list_command "backup/ds"])
  ∧ exec (transfer (init sample_args_i sample_now))
      (sample_store [] (snapshots_ABC "pool/ds") (snapshots_ABC "backup/ds"))
    = (Raise (NoMatchingSnapshots "There are no snapshots tha can be sent"),
       [list_command "pool/ds"; list_command "backup/ds"])
  ∧ exec (transfer (init sample_args_i sample_now))
      (sample_store [] (snapshots_ABC "pool/ds") (snapshots_AB "backup/ds"))
    = (Ok tt,
       [list_command "pool/ds"; list_command "backup/ds";
        delta_command sample_args_i "pool/ds@yazbak_2024-01-02_1000"
          "pool/ds@yazbak_2024-01-03_1000"]).
Proof.
  destruct incremental_transfer_outcome as (H & _ & _).
  split; [|split].
  - apply (H (init sample_args_i sample_now)
             (sample_store [] (snapshots_ABC "pool/ds") [])); reflexivity.
  - apply (H (init sample_args_i sample_now)
             (sample_store [] (snapshots_ABC "pool/ds") (snapshots_ABC "backup/ds")))
      with (pairs := ["yazbak_2024-01-01_1000"; "yazbak_2024-01-02_1000";
                      "yazbak_2024-01-03_1000"])
           (p := "yazbak_2024-01-03_1000") (e := "pool/ds@yazbak_2024-01-03_1000");
      reflexivity.
  - apply (H (init sample_args_i sample_now)
             (sample_store [] (snapshots_ABC "pool/ds") (snapshots_AB "backup/ds")))
      with (pairs := ["yazbak_2024-01-01_1000"; "yazbak_2024-01-02_1000"])
           (p := "yazbak_2024-01-02_1000") (e := "pool/ds@yazbak_2024-01-03_1000");
      try reflexivity.
    vm_compute. congruence.
Defined.

(** ** RetentionGate: [conditional_snapshot] *)

Section RetentionGate.
Variables (other : string → result Time.datetime) (s : self) (st : store).
Local Abbreviation a := (self_args s).

Lemma snapshot_run tr :
  snapshot s st tr
  = (if returncode (st (snapshot_command s)) =? 0 then Ok true
     else if Py.find (stderr (st (snapshot_command s))) "permission denied" =? 0
          then Raise (ZFSError (stderr (st (snapshot_command s))))
          else Raise (PermissionError (stderr (st (snapshot_command s)))),
     tr ++ [snapshot_command s]).
Proof.
  unfold snapshot, mbind, M_bind, run, raise, mret, M_ret.
  destruct (returncode _ =? 0); cbn [negb]; [reflexivity|].
  destruct (Py.find _ _ =? 0); reflexivity.
Qed.

(** The [if self.args.omit:] block after a successful listing. *)
Lemma too_recent_run tr om :
  omit_configured a = Some om →
  returncode (st (list_command (source a))) = 0 →
  too_recent other s st tr
  = (match last (listed a st (source a)) with
     | Some last_snap =>
         match last_snap_time other last_snap with
         | Ok t =>
             match Time.sub (now s) t with
             | Ok elapsed => Ok (Time.gt om elapsed)
             | Raise e => Raise e
             end
         | Raise e => Raise e
         end
     | None => Ok false
     end,
     tr ++ [list_command (source a)]).
Proof.
  intros Hom Hrc.
  unfold too_recent. rewrite Hom.
  unfold list_yaz_snapshots, mbind, M_bind, run, raise, lift, mret, M_ret.
  fold (list_command (source a)). rewrite Hrc. cbn [Z.eqb negb].
  fold (listed a st (source a)).
  destruct (last (listed a st (source a))) as [last_snap|]; [|reflexivity].
  destruct (last_snap_time other last_snap) as [t|e]; [|reflexivity].
  destruct (Time.sub (now s) t); reflexivity.
Qed.

Lemma conditional_snapshot_run changed tr :
  transfer_only a = false →
  exec (has_changed s) st = (Ok changed, tr) →
  exec (conditional_snapshot other s) st
  = if negb changed && negb (no_omit_unchanged a) then (Ok false, tr)
    else match too_recent other s st tr with
         | (Ok true, tr') => (Ok false, tr')
         | (Ok false, tr') => snapshot s st tr'
         | (Raise e, tr') => (Raise e, tr')
         end.
Proof.
  intros Ht Hc. unfold exec in *. unfold conditional_snapshot.
  rewrite Ht. unfold mbind at 1, M_bind at 1. rewrite Hc.
  destruct (negb changed && negb (no_omit_unchanged a)); [reflexivity|].
  unfold mbind, M_bind.
  destruct (too_recent other s st tr) as [[[|]|e] tr']; reflexivity.
Qed.

End RetentionGate.

Lemma has_changed_trace s st r tr :
  exec (has_changed s) st = (r, tr) → tr = [get_written_command (self_args s)].
Proof.
  unfold exec, has_changed, mbind, M_bind, run, raise, lift.
  fold (get_written_command (self_args s)).
  destruct (negb _); intros [= _ <-]; reflexivity.
Qed.

Lemma of_microseconds_normalised total td :
  Time.of_microseconds total = Ok td →
  normalised td ∧ total_microseconds td = total.
Proof.
  unfold Time.of_microseconds, normalised, total_microseconds,
    Time.us_per_day, Time.us_per_second.
  destruct (999999999 <? _); [discriminate|]. intros [= <-]. cbn.
  Z.div_mod_to_equations. lia.
Qed.

Lemma gt_longer a b :
  normalised a → normalised b →
  Time.gt a b = true ↔ total_microseconds b < total_microseconds a.
Proof.
  unfold normalised, total_microseconds, Time.gt. intros Ha Hb.
  destruct (Time.days a =? Time.days b) eqn:Ed;
    [apply Z.eqb_eq in Ed|apply Z.eqb_neq in Ed].
  - destruct (Time.seconds a =? Time.seconds b) eqn:Es;
      [apply Z.eqb_eq in Es|apply Z.eqb_neq in Es];
      rewrite Z.ltb_lt; nia.
  - rewrite Z.ltb_lt. nia.
Qed.

Lemma sub_normalised t1 t2 td : Time.sub t1 t2 = Ok td → normalised td.
Proof.
  unfold Time.sub, Time.timedelta_new. intros H.
  apply of_microseconds_normalised in H. tauto.
Qed.

(** X25.  The decisions of [conditional_snapshot], whatever the interpreter
    reads besides the program's spelling of a time.  Under [transfer_only]
    it returns [False] at once, with no command issued.  Otherwise it asks
    [has_changed]; on the verdict "unchanged", without [no_omit_unchanged],
    it returns [False].  Otherwise, when an omit duration is configured,
    the listing succeeds and has a last labelled snapshot whose stamp reads
    as the time [t], it returns [False] if the omit duration is greater
    than [now - t].  In these three cases no snapshot command is issued.
    With no omit duration, with no labelled snapshot, or with an elapsed
    time not below the omit duration, it runs [snapshot], which issues the
    snapshot command.  The comparison is by length: the omit duration is
    greater when it lasts longer.  With an omit duration of one hour, a
    last snapshot 30 minutes old is a skip and one 90 minutes old lets the
    snapshot be taken. *)
Theorem conditional_snapshot_decisions other :
  (∀ (s : self) (st : store),
     let a := self_args s in
     let listing := list_command (source a) in
     (transfer_only a = true →
      exec (conditional_snapshot other s) st = (Ok false, []))
     ∧ (∀ r tr, exec (has_changed s) st = (r, tr) → tr = [get_written_command a])
     ∧ (∀ tr,
          transfer_only a = false →
          exec (has_changed s) st = (Ok false, tr) →
          no_omit_unchanged a = false →
          exec (conditional_snapshot other s) st = (Ok false, tr))
     ∧ (∀ changed tr om last_snap t elapsed,
          transfer_only a = false →
          exec (has_changed s) st = (Ok changed, tr) →
          changed || no_omit_unchanged a = true →
          omit_configured a = Some om →
          returncode (st listing) = 0 →
          last (listed a st (source a)) = Some last_snap →
          last_snap_time other last_snap = Ok t →
          Time.sub (now s) t = Ok elapsed →
          exec (conditional_snapshot other s) st
          = if Time.gt om elapsed then (Ok false, tr ++ [listing])
            else snapshot s st (tr ++ [listing]))
     ∧ (∀ changed tr,
          transfer_only a = false →
          exec (has_changed s) st = (Ok changed, tr) →
          changed || no_omit_unchanged a = true →
          omit_configured a = None →
          exec (conditional_snapshot other s) st = snapshot s st tr)
     ∧ (∀ changed tr om,
          transfer_only a = false →
          exec (has_changed s) st = (Ok changed, tr) →
          changed || no_omit_unchanged a = true →
          omit_configured a = Some om →
          returncode (st listing) = 0 →
          last (listed a st (source a)) = None →
          exec (conditional_snapshot other s) st = snapshot s st (tr ++ [listing]))
     ∧ (∀ tr,
          snd (snapshot s st tr) = tr ++ [snapshot_command s]
          ∧ (returncode (st (snapshot_command s)) = 0 →
             fst (snapshot s st tr) = Ok true)))
  ∧ (∀ om elapsed,
       normalised om → normalised elapsed →
       Time.gt om elapsed = true
       ↔ total_microseconds elapsed < total_microseconds om)
  ∧ (∀ t1 t2 elapsed, Time.sub t1 t2 = Ok elapsed → normalised elapsed)
  ∧ _get_timedelta "1h" = Ok one_hour
  ∧ (last_snap_time other "pool/ds@yazbak_2024-01-02_0234"
       ≫= Time.sub sample_now = Ok (Time.Timedelta 0 (30 * 60 + 5) 678)
     ∧ exec (conditional_snapshot other (init sample_args_omit sample_now))
         (written_store "2024-01-02_0234")
       = (Ok false, [get_written_command sample_args_omit; list_command "pool/ds"]))
  ∧ (last_snap_time other "pool/ds@yazbak_2024-01-02_0134"
       ≫= Time.sub sample_now = Ok (Time.Timedelta 0 (90 * 60 + 5) 678)
     ∧ exec (conditional_snapshot other (init sample_args_omit sample_now))
         (written_store "2024-01-02_0134")
       = (Ok true,
          [get_written_command sample_args_omit; list_command "pool/ds";
           Argv ["zfs"; "snapshot"; "pool/ds@yazbak_2024-01-02_0304"]])).
Proof.
  split; [|split; [exact gt_longer|split; [exact sub_normalised|]];
           repeat split; vm_compute; reflexivity].
  intros s st a listing.
  assert (Hgate : ∀ changed tr,
    transfer_only a = false →
    exec (has_changed s) st = (Ok changed, tr) →
    changed || no_omit_unchanged a = true →
    exec (conditional_snapshot other s) st
    = match too_recent other s st tr with
      | (Ok true, tr') => (Ok false, tr')
      | (Ok false, tr') => snapshot s st tr'
      | (Raise e, tr') => (Raise e, tr')
      end).
  { intros changed tr Ht Hc Hgo.
    rewrite (conditional_snapshot_run other s st changed tr Ht Hc). fold a.
    destruct changed, (no_omit_unchanged a); try discriminate Hgo; reflexivity. }
  split; [|split; [|split; [|split; [|split; [|split]]]]].
  - intros Ht. unfold exec, conditional_snapshot. fold a. rewrite Ht. reflexivity.
  - intros r tr. apply has_changed_trace.
  - intros tr Ht Hc Hno.
    rewrite (conditional_snapshot_run other s st false tr Ht Hc). fold a.
    rewrite Hno. reflexivity.
  - intros changed tr om last_snap t elapsed Ht Hc Hgo Hom Hrc Hlast Htime Hsub.
    rewrite (Hgate changed tr Ht Hc Hgo).
    rewrite (too_recent_run other s st tr om Hom Hrc). fold a listing.
    rewrite Hlast, Htime, Hsub.
    destruct (Time.gt om elapsed); reflexivity.
  - intros changed tr Ht Hc Hgo Hom.
    rewrite (Hgate changed tr Ht Hc Hgo).
    unfold too_recent. fold a. rewrite Hom. reflexivity.
  - intros changed tr om Ht Hc Hgo Hom Hrc Hlast.
    rewrite (Hgate changed tr Ht Hc Hgo).
    rewrite (too_recent_run other s st tr om Hom Hrc). fold a listing.
    rewrite Hlast. reflexivity.
  - intros tr. rewrite snapshot_run. split; [reflexivity|].
    intros ->. reflexivity.
Qed.

Lemma conditional_snapshot_decisions_witness :
  exec (conditional_snapshot strict_iso
          (init (Args "pool/ds" "backup/ds" "yazbak" "" "" false false false true
                   false false None) sample_now))
    (written_store "2024-01-02_0234")
  = (Ok false, [])
  ∧ exec (conditional_snapshot strict_iso (init sample_args_omit sample_now))
      (sample_store [written_row "pool/ds" "0"] ["pool/ds@yazbak_2024-01-02_0134"] [])
    = (Ok false, [get_written_command sample_args_omit])
  ∧ exec (conditional_snapshot strict_iso (init sample_args_omit sample_now))
      (written_store "2024-01-02_0234")
    = (Ok false, [get_written_command sample_args_omit; list_command "pool/ds"])
  ∧ exec (conditional_snapshot strict_iso (init sample_args_omit sample_now))
      (written_store "2024-01-02_0134")
    = (Ok true,
       [get_written_command sample_args_omit; list_command "pool/ds";
        snapshot_command (init sample_args_omit sample_now)])
  ∧ exec (conditional_snapshot strict_iso (init sample_args sample_now))
      (written_store "2024-01-02_0234")
    = (Ok true,
       [get_written_command sample_args; snapshot_command (init sample_args sample_now)])
  ∧ exec (conditional_snapshot strict_iso (init sample_args_omit sample_now))
      (sample_store [written_row "pool/ds" "4096"] [] [])
    = (Ok true,
       [get_written_command sample_args_omit; list_command "pool/ds";
        snapshot_command (init sample_args_omit sample_now)]).
Proof.
  destruct (conditional_snapshot_decisions strict_iso) as (H & _).
  split; [|split; [|split; [|split; [|split]]]].
  - destruct (H (init (Args "pool/ds" "backup/ds" "yazbak" "" "" false false false
                         true false false None) sample_now)
                (written_store "2024-01-02_0234")) as (H1 & _).
    apply H1. reflexivity.
  - destruct (H (init sample_args_omit sample_now)
                (sample_store [written_row "pool/ds" "0"]
                   ["pool/ds@yazbak_2024-01-02_0134"] []))
      as (_ & _ & H2 & _).
    apply H2; reflexivity.
  - destruct (H (init sample_args_omit sample_now) (written_store "2024-01-02_0234"))
      as (_ & _ & _ & H3 & _).
    apply (H3 true [get_written_command sample_args_omit] one_hour "pool/ds@yazbak_2024-01-02_0234"
              (Time.Datetime 2024 1 2 2 34 0 0) (Time.Timedelta 0 1805 678));
      reflexivity.
  - destruct (H (init sample_args_omit sample_now) (written_store "2024-01-02_0134"))
      as (_ & _ & _ & H3 & _).
    apply (H3 true [get_written_command sample_args_omit] one_hour "pool/ds@yazbak_2024-01-02_0134"
              (Time.Datetime 2024 1 2 1 34 0 0) (Time.Timedelta 0 5405 678));
      reflexivity.
  - destruct (H (init sample_args sample_now) (written_store "2024-01-02_0234"))
      as (_ & _ & _ & _ & H4 & _).
    apply (H4 true [get_written_command sample_args]); reflexivity.
  - destruct (H (init sample_args_omit sample_now)
                (sample_store [written_row "pool/ds" "4096"] [] []))
      as (_ & _ & _ & _ & _ & H5 & _).
    apply (H5 true [get_written_command sample_args_omit] one_hour); reflexivity.
Defined.

(** C5.  The label ["yazbak2"], an omit duration of one hour, and as last
    labelled snapshot the one the program itself named 30 minutes before
    now.  The stamp [conditional_snapshot] cuts from that name begins in
    the label, ["2_2024-01-02_0234"], and does not read as a time:
    [fromisoformat] raises [ValueError], whatever the interpreter reads
    besides the program's spelling.  The method neither returns [False]
    nor takes the snapshot: it raises after the two queries.  With the
    label ["yazbak"] the same run returns [False]. *)
Theorem conditional_snapshot_at_digit_label other :
  source sample_args_digit_label +:+ "@"
    +:+ snapshot_name (init sample_args_digit_label
                         (Time.Datetime 2024 1 2 2 34 0 0))
  = "pool/ds@yazbak2_2024-01-02_0234"
  ∧ Py.search Py.is_digit stamp_char_ "pool/ds@yazbak2_2024-01-02_0234"
    = Some "2_2024-01-02_0234"
  ∧ last_snap_time other "pool/ds@yazbak2_2024-01-02_0234" = Raise ValueError
  ∧ exec (conditional_snapshot other (init sample_args_digit_label sample_now))
      (sample_store [written_row "pool/ds" "4096"]
         ["pool/ds@yazbak2_2024-01-02_0234"] [])
    = (Raise ValueError,
       [get_written_command sample_args_digit_label; list_command "pool/ds"])
  ∧ exec (conditional_snapshot other (init sample_args_omit sample_now))
      (sample_store [written_row "pool/ds" "4096"]
         ["pool/ds@yazbak_2024-01-02_0234"] [])
    = (Ok false, [get_written_command sample_args_omit; list_command "pool/ds"]).
Proof.
  assert (last_snap_time other "pool/ds@yazbak2_2024-01-02_0234"
          = Raise ValueError) as Htime by (vm_compute; reflexivity).
  split; [vm_compute; reflexivity|]. split; [vm_compute; reflexivity|].
  split; [exact Htime|]. split; [|vm_compute; reflexivity].
  rewrite (conditional_snapshot_run other _ _ true
             [get_written_command sample_args_digit_label]);
    [|reflexivity|vm_compute; reflexivity].
  cbn [negb andb].
  rewrite (too_recent_run other _ _ _ one_hour); [|reflexivity|reflexivity].
  replace (last (listed _ _ _)) with (Some "pool/ds@yazbak2_2024-01-02_0234")
    by (vm_compute; reflexivity).
  rewrite Htime. reflexivity.
Qed.

(** * Further properties *)

(** ** [get_pairs] on ascending names *)

(** *** [get_pairs] on ascending sequences *)

Lemma lt_asym a b : Py.lt a b = true → Py.lt b a = true → False.
Proof.
  unfold Py.lt, String.ltb. rewrite (String.compare_antisym b a).
  destruct (String.compare a b); cbn; discriminate.
Qed.

Lemma stamp_before_differ x y : stamp_before x y → x ≠ y.
Proof.
  intros (a & b & Ha & Hb & Hlt) ->.
  assert (a = b) as -> by congruence. exact (lt_asym b b Hlt Hlt).
Qed.

Lemma list_intersection_nil_r (l : list string) : list_intersection l [] = [].
Proof.
  induction l as [|x l IH]; cbn; [reflexivity|].
  destruct (decide_rel _ x []) as [H|_]; [by apply not_elem_of_nil in H|exact IH].
Qed.

Lemma list_intersection_skip_r (l k : list string) y :
  y ∉ l → list_intersection l (y :: k) = list_intersection l k.
Proof.
  induction l as [|x l IH]; intros Hy; cbn; [reflexivity|].
  apply not_elem_of_cons in Hy as [Hne Hy]. rewrite (IH Hy).
  destruct (decide_rel _ x (y :: k)) as [H|H], (decide_rel _ x k) as [H'|H'];
    try reflexivity.
  - apply elem_of_cons in H as [->|H]; [congruence|contradiction].
  - exfalso. apply H. by apply list_elem_of_further.
Qed.

Lemma list_intersection_skip_l (l k : list string) x :
  x ∉ k → list_intersection (x :: l) k = list_intersection l k.
Proof. intros Hx. cbn. destruct (decide_rel _ x k); [contradiction|reflexivity]. Qed.

Lemma list_intersection_head (l k : list string) x :
  x ∉ l → list_intersection (x :: l) (x :: k) = x :: list_intersection l k.
Proof.
  intros Hx. cbn.
  destruct (decide_rel _ x (x :: k)) as [_|H]; [|exfalso; apply H; apply list_elem_of_here].
  by rewrite list_intersection_skip_r.
Qed.

Lemma body_known src dest st s d x y :
  src !! i st = Some s → dest !! j st = Some d →
  suffix s = Ok x → suffix d = Ok y →
  get_pairs_body src dest st
  = if String.eqb x y then
      Ok (Next (Pairing (S (i st)) (S (j st)) (pairs st ++ [x])))
    else
      match _get_timestamp x, _get_timestamp y with
      | None, _ => Ok (Next (Pairing (S (i st)) (j st) (pairs st)))
      | Some _, None => Ok (Next (Pairing (i st) (S (j st)) (pairs st)))
      | Some a, Some b =>
          if Py.lt a b
          then Ok (Next (Pairing (S (i st)) (j st) (pairs st)))
          else Ok (Next (Pairing (i st) (S (j st)) (pairs st)))
      end.
Proof.
  intros Hs Hd Hx Hy. unfold get_pairs_body. rewrite Hs, Hd, Hx. cbn [mbind result_bind].
  rewrite Hy. reflexivity.
Qed.

(** A sorted list from one of its positions on. *)
Lemma sorted_from (l : list string) k x :
  StronglySorted stamp_before l → l !! k = Some x →
  drop k l = x :: drop (S k) l
  ∧ Forall (stamp_before x) (drop (S k) l)
  ∧ x ∉ drop (S k) l.
Proof.
  intros Hl Hk.
  assert (StronglySorted stamp_before (drop k l)) as Hd
    by (eapply StronglySorted_sublist; [apply sublist_drop|exact Hl]).
  rewrite (drop_S _ _ _ Hk) in Hd |- *.
  apply StronglySorted_inv in Hd as [_ Hx].
  split; [reflexivity|]. split; [exact Hx|].
  intros Hin. rewrite Forall_forall in Hx.
  exact (stamp_before_differ x x (Hx x Hin) eq_refl).
Qed.

Lemma loop_exact src dest ssuf dsuf :
  Forall2 has_suffix src ssuf → Forall2 has_suffix dest dsuf →
  StronglySorted stamp_before ssuf → StronglySorted stamp_before dsuf →
  ∀ st,
    get_pairs_loop src dest st
    = Ok (pairs st ++ list_intersection (drop (i st) ssuf) (drop (j st) dsuf)).
Proof.
  intros Hsrc Hdest Hss Hds.
  apply (get_pairs_loop_turns src dest (λ st res,
    res = Ok (pairs st ++ list_intersection (drop (i st) ssuf) (drop (j st) dsuf)))).
  - intros st st' Hstep IH. unfold step in Hstep.
    destruct (src !! i st) as [s|] eqn:Hs;
      [|unfold get_pairs_body in Hstep; rewrite Hs in Hstep; discriminate].
    destruct (dest !! j st) as [d|] eqn:Hd;
      [|unfold get_pairs_body in Hstep; rewrite Hs, Hd in Hstep; discriminate].
    destruct (has_suffix_lookup _ _ _ _ Hsrc Hs) as (x & Hx & Ex).
    destruct (has_suffix_lookup _ _ _ _ Hdest Hd) as (y & Hy & Ey).
    destruct (sorted_from _ _ _ Hss Hx) as (Edx & Hxs & Hxn).
    destruct (sorted_from _ _ _ Hds Hy) as (Edy & Hys & Hyn).
    rewrite Edx, Edy.
    rewrite (body_known _ _ _ _ _ _ _ Hs Hd Ex Ey) in Hstep.
    rewrite Forall_forall in Hxs, Hys.
    destruct (String.eqb x y) eqn:E.
    + apply String.eqb_eq in E as <-. injection Hstep as <-. rewrite IH.
      cbn [i j pairs]. rewrite list_intersection_head by exact Hxn.
      by rewrite <- app_assoc.
    + apply String.eqb_neq in E.
      assert (Hskip_x : (∀ b, _get_timestamp y = Some b →
                           ∀ a, _get_timestamp x = Some a → Py.lt a b = true) →
                        x ∉ y :: drop (S (j st)) dsuf).
      { intros Hlt. apply not_elem_of_cons. split; [exact E|].
        intros Hin. destruct (Hys x Hin) as (b & a & Hb & Ha & Hba).
        exact (lt_asym _ _ (Hlt b Hb a Ha) Hba). }
      assert (Hskip_y : (∀ a, _get_timestamp x = Some a →
                           ∀ b, _get_timestamp y = Some b → Py.lt a b = false) →
                        y ∉ x :: drop (S (i st)) ssuf).
      { intros Hge. apply not_elem_of_cons. split; [congruence|].
        intros Hin. destruct (Hxs y Hin) as (a & b & Ha & Hb & Hab).
        rewrite (Hge a Ha b Hb) in Hab. discriminate. }
      destruct (_get_timestamp x) as [a|] eqn:Ea.
      * destruct (_get_timestamp y) as [b|] eqn:Eb.
        -- destruct (Py.lt a b) eqn:Elt; injection Hstep as <-; rewrite IH; cbn [i j pairs].
           ++ rewrite Edy, list_intersection_skip_l; [reflexivity|].
              apply Hskip_x. intros ? [= <-] ? [= <-]. exact Elt.
           ++ rewrite Edx, list_intersection_skip_r; [reflexivity|].
              apply Hskip_y. intros ? [= <-] ? [= <-]. exact Elt.
        -- injection Hstep as <-. rewrite IH. cbn [i j pairs].
           rewrite Edx, list_intersection_skip_r; [reflexivity|].
           apply Hskip_y. intros ? _ ? [=].
      * injection Hstep as <-. rewrite IH. cbn [i j pairs].
        rewrite Edy, list_intersection_skip_l; [reflexivity|].
        apply Hskip_x. intros ? _ ? [=].
  - intros st r Hret.
    pose proof (body_specP src dest st) as Hb. rewrite Hret in Hb.
    inversion Hb as [[Hn|Hn]| | | |]; subst; apply lookup_ge_None in Hn.
    + apply Forall2_length in Hsrc. rewrite (drop_ge ssuf) by lia.
      by rewrite app_nil_r.
    + apply Forall2_length in Hdest. rewrite (drop_ge dsuf) by lia.
      by rewrite list_intersection_nil_r, app_nil_r.
  - intros st e He.
    pose proof (body_specP src dest st) as Hb. rewrite He in Hb.
    inversion Hb as [|s d Hs Hd Hno| | |]; subst.
    destruct (has_suffix_lookup _ _ _ _ Hsrc Hs) as (x' & _ & E1).
    destruct (has_suffix_lookup _ _ _ _ Hdest Hd) as (y' & _ & E2).
    exfalso. eapply Hno; eauto.
Qed.

(** X1.  On two sequences of snapshot names whose suffixes ascend strictly
    by timestamp, [get_pairs] returns every suffix present on both sides:
    the result is the whole intersection, in order. *)
Theorem get_pairs_all_common_points src dest ssuf dsuf :
  Forall2 has_suffix src ssuf → Forall2 has_suffix dest dsuf →
  StronglySorted stamp_before ssuf → StronglySorted stamp_before dsuf →
  get_pairs src dest = Ok (list_intersection ssuf dsuf).
Proof.
  intros Hsrc Hdest Hss Hds.
  exact (loop_exact src dest ssuf dsuf Hsrc Hdest Hss Hds (Pairing 0 0 [])).
Qed.

Lemma sample_suffixes_ascend :
  StronglySorted stamp_before sample_src_suffixes
  ∧ StronglySorted stamp_before sample_dest_suffixes.
Proof.
  split; repeat constructor; eexists _, _; repeat split; vm_compute; reflexivity.
Defined.

Lemma get_pairs_all_common_points_witness :
  get_pairs sample_src sample_dest
  = Ok ["yazbak_2024-01-02_1000"; "yazbak_2024-01-03_1000"].
Proof.
  apply (get_pairs_all_common_points sample_src sample_dest
           sample_src_suffixes sample_dest_suffixes).
  - repeat constructor; reflexivity.
  - repeat constructor; reflexivity.
  - apply sample_suffixes_ascend.
  - apply sample_suffixes_ascend.
Defined.

(** ** The transfers *)

(** ** Transfer: the latest common snapshot, and [new_backup] *)

Section Transfers.
Variables (s : self) (st : store).
Local Abbreviation a := (self_args s).
Local Abbreviation queries := [list_command (source a); list_command (destination a)].

(** X2.  When the two listings succeed and the labelled snapshots of both
    sides ascend strictly by timestamp, an incremental transfer starts from
    the most recent suffix present on both sides.  When that common
    snapshot is the last snapshot of the source, it raises
    [NoMatchingSnapshots] after the two listings and sends nothing;
    otherwise the one delta issued goes from it to the last source
    snapshot, and its return code decides between returning and
    [ZFSError]. *)
Theorem incremental_backup_from_latest_common ssuf dsuf p e :
  returncode (st (list_command (source a))) = 0 →
  returncode (st (list_command (destination a))) = 0 →
  Forall2 has_suffix (listed a st (source a)) ssuf →
  Forall2 has_suffix (listed a st (destination a)) dsuf →
  StronglySorted stamp_before ssuf → StronglySorted stamp_before dsuf →
  last (list_intersection ssuf dsuf) = Some p →
  last (listed a st (source a)) = Some e →
  exec (incremental_backup s) st
  = if String.eqb (source a +:+ "@" +:+ p) e
    then (Raise (NoMatchingSnapshots "There are no snapshots tha can be sent"),
          queries)
    else (if returncode (st (delta_command a (source a +:+ "@" +:+ p) e)) =? 0
          then Ok tt
          else Raise (ZFSError
                        (stderr (st (delta_command a (source a +:+ "@" +:+ p) e)))),
          queries ++ [delta_command a (source a +:+ "@" +:+ p) e]).
Proof.
  intros H1 H2 Hsrc Hdest Hss Hds Hp He.
  rewrite (incremental_backup_run s st (list_intersection ssuf dsuf) H1 H2
             (loop_exact _ _ _ _ Hsrc Hdest Hss Hds (Pairing 0 0 []))).
  rewrite Hp, He. cbn zeta.
  destruct (String.eqb (source a +:+ "@" +:+ p) e); reflexivity.
Qed.

End Transfers.

Lemma sample_suffixes_AB_ascend :
  StronglySorted stamp_before ["yazbak_2024-01-01_1000"; "yazbak_2024-01-02_1000"].
Proof.
  repeat constructor; eexists _, _; repeat split; vm_compute; reflexivity.
Defined.

Lemma incremental_backup_from_latest_common_witness :
  exec (incremental_backup (init sample_args_i sample_now))
    (sample_store [] (snapshots_ABC "pool/ds") (snapshots_AB "backup/ds"))
  = (Ok tt,
     [list_command "pool/ds"; list_command "backup/ds";
      delta_command sample_args_i "pool/ds@yazbak_2024-01-02_1000"
        "pool/ds@yazbak_2024-01-03_1000"])
  ∧ exec (incremental_backup (init sample_args_i sample_now))
      (sample_store [] (snapshots_ABC "pool/ds") (snapshots_ABC "backup/ds"))
    = (Raise (NoMatchingSnapshots "There are no snapshots tha can be sent"),
       [list_command "pool/ds"; list_command "backup/ds"]).
Proof.
  split.
  - apply (incremental_backup_from_latest_common (init sample_args_i sample_now)
             (sample_store [] (snapshots_ABC "pool/ds") (snapshots_AB "backup/ds"))
             sample_src_suffixes
             ["yazbak_2024-01-01_1000"; "yazbak_2024-01-02_1000"]
             "yazbak_2024-01-02_1000" "pool/ds@yazbak_2024-01-03_1000");
      try reflexivity.
    + repeat constructor; reflexivity.
    + repeat constructor; reflexivity.
    + apply sample_suffixes_ascend.
    + exact sample_suffixes_AB_ascend.
  - apply (incremental_backup_from_latest_common (init sample_args_i sample_now)
             (sample_store [] (snapshots_ABC "pool/ds") (snapshots_ABC "backup/ds"))
             sample_src_suffixes sample_src_suffixes
             "yazbak_2024-01-03_1000" "pool/ds@yazbak_2024-01-03_1000");
      try reflexivity.
    + repeat constructor; reflexivity.
    + repeat constructor; reflexivity.
    + apply sample_suffixes_ascend.
    + apply sample_suffixes_ascend.
Defined.

Lemma search_behind_at_or_raise (name : string) :
  or_raise AttributeError (Py.search_behind_at name) = suffix name.
Proof.
  unfold suffix, Py.search_at.
  induction name as [|c name IH]; [reflexivity|].
  cbn [Py.search_behind_at Py.search].
  destruct (Py.is_at c); [|exact IH].
  destruct (Py.star_dollar Py.dot name) as [run|]; [reflexivity|exact IH].
Qed.

(** X3.  The two patterns that take the text after the ["@"] agree: what
    [new_backup] reads with [(?<=@).*$] is what [get_pairs] reads with
    [@.*$] less its first character, and they fail on the same names. *)
Theorem search_behind_at_suffix (name : string) :
  or_raise AttributeError (Py.search_behind_at name) = suffix name.
Proof. exact (search_behind_at_or_raise name). Qed.

(** The suffix of a name whose first ["@"] is known. *)
Lemma suffix_after_first_at pre name :
  ¬ occurs "@" pre → ¬ occurs line_feed name →
  suffix (pre +:+ String "@" name) = Ok name.
Proof.
  unfold suffix, Py.search_at, line_feed. intros Hpre Hname.
  induction pre as [|c pre IH].
  - change (EmptyString +:+ String "@" name) with (String "@"%char name).
    cbn [Py.search]. change (Py.is_at "@") with true. cbn iota.
    unfold Py.star_dollar. rewrite span_dot_whole by exact Hname. reflexivity.
  - rewrite occurs_char_cons in Hpre. rewrite append_cons. cbn [Py.search].
    unfold Py.is_at at 1. destruct (Ascii.eqb c "@") eqn:E.
    + apply Ascii.eqb_eq in E. tauto.
    + apply IH. tauto.
Qed.

Section NewBackup.
Variables (s : self) (st : store).
Local Abbreviation a := (self_args s).

(** What [new_backup] does once the listing has succeeded. *)
Lemma new_backup_run :
  returncode (st (list_command (source a))) = 0 →
  exec (new_backup s) st
  = match last (listed a st (source a)) with
    | None =>
        (Raise (NoMatchingSnapshots "There are no snapshots tha can be sent"),
         [list_command (source a)])
    | Some last_snap =>
        match suffix last_snap with
        | Raise _ =>
            (Raise (NoMatchingSnapshots "There are no snapshots tha can be sent"),
             [list_command (source a)])
        | Ok name =>
            (if returncode (st (full_command a name)) =? 0 then Ok tt
             else Raise (ZFSError (stderr (st (full_command a name)))),
             [list_command (source a); full_command a name])
        end
    end.
Proof.
  intros Hrc.
  unfold exec, new_backup, try_except, list_yaz_snapshots, mbind, M_bind, run, lift,
    raise, mret, M_ret.
  fold (list_command (source a)). rewrite Hrc. cbn [Z.eqb negb app].
  fold (listed a st (source a)).
  destruct (last (listed a st (source a))) as [last_snap|]; cbn [or_raise];
    [|reflexivity].
  rewrite search_behind_at_or_raise.
  destruct (suffix last_snap) as [name|e]; [|reflexivity].
  fold (full_command a name). cbn [app].
  destruct (returncode _ =? 0); reflexivity.
Qed.

(** X4.  A full transfer whose listing succeeds sends the most recent
    labelled snapshot of the source whole, with one command, and raises
    [NoMatchingSnapshots] without sending anything when there is no
    labelled snapshot or the last name has no ["@"]. *)
Theorem new_backup_sends_last_snapshot :
  returncode (st (list_command (source a))) = 0 →
  (last (listed a st (source a)) = None →
   exec (new_backup s) st
   = (Raise (NoMatchingSnapshots "There are no snapshots tha can be sent"),
      [list_command (source a)]))
  ∧ (∀ last_snap,
       last (listed a st (source a)) = Some last_snap → ¬ occurs "@" last_snap →
       exec (new_backup s) st
       = (Raise (NoMatchingSnapshots "There are no snapshots tha can be sent"),
          [list_command (source a)]))
  ∧ (∀ name,
       last (listed a st (source a)) = Some (source a +:+ String "@" name) →
       ¬ occurs "@" (source a) →
       exec (new_backup s) st
       = (if returncode (st (full_command a name)) =? 0 then Ok tt
          else Raise (ZFSError (stderr (st (full_command a name)))),
          [list_command (source a); full_command a name])).
Proof.
  intros Hrc. rewrite (new_backup_run Hrc). split; [|split].
  - intros ->. reflexivity.
  - intros last_snap -> Hat. rewrite (suffix_unmarked _ Hat). reflexivity.
  - intros name Hlast Hat. rewrite Hlast.
    assert (¬ occurs line_feed (source a +:+ String "@" name)) as Hlf.
    { apply (listed_no_line_feed a st (source a)).
      apply list_elem_of_lookup. exists (pred (length (listed a st (source a)))).
      rewrite <- last_lookup. exact Hlast. }
    unfold line_feed in Hlf. rewrite occurs_char_app, occurs_char_cons in Hlf.
    rewrite suffix_after_first_at by (unfold line_feed; tauto). reflexivity.
Qed.

End NewBackup.

Lemma new_backup_sends_last_snapshot_witness :
  exec (new_backup sample_self) (sample_store [] [] [])
  = (Raise (NoMatchingSnapshots "There are no snapshots tha can be sent"),
     [list_command "pool/ds"])
  ∧ exec (new_backup sample_self)
      (answering (Completed 0 ("stray" +:+ String Py.tab "pool/ds@yazbak_x") ""))
    = (Raise (NoMatchingSnapshots "There are no snapshots tha can be sent"),
       [list_command "pool/ds"])
  ∧ exec (new_backup sample_self) (sample_store [] (snapshots_ABC "pool/ds") [])
    = (Ok tt,
       [list_command "pool/ds";
        Shell "zfs send  pool/ds@yazbak_2024-01-03_1000 | zfs recv  backup/ds"]).
Proof.
  split; [|split].
  - apply (new_backup_sends_last_snapshot sample_self (sample_store [] [] []));
      reflexivity.
  - apply (new_backup_sends_last_snapshot sample_self
             (answering (Completed 0 ("stray" +:+ String Py.tab "pool/ds@yazbak_x") "")))
      with (last_snap := "stray"); [reflexivity|reflexivity|].
    vm_compute. congruence.
  - apply (new_backup_sends_last_snapshot sample_self
             (sample_store [] (snapshots_ABC "pool/ds") []))
      with (name := "yazbak_2024-01-03_1000"); [reflexivity|reflexivity|].
    vm_compute. congruence.
Defined.

(** ** Reading back the stamp the program writes *)

Lemma append_assoc (s t u : string) : (s +:+ t) +:+ u = s +:+ (t +:+ u).
Proof.
  induction s as [|c s IH]; [reflexivity|].
  rewrite !append_cons, IH. reflexivity.
Qed.

Lemma span_keeps_tail cls u c tail :
  cls c = false →
  ∃ run v, Py.span cls (u +:+ String c tail) = (run, v +:+ String c tail).
Proof.
  intros Hc. induction u as [|b u IH].
  - exists EmptyString, EmptyString.
    change (EmptyString +:+ String c tail) with (String c tail).
    cbn [Py.span]. rewrite Hc. reflexivity.
  - rewrite append_cons. cbn [Py.span]. destruct (cls b).
    + destruct IH as (run & v & ->). by exists (String b run), v.
    + exists EmptyString, (String b u). by rewrite append_cons.
Qed.

Lemma at_end_blocked v c tail :
  tail ≠ EmptyString → Py.at_end (v +:+ String c tail) = false.
Proof.
  intros Htail. unfold Py.at_end.
  destruct v as [|b [|b' v]]; cbv [String.append]; cbn [String.eqb];
    destruct tail; try congruence;
    rewrite ?andb_false_r, ?Tauto.if_same; try reflexivity;
    repeat match goal with |- context [Ascii.eqb ?x ?y] => destruct (Ascii.eqb x y) end;
    reflexivity.
Qed.

Lemma star_dollar_blocked cls u c tail :
  cls c = false → tail ≠ EmptyString →
  Py.star_dollar cls (u +:+ String c tail) = None.
Proof.
  intros Hc Htail. unfold Py.star_dollar.
  destruct (span_keeps_tail cls u c tail Hc) as (run & v & ->).
  by rewrite (at_end_blocked v c tail Htail).
Qed.

Lemma search_skips_prefix first cls pre c tail :
  cls c = false → tail ≠ EmptyString →
  Py.search first cls (pre +:+ String c tail) = Py.search first cls (String c tail).
Proof.
  intros Hc Htail. induction pre as [|b pre IH]; [reflexivity|].
  rewrite append_cons. cbn [Py.search].
  rewrite (star_dollar_blocked cls pre c tail Hc Htail).
  destruct (first b); exact IH.
Qed.

Lemma shape_covered cls shape :
  Forall (λ p : ascii → bool, ∀ c, p c = true → cls c = true) shape →
  ∀ s, has_shape shape s = true → Py.span cls s = (s, EmptyString).
Proof.
  induction 1 as [|p shape Hp _ IH]; intros [|c s] Hs; cbn in Hs;
    try discriminate; [reflexivity|].
  apply andb_true_iff in Hs as [Hc Hs]. cbn [Py.span].
  rewrite (Hp c Hc), (IH s Hs). reflexivity.
Qed.

Lemma stamp_shape_covered cls :
  stamp_class cls →
  Forall (λ p : ascii → bool, ∀ c, p c = true → cls c = true) written_stamp_shape.
Proof.
  intros (Hd & Hdash & Hunder).
  assert (∀ x c, cls x = true → is_char x c = true → cls c = true) as Hchar.
  { intros x c Hx Hc. unfold is_char in Hc. apply Ascii.eqb_eq in Hc. by subst. }
  unfold written_stamp_shape. repeat constructor; eauto.
Qed.

(** The stamp found at the end of a name, after a character outside the
    class and the ["_"] that precedes the stamp. *)
Lemma search_written_stamp cls pre c ts :
  stamp_class cls → cls c = false →
  has_shape written_stamp_shape ts = true →
  Py.search Py.is_digit cls (pre +:+ String c (String "_" ts)) = Some ts.
Proof.
  intros Hcls Hc Hts.
  rewrite search_skips_prefix by (exact Hc || discriminate).
  assert (Py.is_digit c = false) as Hdc.
  { destruct (Py.is_digit c) eqn:E; [|reflexivity].
    destruct Hcls as (Hd & _). rewrite (Hd c E) in Hc. discriminate. }
  cbn [Py.search]. rewrite Hdc. change (Py.is_digit "_"%char) with false. cbn iota.
  pose proof (shape_covered cls _ (stamp_shape_covered cls Hcls)) as Hspan.
  destruct ts as [|d0 r]; [discriminate|].
  assert (Py.is_digit d0 = true ∧ Py.span cls r = (r, EmptyString)) as [Hd0 Hr].
  { pose proof (Hspan _ Hts) as Hw. cbn in Hts.
    apply andb_true_iff in Hts as [Hd0 _]. split; [exact Hd0|].
    cbn [Py.span] in Hw. destruct Hcls as (Hd & _). rewrite (Hd d0 Hd0) in Hw.
    destruct (Py.span cls r) as [run rest]. congruence. }
  cbn [Py.search]. rewrite Hd0. unfold Py.star_dollar. rewrite Hr. reflexivity.
Qed.

Lemma stamp_char_class : stamp_class stamp_char.
Proof.
  repeat split. intros c Hc. unfold stamp_char. by rewrite Hc.
Qed.

Lemma stamp_char__class : stamp_class stamp_char_.
Proof.
  repeat split. intros c Hc. unfold stamp_char_. by rewrite Hc.
Qed.

Lemma stamp_char__outside c : stamp_char c = false → stamp_char_ c = false.
Proof.
  unfold stamp_char, stamp_char_. rewrite !orb_false_iff. tauto.
Qed.

Lemma written_name_split a now :
  ends_outside_stamp (label a) →
  ∃ l c, stamp_char c = false
    ∧ snapshot_name (init a now)
      = l +:+ String c (String "_" (timestamp (init a now))).
Proof.
  intros (l & c & Hl & Hc). exists l, c. split; [exact Hc|].
  change (snapshot_name (init a now))
    with (label a +:+ String "_" (timestamp (init a now))).
  rewrite Hl, append_assoc. reflexivity.
Qed.

Lemma get_timestamp_written a now :
  Time.valid now = true → ends_outside_stamp (label a) →
  _get_timestamp (snapshot_name (init a now)) = Some (timestamp (init a now)).
Proof.
  intros Hv Hl.
  destruct (written_name_split a now Hl) as (l & c & Hc & ->).
  destruct (timestamp_written a now Hv) as [_ Hshape].
  exact (search_written_stamp stamp_char l c _ stamp_char_class Hc Hshape).
Qed.

Lemma digit_char_code d :
  0 <= d <= 9 → Py.code (Time.digit_char d) - 48 = d.
Proof.
  intros Hd.
  assert (d = 0 ∨ d = 1 ∨ d = 2 ∨ d = 3 ∨ d = 4 ∨ d = 5 ∨ d = 6 ∨ d = 7
          ∨ d = 8 ∨ d = 9) as H by lia.
  repeat (destruct H as [-> | H]; [reflexivity|]).
  subst d. reflexivity.
Qed.

Lemma number_two a b :
  0 <= a <= 9 → 0 <= b <= 9 →
  Time.number [Time.digit_char a; Time.digit_char b] = Some (10 * a + b).
Proof.
  intros Ha Hb. unfold Time.number. cbn [forallb fold_left].
  destruct (digit_char_cases a Ha) as [-> _].
  destruct (digit_char_cases b Hb) as [-> _].
  rewrite (digit_char_code a Ha), (digit_char_code b Hb).
  cbn [andb]. apply (f_equal Some). lia.
Qed.

Lemma number_four a b c d :
  0 <= a <= 9 → 0 <= b <= 9 → 0 <= c <= 9 → 0 <= d <= 9 →
  Time.number [Time.digit_char a; Time.digit_char b; Time.digit_char c;
               Time.digit_char d]
  = Some (1000 * a + 100 * b + 10 * c + d).
Proof.
  intros Ha Hb Hc Hd. unfold Time.number. cbn [forallb fold_left].
  destruct (digit_char_cases a Ha) as [-> _].
  destruct (digit_char_cases b Hb) as [-> _].
  destruct (digit_char_cases c Hc) as [-> _].
  destruct (digit_char_cases d Hd) as [-> _].
  rewrite (digit_char_code a Ha), (digit_char_code b Hb),
    (digit_char_code c Hc), (digit_char_code d Hd).
  cbn [andb]. apply (f_equal Some). lia.
Qed.

Lemma valid_to_the_minute t :
  Time.valid t = true → Time.valid (to_the_minute t) = true.
Proof.
  unfold Time.valid, to_the_minute. cbn [Time.year Time.month Time.day Time.hour
    Time.minute Time.second Time.microsecond].
  rewrite !andb_true_iff, !Z.leb_le. intros H. decompose [and] H.
  repeat split; (assumption || lia).
Qed.

(** The colon put back into the written stamp gives a spelling
    [fromisoformat] reads as the time the stamp was made from. *)
Lemma stamp_read_back other a now :
  Time.valid now = true →
  Time.fromisoformat other
    (Py.but_last2 (timestamp (init a now)) +:+ ":"
       +:+ Py.last2 (timestamp (init a now)))
  = Ok (to_the_minute now).
Proof.
  intros Hv. destruct (timestamp_written a now Hv) as [-> _].
  pose proof (valid_to_the_minute now Hv) as Hv'.
  apply valid_bounds in Hv as (Hy & Hm & Hd & Hh & Hn).
  destruct now as [y m d h n sec us].
  cbn [Time.year Time.month Time.day Time.hour Time.minute] in *.
  unfold Time.fmt04, Time.fmt02, Py.but_last2, Py.last2.
  cbv [String.append]. cbn [String.length Nat.sub Py.take Py.drop].
  unfold Time.fromisoformat. cbn [list_ascii_of_string].
  change (Ascii.eqb "-" "-") with true. change (Ascii.eqb ":" ":") with true.
  cbn [andb].
  rewrite number_four by div_lia. rewrite !number_two by div_lia.
  replace (1000 * (y / 1000) + 100 * (y / 100 mod 10) + 10 * (y mod 100 / 10)
           + y mod 100 mod 10) with y by div_lia.
  replace (10 * (m / 10) + m mod 10) with m by div_lia.
  replace (10 * (d / 10) + d mod 10) with d by div_lia.
  replace (10 * (h / 10) + h mod 10) with h by div_lia.
  replace (10 * (n / 10) + n mod 10) with n by div_lia.
  unfold to_the_minute in Hv'.
  cbn [Time.year Time.month Time.day Time.hour Time.minute] in Hv'.
  rewrite Hv'. reflexivity.
Qed.

Lemma last_snap_time_written other a now pre :
  Time.valid now = true → ends_outside_stamp (label a) →
  last_snap_time other (pre +:+ snapshot_name (init a now)) = Ok (to_the_minute now).
Proof.
  intros Hv Hl.
  destruct (written_name_split a now Hl) as (l & c & Hc & ->).
  destruct (timestamp_written a now Hv) as [_ Hshape].
  unfold last_snap_time. rewrite <- append_assoc.
  rewrite (search_written_stamp stamp_char_ (pre +:+ l) c _ stamp_char__class
             (stamp_char__outside c Hc) Hshape).
  cbn [or_raise mbind result_bind].
  exact (stamp_read_back other a now Hv).
Qed.

(** ** The age of the last snapshot *)

Lemma conditional_snapshot_age other a t0 now st om changed elapsed :
  transfer_only a = false →
  Time.valid t0 = true → ends_outside_stamp (label a) →
  omit_configured a = Some om →
  exec (has_changed (init a now)) st = (Ok changed, [get_written_command a]) →
  negb changed && negb (no_omit_unchanged a) = false →
  returncode (st (list_command (source a))) = 0 →
  last (listed a st (source a))
    = Some (source a +:+ "@" +:+ snapshot_name (init a t0)) →
  Time.sub now (to_the_minute t0) = Ok elapsed →
  exec (conditional_snapshot other (init a now)) st
  = if Time.gt om elapsed
    then (Ok false, [get_written_command a; list_command (source a)])
    else snapshot (init a now) st
           [get_written_command a; list_command (source a)].
Proof.
  intros Ht Hv Hl Hom Hc Hgo Hrc Hlast Hsub.
  rewrite (conditional_snapshot_run other (init a now) st changed _ Ht Hc).
  cbn [self_args init]. rewrite Hgo.
  rewrite (too_recent_run other (init a now) st _ om Hom Hrc).
  cbn [self_args init Yazbaka.now]. rewrite Hlast.
  rewrite <- append_assoc, (last_snap_time_written other a t0 _ Hv Hl), Hsub.
  destruct (Time.gt om elapsed); reflexivity.
Qed.

Lemma valid_second dt :
  Time.valid dt = true →
  0 <= Time.second dt <= 59 ∧ 0 <= Time.microsecond dt <= 999999.
Proof.
  unfold Time.valid. rewrite !andb_true_iff, !Z.leb_le. lia.
Qed.

Lemma sub_same_minute now :
  Time.valid now = true →
  Time.sub now (to_the_minute now)
  = Ok (Time.Timedelta 0 (Time.second now) (Time.microsecond now)).
Proof.
  intros Hv. apply valid_second in Hv as [Hs Hu].
  destruct now as [y m d h n sec us].
  cbn [Time.second Time.microsecond] in *.
  unfold Time.sub, to_the_minute, Time.toordinal.
  cbn [Time.year Time.month Time.day Time.hour Time.minute Time.second
       Time.microsecond].
  unfold Time.timedelta_new, Time.of_microseconds, Time.us_per_day,
    Time.us_per_second.
  match goal with |- context [Z.abs (?x `div` _)] =>
    replace x with (sec * 1000000 + us) by lia end.
  set (t := sec * 1000000 + us).
  assert (t `div` (86400 * 1000000) = 0) as -> by (subst t; div_lia).
  assert (t `mod` (86400 * 1000000) = t) as -> by (subst t; div_lia).
  assert (t `div` 1000000 = sec) as -> by (subst t; div_lia).
  assert (t `mod` 1000000 = us) as -> by (subst t; div_lia).
  reflexivity.
Qed.

(** A second run in the minute of the last snapshot. *)
Lemma conditional_snapshot_same_minute_run other a now st om changed :
  transfer_only a = false →
  Time.valid now = true → ends_outside_stamp (label a) →
  omit_configured a = Some om →
  normalised om → 60000000 <= total_microseconds om →
  exec (has_changed (init a now)) st = (Ok changed, [get_written_command a]) →
  negb changed && negb (no_omit_unchanged a) = false →
  returncode (st (list_command (source a))) = 0 →
  last (listed a st (source a))
    = Some (source a +:+ "@" +:+ snapshot_name (init a now)) →
  exec (conditional_snapshot other (init a now)) st
  = (Ok false, [get_written_command a; list_command (source a)]).
Proof.
  intros Ht Hv Hl Hom Hn Hlong Hc Hgo Hrc Hlast.
  rewrite (conditional_snapshot_age other a now now st om changed _
             Ht Hv Hl Hom Hc Hgo Hrc Hlast (sub_same_minute now Hv)).
  apply valid_second in Hv as [Hs Hu].
  replace (Time.gt om _) with true; [reflexivity|].
  symmetry. apply gt_longer; [exact Hn|split; cbn; lia|].
  unfold total_microseconds at 1. cbn. lia.
Qed.

(** ** The order of the written stamps *)

Lemma digit_char_compare a b :
  0 <= a <= 9 → 0 <= b <= 9 →
  Ascii.compare (Time.digit_char a) (Time.digit_char b) = (a ?= b).
Proof.
  intros Ha Hb.
  assert (a = 0 ∨ a = 1 ∨ a = 2 ∨ a = 3 ∨ a = 4 ∨ a = 5 ∨ a = 6 ∨ a = 7
          ∨ a = 8 ∨ a = 9) as HA by lia.
  assert (b = 0 ∨ b = 1 ∨ b = 2 ∨ b = 3 ∨ b = 4 ∨ b = 5 ∨ b = 6 ∨ b = 7
          ∨ b = 8 ∨ b = 9) as HB by lia.
  clear Ha Hb.
  repeat (destruct HA as [-> | HA]);
    try subst a; repeat (destruct HB as [-> | HB]); try subst b; reflexivity.
Qed.

Lemma two_digits n :
  0 <= n <= 99 →
  ∃ a b, 0 <= a <= 9 ∧ 0 <= b <= 9 ∧ n = 10 * a + b
    ∧ Time.fmt02 n = String (Time.digit_char a) (String (Time.digit_char b) "").
Proof.
  intros Hn. exists (n / 10), (n mod 10). repeat split; try div_lia.
Qed.

Lemma four_digits n :
  0 <= n <= 9999 →
  ∃ a b c d, 0 <= a <= 9 ∧ 0 <= b <= 9 ∧ 0 <= c <= 9 ∧ 0 <= d <= 9
    ∧ n = 1000 * a + 100 * b + 10 * c + d
    ∧ Time.fmt04 n
      = String (Time.digit_char a) (String (Time.digit_char b)
          (String (Time.digit_char c) (String (Time.digit_char d) ""))).
Proof.
  intros Hn.
  exists (n / 1000), (n / 100 mod 10), (n mod 100 / 10), (n mod 100 mod 10).
  repeat split; try div_lia.
Qed.

Lemma stamps_ordered a a' t t' :
  Time.valid t = true → Time.valid t' = true →
  Py.lt (timestamp (init a t)) (timestamp (init a' t')) = true
  ↔ calendar_minute t < calendar_minute t'.
Proof.
  intros Hv Hv'.
  destruct (timestamp_written a t Hv) as [-> _].
  destruct (timestamp_written a' t' Hv') as [-> _].
  apply valid_bounds in Hv as (Hy & Hm & Hd & Hh & Hn).
  apply valid_bounds in Hv' as (Hy' & Hm' & Hd' & Hh' & Hn').
  unfold calendar_minute.
  destruct t as [y m d h n sec us], t' as [y' m' d' h' n' sec' us'].
  cbn [Time.year Time.month Time.day Time.hour Time.minute] in *.
  destruct (four_digits y) as (y1 & y2 & y3 & y4 & ? & ? & ? & ? & -> & ->); [lia|].
  destruct (two_digits m) as (m1 & m2 & ? & ? & -> & ->); [lia|].
  destruct (two_digits d) as (d1 & d2 & ? & ? & -> & ->); [lia|].
  destruct (two_digits h) as (h1 & h2 & ? & ? & -> & ->); [lia|].
  destruct (two_digits n) as (n1 & n2 & ? & ? & -> & ->); [lia|].
  destruct (four_digits y') as (z1 & z2 & z3 & z4 & ? & ? & ? & ? & -> & ->); [lia|].
  destruct (two_digits m') as (k1 & k2 & ? & ? & -> & ->); [lia|].
  destruct (two_digits d') as (e1 & e2 & ? & ? & -> & ->); [lia|].
  destruct (two_digits h') as (g1 & g2 & ? & ? & -> & ->); [lia|].
  destruct (two_digits n') as (l1 & l2 & ? & ? & -> & ->); [lia|].
  cbv [String.append]. unfold Py.lt, String.ltb. cbn [String.compare].
  rewrite !digit_char_compare by assumption.
  change (Ascii.compare "-" "-") with Eq. change (Ascii.compare "_" "_") with Eq.
  cbn iota.
  repeat match goal with
         | |- context [?x ?= ?y] => destruct (Z.compare_spec x y); cbn iota
         end;
    split; (discriminate || lia || (intros _; (reflexivity || lia))).
Qed.

Lemma sample_label_ends_outside_stamp : ends_outside_stamp (label sample_args).
Proof. exists "yazba", "k"%char. split; reflexivity. Defined.

(** X5.  [_get_timestamp] reads back from a snapshot name the stamp
    [__init__] put into it, when the label ends with a character that is
    not a digit, ["-"], ["_"] or ["T"]. *)
Theorem get_timestamp_reads_written_stamp a now :
  Time.valid now = true → ends_outside_stamp (label a) →
  _get_timestamp (snapshot_name (init a now)) = Some (timestamp (init a now)).
Proof. exact (get_timestamp_written a now). Qed.

Lemma get_timestamp_reads_written_stamp_witness :
  _get_timestamp "yazbak_2024-01-02_0304" = Some "2024-01-02_0304".
Proof.
  apply (get_timestamp_reads_written_stamp sample_args sample_now).
  - reflexivity.
  - exact sample_label_ends_outside_stamp.
Defined.

(** X6.  [conditional_snapshot] reads the time of a snapshot the program
    named as the time the name was made at, cut to the minute: the stamp
    found at the end of the name, with the colon put back, is read by
    [fromisoformat] as that time. *)
Theorem last_snap_time_reads_written_time other a now dataset :
  Time.valid now = true → ends_outside_stamp (label a) →
  last_snap_time other (dataset +:+ "@" +:+ snapshot_name (init a now))
  = Ok (to_the_minute now).
Proof.
  intros Hv Hl. rewrite <- append_assoc.
  exact (last_snap_time_written other a now (dataset +:+ "@") Hv Hl).
Qed.

Lemma last_snap_time_reads_written_time_witness :
  last_snap_time strict_iso "pool/ds@yazbak_2024-01-02_0304"
  = Ok (Time.Datetime 2024 1 2 3 4 0 0).
Proof.
  apply (last_snap_time_reads_written_time strict_iso sample_args sample_now "pool/ds").
  - reflexivity.
  - exact sample_label_ends_outside_stamp.
Defined.

(** X7.  For a label that ends with a character other than a digit, ["-"],
    ["_"] and ["T"]: when [transfer_only] is not set, [has_changed] gives a
    verdict that does not end the method, an omit duration is configured,
    the listing succeeds and its last labelled snapshot is the one the
    program named at the valid time [t0], the omit test compares the omit
    duration with the time from the minute of [t0] to now.  The duration
    being greater, nothing is created and [False] is returned after the
    two queries; otherwise the snapshot is taken. *)
Theorem conditional_snapshot_measures_from_minute other a t0 now st om changed elapsed :
  transfer_only a = false →
  Time.valid t0 = true → ends_outside_stamp (label a) →
  omit_configured a = Some om →
  exec (has_changed (init a now)) st = (Ok changed, [get_written_command a]) →
  negb changed && negb (no_omit_unchanged a) = false →
  returncode (st (list_command (source a))) = 0 →
  last (listed a st (source a))
    = Some (source a +:+ "@" +:+ snapshot_name (init a t0)) →
  Time.sub now (to_the_minute t0) = Ok elapsed →
  exec (conditional_snapshot other (init a now)) st
  = if Time.gt om elapsed
    then (Ok false, [get_written_command a; list_command (source a)])
    else snapshot (init a now) st
           [get_written_command a; list_command (source a)].
Proof. exact (conditional_snapshot_age other a t0 now st om changed elapsed). Qed.

Lemma conditional_snapshot_measures_from_minute_witness :
  exec (conditional_snapshot strict_iso (init sample_args_omit sample_now))
    (written_store "2024-01-02_0230")
  = (Ok false, [get_written_command sample_args_omit; list_command "pool/ds"]).
Proof.
  apply (conditional_snapshot_measures_from_minute strict_iso sample_args_omit
           (Time.Datetime 2024 1 2 2 30 59 1) sample_now
           (written_store "2024-01-02_0230") one_hour true
           (Time.Timedelta 0 2045 678)).
  - reflexivity.
  - reflexivity.
  - exact sample_label_ends_outside_stamp.
  - reflexivity.
  - reflexivity.
  - reflexivity.
  - reflexivity.
  - reflexivity.
  - reflexivity.
Defined.

(** X8.  For a label that ends with a character other than a digit, ["-"],
    ["_"] and ["T"]: a run that gets past the test of change and finds, as
    the last labelled snapshot of a successful listing, the snapshot named
    in its own minute creates nothing when the omit duration is a minute
    or more: [conditional_snapshot] returns [False] after the two
    queries. *)
Theorem conditional_snapshot_same_minute other a now st om changed :
  transfer_only a = false →
  Time.valid now = true → ends_outside_stamp (label a) →
  omit_configured a = Some om →
  normalised om → 60000000 <= total_microseconds om →
  exec (has_changed (init a now)) st = (Ok changed, [get_written_command a]) →
  negb changed && negb (no_omit_unchanged a) = false →
  returncode (st (list_command (source a))) = 0 →
  last (listed a st (source a))
    = Some (source a +:+ "@" +:+ snapshot_name (init a now)) →
  exec (conditional_snapshot other (init a now)) st
  = (Ok false, [get_written_command a; list_command (source a)]).
Proof. exact (conditional_snapshot_same_minute_run other a now st om changed). Qed.

Lemma conditional_snapshot_same_minute_witness :
  exec (conditional_snapshot strict_iso (init sample_args_omit sample_now))
    (written_store "2024-01-02_0304")
  = (Ok false, [get_written_command sample_args_omit; list_command "pool/ds"]).
Proof.
  apply (conditional_snapshot_same_minute strict_iso sample_args_omit sample_now
           (written_store "2024-01-02_0304") one_hour true).
  - reflexivity.
  - reflexivity.
  - exact sample_label_ends_outside_stamp.
  - reflexivity.
  - unfold normalised, one_hour. cbn. lia.
  - unfold total_microseconds, one_hour. cbn. lia.
  - reflexivity.
  - reflexivity.
  - reflexivity.
  - reflexivity.
Defined.

(** X9.  For a label that ends with a character other than a digit, ["-"],
    ["_"] and ["T"], the names the program gives its snapshots at two valid
    times are ordered by [get_pairs] as the times are: the stamp of one
    name is the smaller string exactly when its minute, read as the number
    [YYYYMMDDHHMM], is the smaller one. *)
Theorem written_names_ordered a t t' :
  Time.valid t = true → Time.valid t' = true →
  ends_outside_stamp (label a) →
  stamp_before (snapshot_name (init a t)) (snapshot_name (init a t'))
  ↔ calendar_minute t < calendar_minute t'.
Proof.
  intros Hv Hv' Hl. unfold stamp_before.
  rewrite (get_timestamp_written a t Hv Hl), (get_timestamp_written a t' Hv' Hl).
  pose proof (stamps_ordered a a t t' Hv Hv') as [Hlt Hmin].
  split.
  - intros (x & y & Hx & Hy & H).
    apply (inj Some) in Hx, Hy. subst x y. exact (Hlt H).
  - intros H.
    exists (timestamp (init a t)), (timestamp (init a t')).
    split; [reflexivity|]. split; [reflexivity|]. exact (Hmin H).
Qed.

Lemma written_names_ordered_witness :
  stamp_before "yazbak_2024-01-02_0304" "yazbak_2024-02-01_0000".
Proof.
  apply (written_names_ordered sample_args sample_now
           (Time.Datetime 2024 2 1 0 0 0 0)).
  - reflexivity.
  - reflexivity.
  - exact sample_label_ends_outside_stamp.
  - unfold calendar_minute. cbn. lia.
Defined.

(** ** [has_changed]: the records that are not read *)

Lemma loop_ignores_descendants a zero lines :
  has_changed_loop a zero lines
  = has_changed_loop a zero
      (filter (λ line, descendant_skipped a line = false) lines).
Proof.
  revert zero. induction lines as [|line lines IH]; intros zero; [reflexivity|].
  destruct (descendant_skipped a line) eqn:Hskip.
  - rewrite filter_cons_False by congruence.
    cbn [has_changed_loop]. rewrite (body_skipped a zero line Hskip).
    cbn [mbind result_bind]. apply IH.
  - rewrite filter_cons_True by assumption.
    cbn [has_changed_loop].
    destruct (has_changed_body a zero line) as [[zero'|r]|e];
      cbn [mbind result_bind]; [apply IH|reflexivity|reflexivity].
Qed.

(** A record that is read for its byte count and has none. *)
Lemma body_not_a_count a zero line e :
  descendant_skipped a line = false →
  ¬ occurs ("@" +:+ label a) line →
  written (Py.split Py.tab line) = Raise e →
  has_changed_body a zero line = Raise e.
Proof.
  unfold descendant_skipped, occurs, has_changed_body. intros -> Hl Hw.
  cbn [andb negb]. rewrite Hw.
  destruct (Py.find line "@" =? -1); [reflexivity|].
  destruct (Py.find line ("@" +:+ label a) =? -1) eqn:E; [reflexivity|].
  apply Z.eqb_neq in E. contradiction.
Qed.

Lemma written_short elements :
  (length elements < 3)%nat → written elements = Raise IndexError.
Proof.
  intros Hlen. unfold written.
  rewrite (lookup_ge_None_2 elements 2) by lia. reflexivity.
Qed.

Lemma has_changed_run s st :
  exec (has_changed s) st
  = (if returncode (st (get_written_command (self_args s))) =? 0
     then has_changed_lines (self_args s)
            (Py.splitlines (stdout (st (get_written_command (self_args s)))))
     else Raise (ZFSError (stderr (st (get_written_command (self_args s))))),
     [get_written_command (self_args s)]).
Proof.
  unfold exec, has_changed, mbind, M_bind, run, raise, lift.
  fold (get_written_command (self_args s)).
  destruct (returncode _ =? 0); reflexivity.
Qed.

(** X10.  Records of descendant datasets, without ["R"] among the send
    flags, have no part in the verdict of [has_changed]: the loop gives on
    the lines what it gives on the lines with those records removed. *)
Theorem has_changed_ignores_descendants a zero lines :
  has_changed_loop a zero lines
  = has_changed_loop a zero
      (filter (λ line, descendant_skipped a line = false) lines).
Proof. exact (loop_ignores_descendants a zero lines). Qed.

(** X11.  When [zfs get] fails, [conditional_snapshot] without
    [transfer_only] raises [ZFSError] with the diagnostic text and issues
    nothing after the query, also under [no_omit_unchanged], where the
    verdict would not be used. *)
Theorem conditional_snapshot_query_failure other s st :
  transfer_only (self_args s) = false →
  returncode (st (get_written_command (self_args s))) ≠ 0 →
  exec (conditional_snapshot other s) st
  = (Raise (ZFSError (stderr (st (get_written_command (self_args s))))),
     [get_written_command (self_args s)]).
Proof.
  intros Ht Hrc. apply Z.eqb_neq in Hrc.
  pose proof (has_changed_run s st) as Hrun. rewrite Hrc in Hrun.
  unfold exec in *. unfold conditional_snapshot. rewrite Ht.
  unfold mbind at 1, M_bind at 1. rewrite Hrun. reflexivity.
Qed.

Lemma conditional_snapshot_query_failure_witness :
  exec (conditional_snapshot strict_iso
          (init (Args "pool/ds" "backup/ds" "yazbak" "" "" false false false
                   false true false None) sample_now))
    (answering (Completed 1 "" "cannot open 'pool/ds'"))
  = (Raise (ZFSError "cannot open 'pool/ds'"),
     [Argv ["zfs"; "get"; "-Hpr"; "written"; "pool/ds"]]).
Proof.
  apply (conditional_snapshot_query_failure strict_iso
           (init (Args "pool/ds" "backup/ds" "yazbak" "" "" false false false
                    false true false None) sample_now)
           (answering (Completed 1 "" "cannot open 'pool/ds'"))).
  - reflexivity.
  - cbn. lia.
Defined.

(** X12.  A record that is read for its byte count (not skipped as a
    descendant, not a snapshot with the configured label) and has fewer
    than three tab-separated fields makes [has_changed] raise
    [IndexError], whatever follows it, when the records before it were
    passed without a verdict. *)
Theorem has_changed_short_record s st pre line rest zero :
  returncode (st (get_written_command (self_args s))) = 0 →
  Py.splitlines (stdout (st (get_written_command (self_args s))))
    = pre ++ line :: rest →
  scan (self_args s) true pre zero →
  descendant_skipped (self_args s) line = false →
  ¬ occurs ("@" +:+ label (self_args s)) line →
  (length (Py.split Py.tab line) < 3)%nat →
  exec (has_changed s) st
  = (Raise IndexError, [get_written_command (self_args s)]).
Proof.
  intros Hrc Hlines Hscan Hskip Hlabel Hshort.
  rewrite has_changed_run, Hrc, Hlines. cbn [Z.eqb].
  unfold has_changed_lines.
  rewrite (loop_scan_app (self_args s) true pre zero (line :: rest) Hscan).
  cbn [has_changed_loop].
  rewrite (body_not_a_count (self_args s) zero line IndexError Hskip Hlabel
             (written_short _ Hshort)).
  reflexivity.
Qed.

Lemma has_changed_short_record_witness :
  exec (has_changed sample_self)
    (sample_store [written_row "pool/ds" "0"; ""; written_row "pool/ds" "4096"]
       [] [])
  = (Raise IndexError, [get_written_command sample_args]).
Proof.
  apply (has_changed_short_record sample_self
           (sample_store
              [written_row "pool/ds" "0"; ""; written_row "pool/ds" "4096"] [] [])
           [written_row "pool/ds" "0"] "" [written_row "pool/ds" "4096"] true).
  - reflexivity.
  - reflexivity.
  - eapply scan_cons; [reflexivity|constructor].
  - reflexivity.
  - vm_compute. congruence.
  - vm_compute. lia.
Defined.

(** ** The durations of [_get_timedelta] *)

Lemma digits_of_run s acc prev v :
  0 <= acc →
  Py.digits acc prev (Py.span Py.is_digit s).1 = Some v → acc <= v.
Proof.
  revert acc prev. induction s as [|c s IH]; intros acc prev Hacc; cbn [Py.span].
  - cbn. destruct prev; intros [= <-] || discriminate. lia.
  - destruct (Py.is_digit c) eqn:Hc.
    + destruct (Py.span Py.is_digit s) as [run rest] eqn:Hs. cbn [fst] in *.
      cbn [Py.digits]. rewrite Hc. intros H. apply IH in H.
      * unfold Py.is_digit in Hc. apply andb_true_iff in Hc as [Hc _].
        apply Z.leb_le in Hc. lia.
      * unfold Py.is_digit in Hc. apply andb_true_iff in Hc as [Hc _].
        apply Z.leb_le in Hc. lia.
    + cbn. destruct prev; intros [= <-] || discriminate. lia.
Qed.

Lemma is_digit_plain c :
  Py.is_digit c = true →
  Py.is_space c = false ∧ c ≠ "+"%char ∧ c ≠ "-"%char.
Proof.
  unfold Py.is_digit, Py.is_space. rewrite andb_true_iff, !Z.leb_le.
  intros Hc. split.
  - rewrite !orb_false_iff, andb_false_iff, !Z.leb_gt, !Z.eqb_neq. lia.
  - split; intros ->.
    + change (Py.code "+") with 43 in Hc. lia.
    + change (Py.code "-") with 45 in Hc. lia.
Qed.

Lemma int_of_run s n : Py.int (Py.match_digits s) = Ok n → 0 <= n.
Proof.
  unfold Py.match_digits. intros H.
  assert (Py.digits 0 false (Py.span Py.is_digit s).1 = Some n) as Hd.
  { unfold Py.int in H.
    destruct (Py.max_str_digits <? _); [discriminate|]. revert H.
    destruct s as [|c s]; cbn [Py.span]; [cbn; congruence|].
    destruct (Py.is_digit c) eqn:Hc; [|cbn; congruence].
    destruct (Py.span Py.is_digit s) as [run rest]. cbn [fst].
    destruct (is_digit_plain c Hc) as (Hsp & Hplus & Hminus).
    cbn [Py.lstrip]. rewrite Hsp.
    destruct c as [[] [] [] [] [] [] [] []]; try congruence;
      (destruct (Py.digits 0 false _); cbn; congruence). }
  apply digits_of_run in Hd; lia.
Qed.

(** [_get_timedelta] as the number times the length of the unit. *)
Lemma get_timedelta_minutes s n u :
  Py.int (Py.match_digits s) = Ok n →
  unit_minutes (unit_text s) = Some u →
  _get_timedelta s = Time.of_microseconds (n * u * us_per_minute).
Proof.
  intros Hn Hu. unfold _get_timedelta. rewrite Hn. cbn [mbind result_bind].
  fold (unit_text s). revert Hu. unfold unit_minutes.
  repeat match goal with
         | |- context [Py.in_list ?x ?l] => destruct (Py.in_list x l)
         end;
    intros [= <-]; unfold Time.timedelta_new, us_per_minute; f_equal; ring.
Qed.

Lemma unit_minutes_recognized u :
  unit_minutes u = None → u ∉ recognized_units.
Proof.
  unfold unit_minutes, recognized_units. rewrite !not_elem_of_app.
  repeat match goal with
         | |- context [Py.in_list ?x ?l] =>
             let E := fresh "E" in destruct (Py.in_list x l) eqn:E
         end; try discriminate.
  intros _.
  repeat split; intros H%in_list_true; congruence.
Qed.

Lemma unit_minutes_positive u k : unit_minutes u = Some k → 0 < k.
Proof.
  unfold unit_minutes.
  repeat match goal with
         | |- context [Py.in_list ?x ?l] => destruct (Py.in_list x l)
         end; intros [= <-]; lia.
Qed.

Lemma get_timedelta_sound s td :
  _get_timedelta s = Ok td →
  ∃ n u, Py.int (Py.match_digits s) = Ok n ∧ 0 <= n
    ∧ unit_minutes (unit_text s) = Some u
    ∧ total_microseconds td = n * u * us_per_minute
    ∧ normalised td ∧ 0 <= Time.days td <= max_days.
Proof.
  intros H.
  destruct (Py.int (Py.match_digits s)) as [n|e] eqn:Hn.
  2:{ unfold _get_timedelta in H. rewrite Hn in H. discriminate. }
  destruct (unit_minutes (unit_text s)) as [u|] eqn:Hu.
  2:{ apply unit_minutes_recognized, get_timedelta_unknown_unit in Hu. congruence. }
  pose proof (int_of_run s n Hn) as Hn0.
  pose proof (unit_minutes_positive _ _ Hu) as Hu0.
  exists n, u. rewrite (get_timedelta_minutes s n u Hn Hu) in H.
  destruct (of_microseconds_normalised _ _ H) as [Hnorm Htotal].
  repeat split; try assumption; try apply Hnorm.
  - unfold total_microseconds in Htotal. unfold normalised in Hnorm.
    unfold us_per_minute, Time.us_per_second in *. nia.
  - revert H. unfold Time.of_microseconds.
    destruct (999999999 <? _) eqn:E; [discriminate|].
    intros [= <-]. cbn. apply Z.ltb_ge in E. unfold max_days. lia.
Qed.

Lemma get_timedelta_raises s e :
  _get_timedelta s = Raise e →
  (e = ValueError
   ∧ (Py.int (Py.match_digits s) = Raise ValueError
      ∨ unit_minutes (unit_text s) = None))
  ∨ (e = OverflowError
     ∧ ∃ n u, Py.int (Py.match_digits s) = Ok n
         ∧ unit_minutes (unit_text s) = Some u
         ∧ max_days < n * u * us_per_minute / Time.us_per_day).
Proof.
  intros H.
  destruct (Py.int (Py.match_digits s)) as [n|e'] eqn:Hn.
  2:{ left. pose proof (int_raises _ _ Hn) as ->.
      unfold _get_timedelta in H. rewrite Hn in H. cbn in H.
      split; [congruence|by left]. }
  destruct (unit_minutes (unit_text s)) as [u|] eqn:Hu.
  2:{ left. split; [|by right].
      apply unit_minutes_recognized, get_timedelta_unknown_unit in Hu. congruence. }
  right. rewrite (get_timedelta_minutes s n u Hn Hu) in H.
  pose proof (int_of_run s n Hn) as Hn0.
  pose proof (unit_minutes_positive _ _ Hu) as Hu0.
  revert H. unfold Time.of_microseconds.
  destruct (999999999 <? _) eqn:E; [|discriminate].
  intros [= <-]. split; [reflexivity|]. exists n, u. repeat split.
  apply Z.ltb_lt in E. unfold max_days.
  assert (0 <= n * u * us_per_minute / Time.us_per_day).
  { apply Z.div_pos; [unfold us_per_minute, Time.us_per_second; nia|].
    unfold Time.us_per_day, Time.us_per_second. lia. }
  lia.
Qed.

Lemma get_timedelta_zero s td :
  _get_timedelta s = Ok td →
  Time.truthy td = false ↔ Py.int (Py.match_digits s) = Ok 0.
Proof.
  intros H.
  destruct (get_timedelta_sound s td H) as (n & u & Hn & Hn0 & Hu & Htotal & Hnorm & Hd).
  pose proof (unit_minutes_positive _ _ Hu) as Hu0.
  rewrite Hn. unfold Time.truthy. rewrite negb_false_iff, !andb_true_iff, !Z.eqb_eq.
  unfold total_microseconds, normalised, us_per_minute, Time.us_per_second in *.
  split.
  - intros [[Hd0 Hs0] Hus0]. f_equal. nia.
  - intros [= ->]. nia.
Qed.

(** X13.  A duration [_get_timedelta] returns is the leading number, which
    is not negative, times the length of the unit in minutes: it is
    normalised, not negative and within the days a [timedelta] holds. *)
Theorem get_timedelta_value s td :
  _get_timedelta s = Ok td →
  ∃ n u, Py.int (Py.match_digits s) = Ok n ∧ 0 <= n
    ∧ unit_minutes (unit_text s) = Some u
    ∧ total_microseconds td = n * u * us_per_minute
    ∧ normalised td ∧ 0 <= Time.days td <= max_days.
Proof. exact (get_timedelta_sound s td). Qed.

Lemma get_timedelta_value_witness :
  ∃ n u, Py.int (Py.match_digits "90m") = Ok n ∧ 0 <= n
    ∧ unit_minutes (unit_text "90m") = Some u
    ∧ total_microseconds (Time.Timedelta 0 5400 0) = n * u * us_per_minute
    ∧ normalised (Time.Timedelta 0 5400 0)
    ∧ 0 <= Time.days (Time.Timedelta 0 5400 0) <= max_days.
Proof.
  apply (get_timedelta_value "90m" (Time.Timedelta 0 5400 0)). reflexivity.
Defined.

Lemma digits_run_reads s acc :
  ∃ v, Py.digits acc true (Py.span Py.is_digit s).1 = Some v.
Proof.
  revert acc. induction s as [|c s IH]; intros acc; cbn [Py.span].
  - by exists acc.
  - destruct (Py.is_digit c) eqn:Hc; [|by exists acc].
    destruct (Py.span Py.is_digit s) as [run rest] eqn:Hs. cbn [fst] in *.
    cbn [Py.digits]. rewrite Hc. apply IH.
Qed.

(** [int] refuses a run of digits only when it is empty or too long. *)
Lemma int_run_refused s e :
  Py.int (Py.match_digits s) = Raise e →
  Py.match_digits s = EmptyString
  ∨ Py.max_str_digits < Py.digit_count (Py.match_digits s).
Proof.
  unfold Py.int, Py.match_digits.
  destruct (Py.max_str_digits <? _) eqn:E; [intros _; right; by apply Z.ltb_lt|].
  destruct s as [|c s]; cbn [Py.span]; [by left|].
  destruct (Py.is_digit c) eqn:Hc; [|by left].
  destruct (Py.span Py.is_digit s) as [run rest] eqn:Hs. cbn [fst].
  destruct (is_digit_plain c Hc) as (Hsp & Hplus & Hminus).
  cbn [Py.lstrip]. rewrite Hsp.
  pose proof (digits_run_reads s (10 * 0 + (Py.code c - 48))) as [v Hv].
  rewrite Hs in Hv. cbn [fst] in Hv.
  assert (Py.digits 0 false (String c run) = Some v) as Hd.
  { cbn [Py.digits]. rewrite Hc. exact Hv. }
  destruct c as [[] [] [] [] [] [] [] []]; try congruence;
    rewrite Hd; cbn; discriminate.
Qed.

Lemma get_timedelta_refused s e :
  _get_timedelta s = Raise e →
  (e = ValueError
   ∧ (Py.match_digits s = EmptyString
      ∨ Py.max_str_digits < Py.digit_count (Py.match_digits s)
      ∨ unit_minutes (unit_text s) = None))
  ∨ (e = OverflowError
     ∧ ∃ n u, Py.int (Py.match_digits s) = Ok n
         ∧ unit_minutes (unit_text s) = Some u
         ∧ max_days < n * u * us_per_minute / Time.us_per_day).
Proof.
  intros H.
  destruct (get_timedelta_raises s e H) as [[-> [Hint|Hu]]|Hover].
  - left. split; [reflexivity|].
    destruct (int_run_refused _ _ Hint); tauto.
  - left. tauto.
  - by right.
Qed.

(** X14.  [_get_timedelta] raises [ValueError] or [OverflowError] only.
    It raises [ValueError] when there are no leading digits, when there
    are more of them than [int] accepts (4300 by default), or when the
    unit is not known; it raises [OverflowError] when number and unit are
    read and the product is more than 999999999 days. *)
Theorem get_timedelta_exceptions s e :
  _get_timedelta s = Raise e →
  (e = ValueError
   ∧ (Py.match_digits s = EmptyString
      ∨ Py.max_str_digits < Py.digit_count (Py.match_digits s)
      ∨ unit_minutes (unit_text s) = None))
  ∨ (e = OverflowError
     ∧ ∃ n u, Py.int (Py.match_digits s) = Ok n
         ∧ unit_minutes (unit_text s) = Some u
         ∧ max_days < n * u * us_per_minute / Time.us_per_day).
Proof. exact (get_timedelta_refused s e). Qed.

Lemma get_timedelta_exceptions_witness :
  (OverflowError = ValueError
   ∧ (Py.match_digits "1000000000d" = EmptyString
      ∨ Py.max_str_digits < Py.digit_count (Py.match_digits "1000000000d")
      ∨ unit_minutes (unit_text "1000000000d") = None))
  ∨ (OverflowError = OverflowError
     ∧ ∃ n u, Py.int (Py.match_digits "1000000000d") = Ok n
         ∧ unit_minutes (unit_text "1000000000d") = Some u
         ∧ max_days < n * u * us_per_minute / Time.us_per_day).
Proof.
  apply (get_timedelta_exceptions "1000000000d" OverflowError). reflexivity.
Defined.

(** X15.  The duration [_get_timedelta] returns is false as a condition,
    so that [conditional_snapshot] takes the omit duration as not
    configured, exactly when the leading number is 0. *)
Theorem get_timedelta_zero_unconfigured s td :
  _get_timedelta s = Ok td →
  Time.truthy td = false ↔ Py.int (Py.match_digits s) = Ok 0.
Proof. exact (get_timedelta_zero s td). Qed.

Lemma get_timedelta_zero_unconfigured_witness :
  Time.truthy (Time.Timedelta 0 0 0) = false
  ↔ Py.int (Py.match_digits "0h") = Ok 0.
Proof.
  apply (get_timedelta_zero_unconfigured "0h" (Time.Timedelta 0 0 0)).
  reflexivity.
Defined.

(** ** [validate_args] *)

Lemma remove_char_absent c s :
  ¬ occurs (String c EmptyString) (Py.remove_char c s).
Proof.
  induction s as [|b s IH]; cbn [Py.remove_char]; [apply occurs_char_nil|].
  destruct (Ascii.eqb b c) eqn:E; [exact IH|].
  rewrite occurs_char_cons. apply Ascii.eqb_neq in E. intros [->|H]; tauto.
Qed.

Lemma dataset_shaped_first s :
  dataset_shaped s = true → ∃ c r, s = String c r ∧ Ascii.eqb c "/" = false.
Proof.
  unfold dataset_shaped. destruct s as [|c r]; [discriminate|].
  cbn [Py.span]. unfold not_slash at 1.
  destruct (Ascii.eqb c "/") eqn:E; cbn [negb]; [discriminate|].
  intros _. by exists c, r.
Qed.

Lemma flag_word_dashed allowed w :
  first_not_in allowed w = None →
  flag_word allowed (if String.eqb w EmptyString then w else "-" +:+ w).
Proof.
  intros Hw. destruct w as [|c w]; [by left|]. right. by exists c, w.
Qed.

Section Validation.
Variables (exit_on_error : bool) (ns : namespace).
Local Abbreviation unquoted := (Py.remove_char "'").

(** What the tests of [validate_args] have found when it returns. *)
Lemma validate_args_inv v :
  validate_args exit_on_error ns = Valid v →
  ns_full_incremental ns && ns_incremental ns = false
  ∧ first_not_in "DLPRbcehnpsvw" (unquoted (ns_send ns)) = None
  ∧ first_not_in "FhMnsuv" (unquoted (ns_recv ns)) = None
  ∧ dataset_shaped (unquoted (ns_source ns)) = true
  ∧ (∀ d, ns_destination ns = Some d → dataset_shaped (unquoted d) = true)
  ∧ (∃ omit,
       match ns_omit ns with
       | Some (String c o) => _get_timedelta (unquoted (String c o)) = Ok omit
                              ∧ v_omit v = Some omit
       | _ => v_omit v = None
       end)
  ∧ v_source v = unquoted (ns_source ns)
  ∧ v_destination v = unquoted <$> ns_destination ns
  ∧ v_label v = unquoted (ns_label ns)
  ∧ v_send v = (if String.eqb (unquoted (ns_send ns)) EmptyString
                then unquoted (ns_send ns) else "-" +:+ unquoted (ns_send ns))
  ∧ v_recv v = (if String.eqb (unquoted (ns_recv ns)) EmptyString
                then unquoted (ns_recv ns) else "-" +:+ unquoted (ns_recv ns))
  ∧ v_incremental v = ns_incremental ns
  ∧ v_full_incremental v = ns_full_incremental ns
  ∧ v_snap_only v = ns_snap_only ns
  ∧ v_transfer_only v = ns_transfer_only ns
  ∧ v_no_omit_unchanged v = ns_no_omit_unchanged ns
  ∧ v_no_cleanup v = ns_no_cleanup ns.
Proof.
  unfold validate_args, when, _exit_throw.
  destruct (ns_full_incremental ns && ns_incremental ns);
    [destruct exit_on_error; discriminate|].
  cbn [mbind outcome_bind].
  destruct (first_not_in "DLPRbcehnpsvw" _) eqn:Hsend;
    [destruct exit_on_error; discriminate|].
  cbn [mbind outcome_bind].
  destruct (first_not_in "FhMnsuv" _) eqn:Hrecv;
    [destruct exit_on_error; discriminate|].
  cbn [mbind outcome_bind].
  destruct (dataset_shaped (unquoted (ns_source ns))) eqn:Hsrc;
    [|destruct exit_on_error; discriminate].
  cbn [negb mbind outcome_bind].
  assert (∀ d, ns_destination ns = Some d →
               dataset_shaped (unquoted d) = true
               ∨ ∀ k : unit → outcome validated,
                   (if negb (dataset_shaped (unquoted d))
                    then if exit_on_error
                         then Exit ("Destination: " +:+ unquoted d +:+ " does  not appear valid")
                         else Invalid ("Destination: " +:+ unquoted d +:+ " does  not appear valid")
                    else Valid ()) ≫= k ≠ Valid v) as Hdest.
  { intros d _. destruct (dataset_shaped (unquoted d)); [by left|right].
    intros k. destruct exit_on_error; discriminate. }
  destruct (ns_destination ns) as [d|] eqn:Hd; cbn [fmap option_fmap option_map].
  - destruct (Hdest d eq_refl) as [Hshaped|Hfail]; [|intros H; by apply Hfail in H].
    rewrite Hshaped. cbn [negb mbind outcome_bind default].
    destruct (dataset_shaped_first _ Hsrc) as (c & r & -> & Hc).
    destruct (dataset_shaped_first _ Hshaped) as (c' & r' & Hd' & Hc').
    rewrite Hd' in *. cbn [starts_with_slash mbind outcome_bind id]. rewrite Hc.
    cbn [starts_with_slash mbind outcome_bind id]. rewrite Hc'.
    cbn [mbind outcome_bind].
    destruct (ns_omit ns) as [[|co o]|]; cbn [mbind outcome_bind].
    + intros [= <-]; cbn. split_and!; try reflexivity; try (by exists (Time.Timedelta 0 0 0)).
      all: try (intros ? [= <-]; by rewrite Hd').
    + destruct (_get_timedelta _) as [td|]; [|discriminate].
      cbn [mbind outcome_bind]. intros [= <-]; cbn.
      split_and!; try reflexivity; try (by exists td). all: try (intros ? [= <-]; by rewrite Hd').
    + intros [= <-]; cbn. split_and!; try reflexivity; try (by exists (Time.Timedelta 0 0 0)).
      all: try (intros ? [= <-]; by rewrite Hd').
  - cbn [mbind outcome_bind default].
    destruct (dataset_shaped_first _ Hsrc) as (c & r & -> & Hc).
    cbn [starts_with_slash mbind outcome_bind]. rewrite Hc.
    cbn [starts_with_slash mbind outcome_bind].
    change (Ascii.eqb "-" "/") with false. cbn [mbind outcome_bind].
    destruct (ns_omit ns) as [[|co o]|]; cbn [mbind outcome_bind].
    + intros [= <-]; cbn. split_and!; try reflexivity; try (by exists (Time.Timedelta 0 0 0)).
      all: try discriminate.
    + destruct (_get_timedelta _) as [td|]; [|discriminate].
      cbn [mbind outcome_bind]. intros [= <-]; cbn.
      split_and!; try reflexivity; try (by exists td). all: try discriminate.
    + intros [= <-]; cbn. split_and!; try reflexivity; try (by exists (Time.Timedelta 0 0 0)).
      all: try discriminate.
Qed.

End Validation.

Lemma validate_args_modes ns :
  same_verdict (validate_args true ns) (validate_args false ns).
Proof.
  unfold validate_args, when, _exit_throw.
  destruct (ns_full_incremental ns && ns_incremental ns); [exact I|].
  cbn [mbind outcome_bind].
  destruct (first_not_in "DLPRbcehnpsvw" _); [exact I|].
  cbn [mbind outcome_bind].
  destruct (first_not_in "FhMnsuv" _); [exact I|].
  cbn [mbind outcome_bind].
  destruct (dataset_shaped (Py.remove_char "'" (ns_source ns))); [|exact I].
  cbn [negb mbind outcome_bind].
  destruct (ns_destination ns) as [d|]; cbn [fmap option_fmap option_map];
    [destruct (dataset_shaped (Py.remove_char "'" d)); [|exact I]|];
    cbn [negb mbind outcome_bind];
    repeat match goal with
           | |- context [starts_with_slash ?x] =>
               destruct x as [|? ?];
               cbn [starts_with_slash mbind outcome_bind default id];
               try match goal with
                   | |- context [Ascii.eqb ?c "/"] => destruct (Ascii.eqb c "/")
                   end;
               cbn [mbind outcome_bind]
           end;
    try (exact I || reflexivity);
    (destruct (ns_omit ns) as [[|co o]|]; cbn [mbind outcome_bind];
       try reflexivity);
    destruct (_get_timedelta _); reflexivity.
Qed.

(** How [validate_args] fails: which test stopped it. *)
Lemma validate_args_failure exit_on_error ns :
  match validate_args exit_on_error ns with
  | Valid _ => True
  | Exit m | Invalid m =>
      m ≠ slash_message
      ∧ (ns_full_incremental ns && ns_incremental ns = true
         ∨ first_not_in "DLPRbcehnpsvw" (Py.remove_char "'" (ns_send ns)) ≠ None
         ∨ first_not_in "FhMnsuv" (Py.remove_char "'" (ns_recv ns)) ≠ None
         ∨ dataset_shaped (Py.remove_char "'" (ns_source ns)) = false
         ∨ ∃ d, ns_destination ns = Some d
             ∧ dataset_shaped (Py.remove_char "'" d) = false)
  | Raised e =>
      ∃ o, ns_omit ns = Some o ∧ _get_timedelta (Py.remove_char "'" o) = Raise e
  end.
Proof.
  unfold validate_args, when, _exit_throw, slash_message.
  destruct (ns_full_incremental ns && ns_incremental ns).
  { destruct exit_on_error; (split; [discriminate|by left]). }
  cbn [mbind outcome_bind].
  destruct (first_not_in "DLPRbcehnpsvw" _).
  { destruct exit_on_error; (split; [discriminate|right; by left]). }
  cbn [mbind outcome_bind].
  destruct (first_not_in "FhMnsuv" _).
  { destruct exit_on_error; (split; [discriminate|right; right; by left]). }
  cbn [mbind outcome_bind].
  destruct (dataset_shaped (Py.remove_char "'" (ns_source ns))) eqn:Hsrc.
  2:{ destruct exit_on_error;
        (split; [cbv [String.append]; congruence|right; right; right; by left]). }
  cbn [negb mbind outcome_bind].
  destruct (dataset_shaped_first _ Hsrc) as (c & r & -> & Hc).
  cbn [starts_with_slash]. rewrite Hc.
  destruct (ns_destination ns) as [d|]; cbn [fmap option_fmap option_map].
  - destruct (dataset_shaped (Py.remove_char "'" d)) eqn:Hd.
    2:{ destruct exit_on_error;
          (split; [cbv [String.append]; congruence
                  |right; right; right; right; by exists d]). }
    cbn [negb mbind outcome_bind default id].
    destruct (dataset_shaped_first _ Hd) as (c' & r' & -> & Hc').
    cbn [starts_with_slash mbind outcome_bind]. rewrite Hc'.
    cbn [mbind outcome_bind].
    destruct (ns_omit ns) as [[|co o]|]; cbn [mbind outcome_bind];
      try exact I.
    destruct (_get_timedelta _) eqn:E; cbn [mbind outcome_bind]; [exact I|].
    by exists (String co o).
  - cbn [negb mbind outcome_bind default id starts_with_slash].
    change (Ascii.eqb "-" "/") with false. cbn [mbind outcome_bind].
    destruct (ns_omit ns) as [[|co o]|]; cbn [mbind outcome_bind];
      try exact I.
    destruct (_get_timedelta _) eqn:E; cbn [mbind outcome_bind]; [exact I|].
    by exists (String co o).
Qed.

(** X16.  When [validate_args] returns, the two incremental modes are not
    both set, the send and receive flags are empty or a ["-"] followed by
    allowed flags only, the source and a given destination have the shape
    of a dataset below a pool, no quote is left in the source or the label,
    and an omit duration is a normalised duration that is not negative. *)
Theorem validate_args_postcondition exit_on_error ns v :
  validate_args exit_on_error ns = Valid v →
  v_full_incremental v && v_incremental v = false
  ∧ flag_word send_flags (v_send v)
  ∧ flag_word recv_flags (v_recv v)
  ∧ dataset_shaped (v_source v) = true
  ∧ (∀ d, v_destination v = Some d → dataset_shaped d = true)
  ∧ ¬ occurs quote (v_source v)
  ∧ ¬ occurs quote (v_label v)
  ∧ (∀ td, v_omit v = Some td → normalised td ∧ 0 <= Time.days td).
Proof.
  intros H.
  destruct (validate_args_inv exit_on_error ns v H)
    as (Hinc & Hsend & Hrecv & Hsrc & Hdest & (om & Hom) & -> & -> & -> & ->
        & -> & -> & -> & _).
  split_and!.
  - exact Hinc.
  - exact (flag_word_dashed _ _ Hsend).
  - exact (flag_word_dashed _ _ Hrecv).
  - exact Hsrc.
  - intros d Hd. destruct (ns_destination ns) as [d0|]; [|discriminate].
    injection Hd as <-. exact (Hdest d0 eq_refl).
  - apply remove_char_absent.
  - apply remove_char_absent.
  - intros td Htd. destruct (ns_omit ns) as [[|c o]|]; try congruence.
    destruct Hom as [Hget Hv]. rewrite Hv in Htd. injection Htd as <-.
    destruct (get_timedelta_sound _ _ Hget)
      as (n & u & _ & _ & _ & _ & Hnorm & Hdays).
    split; [exact Hnorm|lia].
Qed.

Lemma validate_args_postcondition_witness :
  flag_word send_flags "-Rw" ∧ dataset_shaped "pool/ds" = true.
Proof.
  pose proof (validate_args_postcondition true
    (Namespace "'pool/ds'" (Some "backup/ds") "yazbak" "Rw" "" true false false
       false false false (Some "90m"))
    (Validated "pool/ds" (Some "backup/ds") "yazbak" "-Rw" "" true false false
       false false false (Some (Time.Timedelta 0 5400 0)))
    eq_refl) as (_ & Hsend & _ & Hsrc & _).
  exact (conj Hsend Hsrc).
Defined.

(** X17.  The last test of [validate_args] never fails: no input is
    refused with "Source and destination cannot start with '/'", because a
    source or destination starting with ["/"] is refused before, by the
    test of its shape.  An exception other than the [ValueError] of a
    refusal comes from [_get_timedelta] on the omit text only. *)
Theorem validate_args_slash_test_dead exit_on_error ns :
  validate_args exit_on_error ns ≠ Exit slash_message
  ∧ validate_args exit_on_error ns ≠ Invalid slash_message
  ∧ ∀ e, validate_args exit_on_error ns = Raised e →
      ∃ o, ns_omit ns = Some o
        ∧ _get_timedelta (Py.remove_char "'" o) = Raise e
        ∧ (e = ValueError ∨ e = OverflowError).
Proof.
  pose proof (validate_args_failure exit_on_error ns) as H.
  split_and!.
  - intros E. rewrite E in H. destruct H as [H _]. by apply H.
  - intros E. rewrite E in H. destruct H as [H _]. by apply H.
  - intros e E. rewrite E in H. destruct H as (o & Ho & Hget).
    exists o. split_and!; [exact Ho|exact Hget|].
    destruct (get_timedelta_raises _ _ Hget) as [[-> _]|[-> _]]; tauto.
Qed.

(** X18.  [exit_on_error] changes only how a refusal is delivered: both
    modes accept the same inputs with the same validated arguments, let the
    same exception of [_get_timedelta] through, and where one prints and
    exits the other raises [ValueError]. *)
Theorem validate_args_modes_agree ns :
  same_verdict (validate_args true ns) (validate_args false ns).
Proof. exact (validate_args_modes ns). Qed.

Lemma validate_args_slash_test_dead_witness :
  ∃ o, Some "soon" = Some o
    ∧ _get_timedelta (Py.remove_char "'" o) = Raise ValueError
    ∧ (ValueError = ValueError ∨ ValueError = OverflowError).
Proof.
  destruct (validate_args_slash_test_dead false
              (Namespace "pool/ds" (Some "backup/ds") "yazbak" "" "" false false
                 false false false false (Some "soon"))) as (_ & _ & H).
  apply (H ValueError). reflexivity.
Defined.

(** ** Listings *)

Lemma startswith_prefix s p q :
  Py.startswith s (p +:+ q) = true → Py.startswith s p = true.
Proof.
  revert s. induction p as [|a p IH]; intros s; [by destruct s|].
  rewrite append_cons. destruct s as [|b s]; cbn [Py.startswith]; [done|].
  rewrite !andb_true_iff. intros [? ?]. eauto.
Qed.

Lemma find_from_prefix i s p q :
  0 <= i → Py.find_from i s (p +:+ q) ≠ -1 → Py.find_from i s p ≠ -1.
Proof.
  revert i. induction s as [|b s IH]; intros i Hi.
  - cbn [Py.find_from].
    destruct (Py.startswith "" (p +:+ q)) eqn:E; [|congruence].
    rewrite (startswith_prefix _ _ _ E). lia.
  - cbn [Py.find_from].
    destruct (Py.startswith (String b s) p) eqn:Ep; [lia|].
    destruct (Py.startswith (String b s) (p +:+ q)) eqn:E.
    + rewrite (startswith_prefix _ _ _ E) in Ep. discriminate.
    + apply IH. lia.
Qed.

Lemma occurs_prefix p q line : occurs (p +:+ q) line → occurs p line.
Proof. unfold occurs, Py.find. apply find_from_prefix. lia. Qed.

Lemma yaz_among_all a d lines :
  sublist (yaz_snapshots a d lines) (all_snapshots (Some d) lines)
  ∧ sublist (all_snapshots (Some d) lines) (all_snapshots None lines).
Proof.
  induction lines as [|line lines [IH1 IH2]]; [split; constructor|].
  cbn [yaz_snapshots all_snapshots].
  destruct (Py.find line (d +:+ "@") =? -1) eqn:Eall; cbn [negb].
  - split; [|by apply sublist_cons].
    destruct (Py.find line (d +:+ "@" +:+ label a) =? -1) eqn:E; [exact IH1|].
    apply Z.eqb_neq in E. apply Z.eqb_eq in Eall.
    rewrite <- append_assoc in E. apply occurs_prefix in E. contradiction.
  - split; [|by apply sublist_skip].
    destruct (Py.find line (d +:+ "@" +:+ label a) =? -1); cbn [negb].
    + by apply sublist_cons.
    + by apply sublist_skip.
Qed.

Lemma list_yaz_snapshots_run s d st tr :
  list_yaz_snapshots s d st tr
  = (if returncode (st (list_command d)) =? 0
     then Ok (listed (self_args s) st d)
     else Raise (ZFSError (stderr (st (list_command d)))),
     tr ++ [list_command d]).
Proof.
  unfold list_yaz_snapshots, mbind, M_bind, run, raise, mret, M_ret.
  fold (list_command d). destruct (returncode _ =? 0); reflexivity.
Qed.

(** X19.  What [list_yaz_snapshots] returns for a dataset is part of what
    [list_all_snapshots] returns for it, in the same order and from the
    same single query. *)
Theorem list_yaz_snapshots_among_all s st c d names tr :
  exec (list_yaz_snapshots s (String c d)) st = (Ok names, tr) →
  ∃ every,
    exec (list_all_snapshots (Some (String c d))) st = (Ok every, tr)
    ∧ sublist names every.
Proof.
  unfold exec. rewrite list_yaz_snapshots_run.
  destruct (returncode _ =? 0); [|discriminate].
  intros [= <- <-].
  exists (all_snapshots (Some (String c d))
            (Py.splitlines (stdout (st (list_command (String c d)))))).
  split; [reflexivity|]. apply yaz_among_all.
Qed.

Lemma list_yaz_snapshots_among_all_witness :
  ∃ every,
    exec (list_all_snapshots (Some "pool/ds")) 
      (sample_store [] (snapshots_AB "pool/ds" ++ ["pool/ds@manual"]) [])
    = (Ok every, [list_command "pool/ds"])
    ∧ sublist (snapshots_AB "pool/ds") every.
Proof.
  apply (list_yaz_snapshots_among_all sample_self
           (sample_store [] (snapshots_AB "pool/ds" ++ ["pool/ds@manual"]) [])
           "p" "ool/ds" (snapshots_AB "pool/ds") [list_command "pool/ds"]).
  reflexivity.
Defined.

(** ** The commands of a run *)

Lemma too_recent_trace other s st tr :
  ∃ r qs, too_recent other s st tr = (r, tr ++ qs)
    ∧ Forall (λ c, is_pipeline c = false) qs.
Proof.
  unfold too_recent.
  destruct (omit_configured (self_args s)) as [om|].
  2:{ exists (Ok false), []. by rewrite app_nil_r. }
  unfold mbind at 1, M_bind at 1. rewrite list_yaz_snapshots_run.
  destruct (returncode _ =? 0).
  - destruct (last _) as [last_snap|].
    + unfold mbind, M_bind, lift, mret, M_ret.
      destruct (last_snap_time other last_snap) as [t|e].
      * destruct (Time.sub (now s) t); eexists _, [_]; split;
          (reflexivity || by repeat constructor).
      * eexists _, [_]; split; (reflexivity || by repeat constructor).
    + eexists _, [_]; split; (reflexivity || by repeat constructor).
  - eexists _, [_]; split; (reflexivity || by repeat constructor).
Qed.

Lemma conditional_snapshot_trace other s st :
  Forall (λ c, is_pipeline c = false) (exec (conditional_snapshot other s) st).2.
Proof.
  unfold exec, conditional_snapshot.
  destruct (transfer_only (self_args s)); [constructor|].
  unfold mbind at 1, M_bind at 1.
  pose proof (has_changed_run s st) as Hrun. unfold exec in Hrun. rewrite Hrun.
  destruct (returncode _ =? 0); [|by repeat constructor].
  destruct (has_changed_lines _ _) as [changed|e]; [|by repeat constructor].
  destruct (negb changed && negb (no_omit_unchanged (self_args s)));
    [by repeat constructor|].
  unfold mbind, M_bind.
  destruct (too_recent_trace other s st [get_written_command (self_args s)])
    as (r & qs & -> & Hqs).
  destruct r as [[|]|e].
  - cbn. constructor; [reflexivity|exact Hqs].
  - rewrite snapshot_run. cbn [snd].
    rewrite Forall_app. split; [|repeat constructor].
    + constructor; [reflexivity|exact Hqs].
    + unfold snapshot_command. by destruct (Py.contains _ _).
  - cbn. constructor; [reflexivity|exact Hqs].
Qed.

Lemma conditional_snapshot_transfer_only other s st :
  transfer_only (self_args s) = true →
  exec (conditional_snapshot other s) st = (Ok false, []).
Proof. intros H. unfold exec, conditional_snapshot. by rewrite H. Qed.

Lemma new_backup_end s st tr : transfer_end st tr (new_backup s st tr).
Proof.
  unfold new_backup, try_except.
  unfold mbind at 1, M_bind at 1.
  unfold mbind at 1, M_bind at 1. rewrite list_yaz_snapshots_run.
  destruct (returncode _ =? 0).
  - unfold mbind at 1, M_bind at 1, lift at 1.
    destruct (last _) as [last_snap|]; cbn [or_raise].
    + unfold lift. destruct (Py.search_behind_at last_snap) as [name|];
        cbn [or_raise].
      * unfold mbind, M_bind, run, raise, mret, M_ret.
        rewrite <- app_assoc.
        match goal with |- context [st (Shell ?x)] =>
          pose proof (transfer_sent st tr [list_command (source (self_args s))] x)
            as H end.
        destruct (returncode _ =? 0); cbn [negb] in *; apply H;
          by repeat constructor.
      * unfold raise. apply transfer_refused. by repeat constructor.
    + unfold raise. apply transfer_refused. by repeat constructor.
  - unfold raise. apply transfer_refused. by repeat constructor.
Qed.

Lemma incremental_backup_end s st tr :
  transfer_end st tr (incremental_backup s st tr).
Proof.
  unfold incremental_backup.
  unfold mbind at 1, M_bind at 1. rewrite list_yaz_snapshots_run.
  destruct (returncode (st (list_command (source _))) =? 0);
    [|apply transfer_refused; by repeat constructor].
  unfold mbind at 1, M_bind at 1. rewrite list_yaz_snapshots_run.
  rewrite <- app_assoc. cbn [app].
  destruct (returncode (st (list_command (destination _))) =? 0);
    [|apply transfer_refused; by repeat constructor].
  unfold mbind at 1, M_bind at 1, lift at 1.
  destruct (get_pairs _ _) as [pairs|e];
    [|apply transfer_refused; by repeat constructor].
  destruct (length pairs =? 0)%nat;
    [apply transfer_refused; by repeat constructor|].
  unfold mbind at 1, M_bind at 1, lift at 1.
  destruct (last pairs) as [last_pair|]; cbn [or_raise];
    [|apply transfer_refused; by repeat constructor].
  unfold mbind at 1, M_bind at 1, lift at 1.
  destruct (last _) as [src_end|]; cbn [or_raise];
    [|apply transfer_refused; by repeat constructor].
  destruct (String.eqb _ _);
    [apply transfer_refused; by repeat constructor|].
  unfold mbind, M_bind, run, raise, mret, M_ret.
  match goal with |- context [st (Shell ?x)] =>
    pose proof (transfer_sent st tr
                  [list_command (source (self_args s));
                   list_command (destination (self_args s))] x) as H end.
  cbn [app] in H. rewrite <- app_assoc. cbn [app].
  destruct (returncode _ =? 0); cbn [negb] in *; apply H; by repeat constructor.
Qed.

Lemma transfer_ends s st tr : transfer_end st tr (transfer s st tr).
Proof.
  unfold transfer.
  destruct (incremental (self_args s) || full_incremental (self_args s));
    [apply incremental_backup_end|apply new_backup_end].
Qed.

Lemma listing_not_pipeline qs :
  Forall (λ c, is_listing c = true) qs → Forall (λ c, is_pipeline c = false) qs.
Proof.
  intros H. eapply Forall_impl; [exact H|].
  intros [argv|sh]; [reflexivity|discriminate].
Qed.

(** [do_all] in terms of its two steps. *)
Lemma do_all_run other s w :
  do_all other s w
  = match exec (conditional_snapshot other s) (w []) with
    | (Raise e, tr) => (Raise e, tr)
    | (Ok _, tr) =>
        if snap_only (self_args s) then (Ok tt, tr)
        else match transfer s (w tr) tr with
             | (Raise e, tr') => (Raise e, tr')
             | (Ok _, tr') => (Ok tt, tr')
             end
    end.
Proof.
  unfold do_all, exec, cleanup, mret, M_ret.
  destruct (conditional_snapshot other s (w []) []) as [[_|e] tr]; [|reflexivity].
  destruct (snap_only (self_args s)); [reflexivity|].
  destruct (transfer s (w tr) tr) as [[[]|e] tr']; [|reflexivity].
  destruct (negb (no_cleanup (self_args s))); reflexivity.
Qed.

Lemma do_all_trace other s w :
  ∃ pre,
    Forall (λ c, is_pipeline c = false) pre
    ∧ ((do_all other s w).2 = pre ∨ ∃ sh, (do_all other s w).2 = pre ++ [Shell sh]).
Proof.
  rewrite do_all_run.
  pose proof (conditional_snapshot_trace other s (w [])) as Hc.
  destruct (exec (conditional_snapshot other s) (w [])) as [[b|e] tr]; cbn [snd] in Hc.
  2:{ exists tr. split; [exact Hc|by left]. }
  destruct (snap_only (self_args s)).
  { exists tr. split; [exact Hc|by left]. }
  destruct (transfer_ends s (w tr) tr) as [e qs Hqs|qs sh Hqs].
  - exists (tr ++ qs). split; [|by left].
    apply Forall_app. split; [exact Hc|by apply listing_not_pipeline].
  - exists (tr ++ qs). split.
    + apply Forall_app. split; [exact Hc|by apply listing_not_pipeline].
    + right. exists sh. rewrite app_assoc.
      destruct (returncode _ =? 0); reflexivity.
Qed.

(** X20.  A run issues at most one send pipeline, and nothing after it:
    the commands of [do_all] are commands that are not pipelines, followed
    by at most one pipeline. *)
Theorem do_all_one_pipeline_last other s w :
  ∃ pre,
    Forall (λ c, is_pipeline c = false) pre
    ∧ ((do_all other s w).2 = pre ∨ ∃ sh, (do_all other s w).2 = pre ++ [Shell sh]).
Proof. exact (do_all_trace other s w). Qed.

(** X21.  Under [snap_only] a run sends nothing: [do_all] ends as
    [conditional_snapshot] does and none of its commands is a pipeline. *)
Theorem do_all_snap_only other s w :
  snap_only (self_args s) = true →
  (do_all other s w).2 = (exec (conditional_snapshot other s) (w [])).2
  ∧ Forall (λ c, is_pipeline c = false) (do_all other s w).2.
Proof.
  intros Hsnap. rewrite do_all_run, Hsnap.
  pose proof (conditional_snapshot_trace other s (w [])) as Hc.
  destruct (exec (conditional_snapshot other s) (w [])) as [[b|e] tr]; by split.
Qed.

Lemma do_all_snap_only_witness :
  Forall (λ c, is_pipeline c = false)
    (do_all strict_iso (init (Args "pool/ds" "-" "yazbak" "" "" false false true false
                     false false None) sample_now)
       (λ _, written_store "2024-01-01_1000")).2.
Proof.
  apply (do_all_snap_only strict_iso
           (init (Args "pool/ds" "-" "yazbak" "" "" false false true false
                    false false None) sample_now)
           (λ _, written_store "2024-01-01_1000")).
  reflexivity.
Defined.

(** X22.  When [do_all] returns normally without [snap_only], its last
    command was a send pipeline, answered with return code 0 by the store
    as the snapshot step left it. *)
Theorem do_all_returns_after_transfer other s w tr :
  snap_only (self_args s) = false →
  do_all other s w = (Ok tt, tr) →
  ∃ pre sh,
    tr = pre ++ [Shell sh]
    ∧ Forall (λ c, is_pipeline c = false) pre
    ∧ returncode (w (exec (conditional_snapshot other s) (w [])).2 (Shell sh)) = 0.
Proof.
  intros Hsnap. rewrite do_all_run, Hsnap.
  pose proof (conditional_snapshot_trace other s (w [])) as Hc.
  destruct (exec (conditional_snapshot other s) (w [])) as [[b|e] tr1];
    cbn [snd] in *; [|discriminate].
  destruct (transfer_ends s (w tr1) tr1) as [e qs Hqs|qs sh Hqs]; [discriminate|].
  destruct (returncode (w tr1 (Shell sh)) =? 0) eqn:Hrc; [|discriminate].
  intros [= <-]. exists (tr1 ++ qs), sh. split_and!.
  - by rewrite app_assoc.
  - apply Forall_app. split; [exact Hc|by apply listing_not_pipeline].
  - by apply Z.eqb_eq.
Qed.

Lemma do_all_returns_after_transfer_witness :
  ∃ pre sh,
    [get_written_command sample_args; snapshot_command sample_self;
     list_command "pool/ds";
     full_command sample_args "yazbak_2024-01-01_1000"]
    = pre ++ [Shell sh]
    ∧ Forall (λ c, is_pipeline c = false) pre
    ∧ returncode
        (written_store "2024-01-01_1000" (Shell sh)) = 0.
Proof.
  apply (do_all_returns_after_transfer strict_iso sample_self
           (λ _, written_store "2024-01-01_1000")); reflexivity.
Defined.

(** X23.  Under [transfer_only] a run reads and sends only: every command
    of [do_all] is a [zfs list] query or the send pipeline, so it neither
    asks for the bytes written nor creates a snapshot. *)
Theorem do_all_transfer_only other s w :
  transfer_only (self_args s) = true →
  Forall (λ c, is_listing c || is_pipeline c = true) (do_all other s w).2.
Proof.
  intros Ht. rewrite do_all_run, (conditional_snapshot_transfer_only other s _ Ht).
  destruct (snap_only (self_args s)); [constructor|].
  assert (∀ qs, Forall (λ c, is_listing c = true) qs →
                Forall (λ c, is_listing c || is_pipeline c = true) qs) as Hl.
  { intros qs H. eapply Forall_impl; [exact H|]. intros c ->. reflexivity. }
  destruct (transfer_ends s (w []) []) as [e qs Hqs|qs sh Hqs].
  - cbn. by apply Hl.
  - assert (Forall (λ c, is_listing c || is_pipeline c = true) (qs ++ [Shell sh])).
    { apply Forall_app. split; [by apply Hl|by repeat constructor]. }
    destruct (returncode _ =? 0); assumption.
Qed.

Lemma do_all_transfer_only_witness :
  Forall (λ c, is_listing c || is_pipeline c = true)
    (do_all strict_iso (init (Args "pool/ds" "backup/ds" "yazbak" "" "" false false false
                     true false false None) sample_now)
       (λ _, written_store "2024-01-01_1000")).2.
Proof.
  apply (do_all_transfer_only strict_iso
           (init (Args "pool/ds" "backup/ds" "yazbak" "" "" false false false
                    true false false None) sample_now)
           (λ _, written_store "2024-01-01_1000")).
  reflexivity.
Defined.
